(** * oanda-cli: the continuous-feed ingestion engine of [oanda.go]

    A shallow embedding of the streaming reader ([getStream],
    [getTransactionStream]), of the heartbeat watchdog they start, and of
    the candle poller ([getCandlesStream], [getCandlesForStream],
    [Candlestick.NewerThan]).

    Go values are embedded as follows.  A [[]byte] or [string] is a
    [string] (a list of 8-bit characters); [int] and [time.Duration] are
    [Z]; a nilable pointer is an [option]; a function that yields
    [(value, error)] yields a sum, except where the caller inspects both
    components, in which case it yields the pair.  What a function does to
    the outside world is a list of [event]s, in program order. *)

From Stdlib Require Import ZArith List String Ascii Bool Lia DecimalString.
Import ListNotations.
Local Open Scope Z_scope.
Local Open Scope list_scope.

(** ** Values shared by the three feeds *)

Definition bytes := string.

(** [time.Duration]: a count of nanoseconds. *)
Definition Duration := Z.

(** [time.Time] ([time_Time] here): an instant, in nanoseconds since the Unix epoch, and the
    offset (in seconds east of UTC) of the zone it is presented in.
    [After] and [Equal] compare instants only, as in package [time]: two
    values of different zones can be [Equal]. *)
Record time_Time := mkTime { unixNano : Z; zoneOffset : Z }.

Definition After (t u : time_Time) : bool := unixNano t >? unixNano u.
Definition Equal (t u : time_Time) : bool := unixNano t =? unixNano u.

(** [t.Format(time.RFC3339)], the layout [2006-01-02T15:04:05Z07:00]: the
    text shows the date and the time of day in the zone of [t], to the
    second, and the offset of the zone, to the minute.  It stands here as
    what it shows: the count of seconds of that local time, the fraction of
    the second dropped, and the offset in whole minutes. *)
Record RFC3339 := { localSecond : Z; offsetMinutes : Z }.

Definition Format_RFC3339 (t : time_Time) : RFC3339 :=
  {| localSecond := unixNano t / 1000000000 + zoneOffset t;
     offsetMinutes := Z.quot (zoneOffset t) 60 |}.

(** The Go errors that can reach the functions below. *)
Inductive error :=
| EOF                                   (* io.EOF *)
| ErrUnexpectedEOF                      (* a connection cut in the middle *)
| NetError (msg : string)               (* transport failure *)
| FileError (msg : string)              (* credentials file, yaml *)
| SyntaxError                           (* json: invalid input *)
| UnmarshalTypeError (field : string)   (* json: value of the wrong kind *)
| MarshalError (msg : string)           (* json.Marshal *)
| ErrorsNew (msg : string).             (* errors.New(msg) *)

Record Account := { AccountId : string; Token : string }.
Record Credentials := { Default : Account }.

(** What one call leaves behind.  [Get] is the request handed to
    [client.Do]; the other constructors are the statement named in their
    comment. *)
Inductive target :=
| PricingStream (account instruments : string)
| TransactionsStream (account : string)
| InstrumentCandles (instrument granularity : string) (from : RFC3339).

Inductive event :=
| Get (t : target) (bearer : string)
| Stdout (line : bytes)                 (* fmt.Println(string(line)) *)
| Stderr (line : string)                (* fmt.Fprintln(os.Stderr, line) *)
| GoWatchdog (timeout : Duration)       (* go func() { for { select ... } }() *)
| SendHeartbeat                         (* heartbeatChannel <- struct{}{} *)
| Sleep (d : Duration).                 (* time.Sleep(d) *)

(** How a call stands where the model stops following it: ended by
    [return err], ended by a panic, or still running (a loop that has not
    left: the poller after the last response supplied to the model). *)
Inductive exit :=
| Return (err : option error)
| Panic (msg : string)
| Running.

(** ** A monad for statements: the events so far, then an early exit or a
    value. *)
Module Stmt.

Definition M (A : Type) : Type := (list event * (exit + A))%type.

Definition ret {A} (a : A) : M A := ([], inr a).

Definition bind {A B} (m : M A) (k : A -> M B) : M B :=
  match m with
  | (t, inl e) => (t, inl e)
  | (t, inr a) => let (t', r) := k a in (t ++ t', r)
  end.

Definition emit (e : event) : M unit := ([e], inr tt).
Definition returnErr {A} (err : option error) : M A := ([], inl (Return err)).
Definition panic {A} (msg : string) : M A := ([], inl (Panic msg)).
Definition running {A} : M A := ([], inl Running).

(** [v, err := f(); if err != nil { return err }] *)
Definition try {A} (r : error + A) : M A :=
  match r with
  | inl err => returnErr (Some err)
  | inr a => ret a
  end.

(** [if err != nil { return err }] *)
Definition check (err : option error) : M unit :=
  match err with
  | Some e => returnErr (Some e)
  | None => ret tt
  end.

Definition nilDereference : string :=
  "runtime error: invalid memory address or nil pointer dereference".

(** [*p] *)
Definition deref {A} (p : option A) : M A :=
  match p with
  | None => panic nilDereference
  | Some a => ret a
  end.

Definition when (b : bool) (m : M unit) : M unit := if b then m else ret tt.

(** A function body whose value is the error it returns. *)
Definition call (m : M (option error)) : list event * exit :=
  match m with
  | (t, inl e) => (t, e)
  | (t, inr err) => (t, Return err)
  end.

End Stmt.
Import Stmt.

Declare Scope stmt_scope.
Delimit Scope stmt_scope with stmt.
Notation "x <- m ;; k" := (bind m (fun x => k))
  (at level 61, m at next level, right associativity) : stmt_scope.
Notation "m ;;; k" := (bind m (fun _ => k))
  (at level 61, right associativity) : stmt_scope.
Local Open Scope stmt_scope.

(** The lines written to standard output, in order. *)
Fixpoint stdout (t : list event) : list bytes :=
  match t with
  | [] => []
  | Stdout l :: t' => l :: stdout t'
  | _ :: t' => stdout t'
  end.

(** ** Candles *)

Record CandlestickData := { O : string; H : string; L : string; C : string }.

Record Candlestick := {
  Complete : bool;
  Volume : Z;
  Time : time_Time;
  Mid : option CandlestickData;
  Bid : option CandlestickData;
  Ask : option CandlestickData
}.

(** [func (self *Candlestick) NewerThan(other *Candlestick) bool] *)
Definition NewerThan (self other : Candlestick) : bool :=
  if After (Time self) (Time other) then true
  else if Equal (Time self) (Time other) then
    if eqb (Complete self) false && eqb (Complete other) false then
      Volume self >? Volume other
    else if eqb (Complete self) true && eqb (Complete other) false then true
    else false
  else false.

(** ** Package [encoding/json], as far as the feeds use it

    [json.Unmarshal] first checks that the whole input is one JSON value
    (RFC 8259, as the package's scanner accepts it: at most 10000 levels of
    nesting) and then stores the value in the destination.  [parse] is the
    first half together with the decoding of string literals; the stores
    into the structs of [oanda.go] follow in the next section. *)
Module Json.

#[local] Unset Elimination Schemes.
Inductive json :=
| JNull
| JBool (b : bool)
| JNumber (literal : string)
| JString (s : string)
| JArray (elements : list json)
| JObject (members : list (string * json)).
#[local] Set Elimination Schemes.

Definition code (c : ascii) : Z := Z.of_N (N_of_ascii c).
Definition char (z : Z) : ascii := ascii_of_N (Z.to_N z).
Definition between (lo z hi : Z) : bool := (lo <=? z) && (z <=? hi).

(** *** String literals

    The body of a literal is a run of [item]s: a byte written as it is
    (or through a two-character escape), or a UTF-16 unit written
    [\uXXXX].  The decoded string is UTF-8: a pair of surrogate units is
    one rune, a lone surrogate and every ill-formed byte become U+FFFD. *)
Inductive item :=
| Raw (c : ascii)
| Unit16 (u : Z).

Definition replacementChar : list ascii := [char 239; char 191; char 189].

(** [utf8.EncodeRune] *)
Definition encodeRune (r : Z) : list ascii :=
  if r <? 0 then replacementChar
  else if r <? 128 then [char r]
  else if r <? 2048 then [char (192 + r / 64); char (128 + r mod 64)]
  else if between 55296 r 57343 then replacementChar
  else if r <? 65536 then
    [char (224 + r / 4096); char (128 + (r / 64) mod 64); char (128 + r mod 64)]
  else if r <=? 1114111 then
    [char (240 + r / 262144); char (128 + (r / 4096) mod 64);
     char (128 + (r / 64) mod 64); char (128 + r mod 64)]
  else replacementChar.

Definition rawAt (l : list item) (i : nat) : Z :=
  match nth_error l i with
  | Some (Raw c) => code c
  | _ => -1
  end.

Definition continuation (b : Z) : bool := between 128 b 191.

(** The number of continuation bytes that complete the lead byte [b0]
    into a well-formed UTF-8 sequence; [0] when there is none
    ([utf8.DecodeRune] then yields U+FFFD and a width of one byte). *)
Definition utf8Tail (b0 : Z) (rest : list item) : nat :=
  let b1 := rawAt rest 0 in
  let b2 := rawAt rest 1 in
  let b3 := rawAt rest 2 in
  if between 194 b0 223 then
    if continuation b1 then 1%nat else 0%nat
  else if b0 =? 224 then
    if between 160 b1 191 && continuation b2 then 2%nat else 0%nat
  else if between 225 b0 236 || between 238 b0 239 then
    if continuation b1 && continuation b2 then 2%nat else 0%nat
  else if b0 =? 237 then
    if between 128 b1 159 && continuation b2 then 2%nat else 0%nat
  else if b0 =? 240 then
    if between 144 b1 191 && continuation b2 && continuation b3 then 3%nat else 0%nat
  else if between 241 b0 243 then
    if continuation b1 && continuation b2 && continuation b3 then 3%nat else 0%nat
  else if b0 =? 244 then
    if between 128 b1 143 && continuation b2 && continuation b3 then 3%nat else 0%nat
  else 0%nat.

(** [unquote]: [pending] counts the continuation bytes of a sequence
    already found well formed. *)
Fixpoint unquoteItems (pending : nat) (l : list item) : list ascii :=
  match l with
  | [] => []
  | Raw c :: rest =>
      match pending with
      | S n => c :: unquoteItems n rest
      | 0%nat =>
          if code c <? 128 then c :: unquoteItems 0 rest
          else match utf8Tail (code c) rest with
               | 0%nat => replacementChar ++ unquoteItems 0 rest
               | S n => c :: unquoteItems (S n) rest
               end
      end
  | Unit16 u :: rest =>
      if between 55296 u 57343 then
        match rest with
        | Unit16 v :: rest' =>
            if between 55296 u 56319 && between 56320 v 57343 then
              encodeRune ((u - 55296) * 1024 + (v - 56320) + 65536)
                ++ unquoteItems 0 rest'
            else replacementChar ++ unquoteItems 0 rest
        | _ => replacementChar ++ unquoteItems 0 rest
        end
      else encodeRune u ++ unquoteItems 0 rest
  end.

Definition unquote (revItems : list item) : string :=
  string_of_list_ascii (unquoteItems 0 (rev revItems)).

(** *** Tokens *)
Inductive token :=
| TLBrace | TRBrace | TLBracket | TRBracket | TColon | TComma
| TString (s : string)
| TNumber (literal : string)
| TTrue | TFalse | TNull.

(** The states of a number literal, as in the scanner: after [-], after
    a leading [0], in the integer digits, after the point, in the
    fraction, after [e], after the exponent's sign, in the exponent. *)
Inductive numState :=
| NNeg | NZero | NInt | NDot | NFrac | NExp | NExpSign | NExpDigits.

Inductive lexState :=
| LIdle
| LString (acc : list item)
| LEscape (acc : list item)
| LUnicode (acc : list item) (digits : nat) (u : Z)
| LNumber (st : numState) (acc : list ascii)
| LKeyword (expect : list ascii) (tok : token).

Definition isSpace (c : ascii) : bool :=
  let z := code c in (z =? 32) || (z =? 9) || (z =? 13) || (z =? 10).

Definition isDigit (c : ascii) : bool := between 48 (code c) 57.

Definition hexValue (c : ascii) : option Z :=
  let z := code c in
  if between 48 z 57 then Some (z - 48)
  else if between 97 z 102 then Some (z - 87)
  else if between 65 z 70 then Some (z - 55)
  else None.

Definition lexIdle (c : ascii) : option (lexState * list token) :=
  let z := code c in
  if isSpace c then Some (LIdle, [])
  else if z =? 123 then Some (LIdle, [TLBrace])
  else if z =? 125 then Some (LIdle, [TRBrace])
  else if z =? 91 then Some (LIdle, [TLBracket])
  else if z =? 93 then Some (LIdle, [TRBracket])
  else if z =? 58 then Some (LIdle, [TColon])
  else if z =? 44 then Some (LIdle, [TComma])
  else if z =? 34 then Some (LString [], [])
  else if z =? 45 then Some (LNumber NNeg [c], [])
  else if z =? 48 then Some (LNumber NZero [c], [])
  else if between 49 z 57 then Some (LNumber NInt [c], [])
  else if z =? 116 then Some (LKeyword (list_ascii_of_string "rue") TTrue, [])
  else if z =? 102 then Some (LKeyword (list_ascii_of_string "alse") TFalse, [])
  else if z =? 110 then Some (LKeyword (list_ascii_of_string "ull") TNull, [])
  else None.

(** The next state of a number on [c]: [Some None] when [c] ends it. *)
Definition numStep (st : numState) (c : ascii) : option (option numState) :=
  let z := code c in
  let isE := (z =? 101) || (z =? 69) in
  match st with
  | NNeg => if z =? 48 then Some (Some NZero)
            else if between 49 z 57 then Some (Some NInt) else None
  | NZero => if z =? 46 then Some (Some NDot)
             else if isE then Some (Some NExp) else Some None
  | NInt => if isDigit c then Some (Some NInt)
            else if z =? 46 then Some (Some NDot)
            else if isE then Some (Some NExp) else Some None
  | NDot => if isDigit c then Some (Some NFrac) else None
  | NFrac => if isDigit c then Some (Some NFrac)
             else if isE then Some (Some NExp) else Some None
  | NExp => if (z =? 43) || (z =? 45) then Some (Some NExpSign)
            else if isDigit c then Some (Some NExpDigits) else None
  | NExpSign => if isDigit c then Some (Some NExpDigits) else None
  | NExpDigits => if isDigit c then Some (Some NExpDigits) else Some None
  end.

Definition numComplete (st : numState) : bool :=
  match st with
  | NZero | NInt | NFrac | NExpDigits => true
  | _ => false
  end.

Definition numberToken (acc : list ascii) : token :=
  TNumber (string_of_list_ascii (rev acc)).

Definition lexStep (st : lexState) (c : ascii) : option (lexState * list token) :=
  let z := code c in
  match st with
  | LIdle => lexIdle c
  | LString acc =>
      if z =? 34 then Some (LIdle, [TString (unquote acc)])
      else if z =? 92 then Some (LEscape acc, [])
      else if z <? 32 then None
      else Some (LString (Raw c :: acc), [])
  | LEscape acc =>
      if (z =? 34) || (z =? 92) || (z =? 47) then Some (LString (Raw c :: acc), [])
      else if z =? 98 then Some (LString (Raw (char 8) :: acc), [])
      else if z =? 102 then Some (LString (Raw (char 12) :: acc), [])
      else if z =? 110 then Some (LString (Raw (char 10) :: acc), [])
      else if z =? 114 then Some (LString (Raw (char 13) :: acc), [])
      else if z =? 116 then Some (LString (Raw (char 9) :: acc), [])
      else if z =? 117 then Some (LUnicode acc 0 0, [])
      else None
  | LUnicode acc n u =>
      match hexValue c with
      | None => None
      | Some d =>
          match n with
          | 3%nat => Some (LString (Unit16 (u * 16 + d) :: acc), [])
          | _ => Some (LUnicode acc (S n) (u * 16 + d), [])
          end
      end
  | LNumber ns acc =>
      match numStep ns c with
      | None => None
      | Some (Some ns') => Some (LNumber ns' (c :: acc), [])
      | Some None =>
          match lexIdle c with
          | None => None
          | Some (st', toks) => Some (st', numberToken acc :: toks)
          end
      end
  | LKeyword expect tok =>
      match expect with
      | [] => None
      | e :: rest =>
          if Ascii.eqb c e then
            match rest with
            | [] => Some (LIdle, [tok])
            | _ => Some (LKeyword rest tok, [])
            end
          else None
      end
  end.

Definition lexEnd (st : lexState) : option (list token) :=
  match st with
  | LIdle => Some []
  | LNumber ns acc => if numComplete ns then Some [numberToken acc] else None
  | _ => None
  end.

Fixpoint lex (st : lexState) (s : string) : option (list token) :=
  match s with
  | EmptyString => lexEnd st
  | String c s' =>
      match lexStep st c with
      | None => None
      | Some (st', toks) =>
          match lex st' s' with
          | None => None
          | Some more => Some (toks ++ more)
          end
      end
  end.

(** *** The grammar

    One pass over the tokens with the stack of the containers that are
    open: the elements or members read so far, latest first, and for an
    object the key that awaits its value. *)
Inductive frame :=
| FArray (revElements : list json)
| FObject (revMembers : list (string * json)) (key : option string).

Inductive expect :=
| PValue            (* a value *)
| PValueOrEnd       (* after [[]: a value or []] *)
| PKeyOrEnd         (* after [{]: a key or [}] *)
| PKey              (* after a comma in an object *)
| PColon            (* after a key *)
| PCommaOrEnd       (* after a value in a container *)
| PDone (v : json). (* after the top-level value *)

Definition maxNestingDepth : Z := 10000.

(** A value is complete: it is the result, or joins the innermost open
    container. *)
Definition complete (v : json) (stack : list frame) : option (expect * list frame) :=
  match stack with
  | [] => Some (PDone v, [])
  | FArray es :: stack' => Some (PCommaOrEnd, FArray (v :: es) :: stack')
  | FObject ms (Some k) :: stack' =>
      Some (PCommaOrEnd, FObject ((k, v) :: ms) None :: stack')
  | FObject _ None :: _ => None
  end.

Definition push (f : frame) (next : expect) (stack : list frame)
  : option (expect * list frame) :=
  if Z.of_nat (List.length (f :: stack)) <=? maxNestingDepth
  then Some (next, f :: stack) else None.

Definition beginValue (t : token) (stack : list frame) : option (expect * list frame) :=
  match t with
  | TLBrace => push (FObject [] None) PKeyOrEnd stack
  | TLBracket => push (FArray []) PValueOrEnd stack
  | TString s => complete (JString s) stack
  | TNumber n => complete (JNumber n) stack
  | TTrue => complete (JBool true) stack
  | TFalse => complete (JBool false) stack
  | TNull => complete JNull stack
  | _ => None
  end.

Definition setKey (k : string) (stack : list frame) : option (expect * list frame) :=
  match stack with
  | FObject ms None :: stack' => Some (PColon, FObject ms (Some k) :: stack')
  | _ => None
  end.

Definition parseStep (e : expect) (stack : list frame) (t : token)
  : option (expect * list frame) :=
  match e with
  | PValue => beginValue t stack
  | PValueOrEnd =>
      match t, stack with
      | TRBracket, FArray [] :: stack' => complete (JArray []) stack'
      | TRBracket, _ => None
      | _, _ => beginValue t stack
      end
  | PKeyOrEnd =>
      match t, stack with
      | TRBrace, FObject [] None :: stack' => complete (JObject []) stack'
      | TString k, _ => setKey k stack
      | _, _ => None
      end
  | PKey =>
      match t with
      | TString k => setKey k stack
      | _ => None
      end
  | PColon =>
      match t with
      | TColon => Some (PValue, stack)
      | _ => None
      end
  | PCommaOrEnd =>
      match t, stack with
      | TComma, FArray _ :: _ => Some (PValue, stack)
      | TRBracket, FArray es :: stack' => complete (JArray (rev es)) stack'
      | TComma, FObject _ None :: _ => Some (PKey, stack)
      | TRBrace, FObject ms None :: stack' => complete (JObject (rev ms)) stack'
      | _, _ => None
      end
  | PDone _ => None
  end.

Fixpoint parseTokens (e : expect) (stack : list frame) (ts : list token) : option json :=
  match ts with
  | [] => match e with PDone v => Some v | _ => None end
  | t :: ts' =>
      match parseStep e stack t with
      | None => None
      | Some (e', stack') => parseTokens e' stack' ts'
      end
  end.

(** The value written in [data], or [None] where [json.Unmarshal] reports
    a syntax error. *)
Definition parse (data : bytes) : option json :=
  match lex LIdle data with
  | None => None
  | Some ts => parseTokens PValue [] ts
  end.

(** *** Field names

    A key selects the field whose name it equals after folding: ASCII
    letters to upper case, and the two runes whose simple case folding
    is an ASCII letter, U+017F (long s) and U+212A (Kelvin sign). *)
Fixpoint foldBytes (l : list ascii) : list ascii :=
  match l with
  | [] => []
  | c :: rest =>
      let z := code c in
      if between 97 z 122 then char (z - 32) :: foldBytes rest
      else
        match rest with
        | c1 :: rest1 =>
            if (z =? 197) && (code c1 =? 191) then char 83 :: foldBytes rest1
            else
              match rest1 with
              | c2 :: rest2 =>
                  if (z =? 226) && (code c1 =? 132) && (code c2 =? 170)
                  then char 75 :: foldBytes rest2
                  else c :: foldBytes rest
              | [] => c :: foldBytes rest
              end
        | [] => c :: foldBytes rest
        end
  end.

Definition foldName (s : string) : string :=
  string_of_list_ascii (foldBytes (list_ascii_of_string s)).

Definition selects (key field : string) : bool :=
  String.eqb (foldName key) (foldName field).

End Json.
Import Json.

(** ** The destinations of [json.Unmarshal] in [oanda.go] *)

(** [type PriceOrHeartbeat struct { Type string `json:"type"` }]; [Type] is
    a keyword here, so the field carries the name of the variable that
    holds the struct in [getStream]. *)
Record PriceOrHeartbeat := { ph_Type : string }.

(** [type TransactionOrHeartbeat struct { Type string `json:"type"` }] *)
Record TransactionOrHeartbeat := { th_Type : string }.

Record CandlesResponseBody := {
  Candles : option (list Candlestick);
  Granularity : string;
  Instrument : string
}.

(** The decoder keeps the first error it meets and goes on. *)
Definition saveError (saved new : option error) : option error :=
  match saved with
  | Some _ => saved
  | None => new
  end.

(** A JSON value stored in a Go [string]: a string is copied, [null]
    leaves the field as it is, anything else is a type error. *)
Definition storeString (field : string) (v : json) (cur : string)
  : string * option error :=
  match v with
  | JString s => (s, None)
  | JNull => (cur, None)
  | _ => (cur, Some (UnmarshalTypeError field))
  end.

(** The members of an object stored in a struct whose only field is
    [Type string `json:"type"`], in the order of the text. *)
Fixpoint storeTypeMembers (ms : list (string * json)) (cur : string)
  (saved : option error) : string * option error :=
  match ms with
  | [] => (cur, saved)
  | (k, v) :: rest =>
      if selects k "type" then
        let (cur', err) := storeString "type" v cur in
        storeTypeMembers rest cur' (saveError saved err)
      else storeTypeMembers rest cur saved
  end.

(** [json.Unmarshal(line, &s)] for such a struct, whose [Type] is empty
    before the call: the field afterwards, and the error returned. *)
Definition unmarshalType (line : bytes) : string * option error :=
  match parse line with
  | None => (EmptyString, Some SyntaxError)
  | Some JNull => (EmptyString, None)
  | Some (JObject ms) => storeTypeMembers ms EmptyString None
  | Some _ => (EmptyString, Some (UnmarshalTypeError EmptyString))
  end.

Definition Unmarshal_PriceOrHeartbeat (line : bytes)
  : PriceOrHeartbeat * option error :=
  let (t, err) := unmarshalType line in ({| ph_Type := t |}, err).

Definition Unmarshal_TransactionOrHeartbeat (line : bytes)
  : TransactionOrHeartbeat * option error :=
  let (t, err) := unmarshalType line in ({| th_Type := t |}, err).

(** The values that the members of an object offer to the field [Type],
    and whether a string field takes a value. *)
Definition typeMembers (ms : list (string * json)) : list json :=
  map snd (filter (fun m => selects (fst m) "type") ms).

Definition storable (v : json) : bool :=
  match v with
  | JString _ | JNull => true
  | _ => false
  end.

(** The JSON values that [unmarshalType] stores without an error. *)
Definition acceptable (j : json) : bool :=
  match j with
  | JNull => true
  | JObject ms => forallb storable (typeMembers ms)
  | _ => false
  end.

(** Whether a JSON value is an object with a member for the field [Type]
    (the discriminant of the specification). *)
Definition hasType (j : json) : bool :=
  match j with
  | JObject ms => existsb (fun m => selects (fst m) "type") ms
  | _ => false
  end.

(** A member that leaves [Candles] alone and raises no error: its key does
    not select [candles], and if it selects one of the two string fields
    its value is a string or [null]. *)
Definition harmless (m : string * json) : Prop :=
  selects (fst m) "candles" = false
  /\ (selects (fst m) "granularity" || selects (fst m) "instrument" = true ->
      storable (snd m) = true).

(** Whether a JSON value has no member for the field [Candles]: a value
    that is not an object, or an object none of whose keys selects
    [candles]. *)
Definition lacksCandles (j : json) : bool :=
  match j with
  | JObject ms => negb (existsb (fun m => selects (fst m) "candles") ms)
  | _ => true
  end.

(** The type error that a member raises when its key selects one of the
    two string fields of [CandlesResponseBody] and its value is neither a
    string nor [null]; the first of them among the members; and the error
    with which a JSON value without [candles] is decoded into the struct. *)
Definition memberFault (m : string * json) : option error :=
  if selects (fst m) "granularity" then
    snd (storeString "granularity" (snd m) EmptyString)
  else if selects (fst m) "instrument" then
    snd (storeString "instrument" (snd m) EmptyString)
  else None.

Fixpoint firstFault (ms : list (string * json)) : option error :=
  match ms with
  | [] => None
  | m :: rest => saveError (memberFault m) (firstFault rest)
  end.

Definition bodyFault (j : json) : option error :=
  match j with
  | JNull => None
  | JObject ms => firstFault ms
  | _ => Some (UnmarshalTypeError EmptyString)
  end.

(** ** The outside world *)

(** An HTTP response.  [Status] is the status line; [ReadAll] is what
    [ioutil.ReadAll(res.Body)] yields; [Lines] and [Fault] are what a
    [bufio.Reader] over the body yields: [ReadLine] returns each of
    [Lines] with a nil error, then a nil line with the error [Fault]
    ([io.EOF] when the server has closed the stream) on every later call.
    [ReadLine] "either returns a non-nil line or it returns an error,
    never both", and never neither.  When each of these reads returns, and
    whether it does, is not part of the response: it is given by a
    [Timing], below. *)
Record Response := {
  StatusCode : Z;
  Status : string;
  ReadAll : error + bytes;
  Lines : list bytes;
  Fault : error
}.

(** One request: the error of [http.NewRequest], if any, and the outcome
    of [client.Do]. *)
Record Exchange := {
  NewRequest : option error;
  Do : error + Response
}.

(** The library functions whose results the feeds pass on without looking
    into them. *)
Record Host := {
  ReadFile : string -> error + bytes;               (* ioutil.ReadFile *)
  yaml_Unmarshal : bytes -> error + Credentials;    (* yaml.Unmarshal *)
  (** [json.Marshal(candle)] for a [Candlestick] *)
  json_Marshal : Candlestick -> error + bytes;
  (** what [json.Unmarshal] does with the value of a member that selects
      the field [Candles *[]Candlestick], given the field before: it stops
      with an error (an element's own decoder failed), or goes on with the
      field as it is now and, possibly, a type error to keep *)
  storeCandles : json -> option (list Candlestick)
                 -> error + (option (list Candlestick) * option error)
}.

Section Feeds.

Variable host : Host.

(** [func GetCredentials(path string)], which yields a pointer to the
    credentials or an error *)
Definition GetCredentials (path : string) : error + Credentials :=
  match ReadFile host path with
  | inl err => inl err
  | inr bytes => yaml_Unmarshal host bytes
  end.

(** *** The live streams *)

Inductive flow := Continue | Break.

(** [for { line, _, err := reader.ReadLine(); body }] *)
Fixpoint readLoop (body : option bytes * option error -> M flow)
  (lines : list bytes) (fault : error) : M unit :=
  match lines with
  | line :: rest =>
      f <- body (Some line, None) ;;
      match f with
      | Break => ret tt
      | Continue => readLoop body rest fault
      end
  | [] =>
      f <- body (None, Some fault) ;;
      match f with
      | Break => ret tt
      | Continue => running      (* the same read, again and for ever *)
      end
  end.

(** One turn of the loop of [getStream]. *)
Definition priceTurn (heartbeat : bool) (heartbeatTimeout : Duration)
  (read : option bytes * option error) : M flow :=
  let (line, err) := read in
  check err ;;;
  match line with
  | None => ret Break
  | Some line =>
      let (ph, err) := Unmarshal_PriceOrHeartbeat line in
      check err ;;;
      (if String.eqb (ph_Type ph) "PRICE" then
         emit (Stdout line)
       else if String.eqb (ph_Type ph) "HEARTBEAT" then
         when (negb (heartbeatTimeout =? 0)) (emit SendHeartbeat) ;;;
         when heartbeat (emit (Stdout line))
       else ret tt) ;;;
      ret Continue
  end.

(** One turn of the loop of [getTransactionStream]. *)
Definition transactionTurn (heartbeat : bool) (heartbeatTimeout : Duration)
  (read : option bytes * option error) : M flow :=
  let (line, err) := read in
  check err ;;;
  match line with
  | None => ret Break
  | Some line =>
      let (th, err) := Unmarshal_TransactionOrHeartbeat line in
      check err ;;;
      (if String.eqb (th_Type th) "HEARTBEAT" then
         when (negb (heartbeatTimeout =? 0)) (emit SendHeartbeat) ;;;
         when heartbeat (emit (Stdout line))
       else emit (Stdout line)) ;;;
      ret Continue
  end.

(** The part the two streams share word for word: the request, the
    status check, the start of the watchdog, the loop and the final
    [return err], where [err] is the nil error of [client.Do].  This is the
    run of the goroutine that calls the function, followed to its end; the
    goroutine of the watchdog is recorded where it is started and where it
    is signalled, and what it does to the process, which it can end before
    this run is over, is the matter of [streamProcess] below. *)
Definition streamFrom (t : Account -> target)
  (turn : option bytes * option error -> M flow)
  (x : Exchange) (heartbeatTimeout : Duration) (configPath : string)
  : list event * exit :=
  call (
    credentials <- try (GetCredentials configPath) ;;
    let account := Default credentials in
    check (NewRequest x) ;;;
    emit (Get (t account) (Token account)) ;;;
    res <- try (Do x) ;;
    (if negb (StatusCode res =? 200) then
       emit (Stderr (Status res)) ;;;
       body <- try (ReadAll res) ;;
       returnErr (Some (ErrorsNew body))
     else ret tt) ;;;
    when (negb (heartbeatTimeout =? 0)) (emit (GoWatchdog heartbeatTimeout)) ;;;
    readLoop turn (Lines res) (Fault res) ;;;
    ret None).

(** [func getStream(instruments string, heartbeat bool,
    heartbeatTimeout time.Duration, configPath string) error] *)
Definition getStream (x : Exchange) (instruments : string) (heartbeat : bool)
  (heartbeatTimeout : Duration) (configPath : string) : list event * exit :=
  streamFrom (fun account => PricingStream (AccountId account) instruments)
    (priceTurn heartbeat heartbeatTimeout) x heartbeatTimeout configPath.

(** [func getTransactionStream(heartbeat bool,
    heartbeatTimeout time.Duration, configPath string) error] *)
Definition getTransactionStream (x : Exchange) (heartbeat : bool)
  (heartbeatTimeout : Duration) (configPath : string) : list event * exit :=
  streamFrom (fun account => TransactionsStream (AccountId account))
    (transactionTurn heartbeat heartbeatTimeout) x heartbeatTimeout configPath.

(** *** The candle poller *)

(** The members of the response stored in a [CandlesResponseBody], in
    the order of the text; [inl] when decoding stops at once. *)
Fixpoint storeBodyMembers (ms : list (string * json)) (body : CandlesResponseBody)
  (saved : option error) : error + (CandlesResponseBody * option error) :=
  match ms with
  | [] => inr (body, saved)
  | (k, v) :: rest =>
      if selects k "candles" then
        match storeCandles host v (Candles body) with
        | inl err => inl err
        | inr (candles, err) =>
            storeBodyMembers rest
              {| Candles := candles; Granularity := Granularity body;
                 Instrument := Instrument body |} (saveError saved err)
        end
      else if selects k "granularity" then
        let (g, err) := storeString "granularity" v (Granularity body) in
        storeBodyMembers rest
          {| Candles := Candles body; Granularity := g;
             Instrument := Instrument body |} (saveError saved err)
      else if selects k "instrument" then
        let (i, err) := storeString "instrument" v (Instrument body) in
        storeBodyMembers rest
          {| Candles := Candles body; Granularity := Granularity body;
             Instrument := i |} (saveError saved err)
      else storeBodyMembers rest body saved
  end.

(** [var body CandlesResponseBody; json.Unmarshal(bytes, &body)] *)
Definition Unmarshal_CandlesResponseBody (data : bytes)
  : CandlesResponseBody * option error :=
  let zero := {| Candles := None; Granularity := EmptyString;
                 Instrument := EmptyString |} in
  match parse data with
  | None => (zero, Some SyntaxError)
  | Some JNull => (zero, None)
  | Some (JObject ms) =>
      match storeBodyMembers ms zero None with
      | inl err => (zero, Some err)
      | inr r => r
      end
  | Some _ => (zero, Some (UnmarshalTypeError EmptyString))
  end.

(** [func getCandlesForStream(credentials *Credentials, instrument string,
    granularity string, from time.Time)], which yields a pointer to the
    candles and an error.  Every [return nil, err] of it is followed in
    its only caller by [return err], which is what [try] and [check]
    stand for here; its value is the pointer of [return body.Candles, nil]. *)
Definition getCandlesForStream (x : Exchange) (credentials : Credentials)
  (instrument granularity : string) (from : time_Time)
  : M (option (list Candlestick)) :=
  let account := Default credentials in
  check (NewRequest x) ;;;
  emit (Get (InstrumentCandles instrument granularity (Format_RFC3339 from))
          (Token account)) ;;;
  res <- try (Do x) ;;
  bytes <- try (ReadAll res) ;;
  (if negb (StatusCode res =? 200) then
     emit (Stderr (Status res)) ;;;
     returnErr (Some (ErrorsNew bytes))
   else ret tt) ;;;
  let (body, err) := Unmarshal_CandlesResponseBody bytes in
  check err ;;;
  ret (Candles body).

(** The cursor of the poller: the variables [lastCandle] and [from] of
    [getCandlesStream]. *)
Record PollCursor := { lastCandle : option Candlestick; from : time_Time }.

(** The body of [for _, candle := range *candles], over the candles that
    are left. *)
Fixpoint rangeCandles (completedOnly : bool) (lastCandle : option Candlestick)
  (candles : list Candlestick) : M unit :=
  match candles with
  | [] => ret tt
  | candle :: rest =>
      (if completedOnly && eqb (Complete candle) false then ret tt
       else if match lastCandle with
               | None => true
               | Some last => NewerThan candle last
               end
       then
         bytes <- try (json_Marshal host candle) ;;
         emit (Stdout bytes)
       else ret tt) ;;;
      rangeCandles completedOnly lastCandle rest
  end.

(** [for _, candle := range *candles { ... }] *)
Definition emitNewer (completedOnly : bool) (lastCandle : option Candlestick)
  (candles : option (list Candlestick)) : M unit :=
  cs <- deref candles ;;
  rangeCandles completedOnly lastCandle cs.

(** [if len( *candles) != 0 { lastCandle = &( *candles)[len( *candles)-1];
    from = lastCandle.Time }] *)
Definition advanceCursor (candles : option (list Candlestick)) (cur : PollCursor)
  : M PollCursor :=
  cs <- deref candles ;;
  if negb (Nat.eqb (List.length cs) 0) then
    match nth_error cs (List.length cs - 1) with
    | Some c => ret {| lastCandle := Some c; from := Time c |}
    | None => panic "index out of range"
    end
  else ret cur.

(** What one turn of the poller does with the batch it received. *)
Definition processBatch (completedOnly : bool)
  (candles : option (list Candlestick)) (cur : PollCursor) : M PollCursor :=
  emitNewer completedOnly (lastCandle cur) candles ;;;
  advanceCursor candles cur.

(** One turn of the loop of [getCandlesStream]. *)
Definition pollTurn (x : Exchange) (credentials : Credentials)
  (instrument granularity : string) (pollingInterval : Duration)
  (completedOnly : bool) (cur : PollCursor) : M PollCursor :=
  candles <- getCandlesForStream x credentials instrument granularity (from cur) ;;
  cur' <- processBatch completedOnly candles cur ;;
  emit (Sleep pollingInterval) ;;;
  ret cur'.

(** The loop, for as many turns as there are exchanges to answer its
    requests. *)
Fixpoint pollLoop (xs : list Exchange) (credentials : Credentials)
  (instrument granularity : string) (pollingInterval : Duration)
  (completedOnly : bool) (cur : PollCursor) : M PollCursor :=
  match xs with
  | [] => ret cur
  | x :: rest =>
      cur' <- pollTurn x credentials instrument granularity pollingInterval
                completedOnly cur ;;
      pollLoop rest credentials instrument granularity pollingInterval
        completedOnly cur'
  end.

(** [func getCandlesStream(instrument string, granularity string,
    from time.Time, pollingInterval time.Duration, completedOnly bool,
    configPath string) error] *)
Definition getCandlesStream (xs : list Exchange) (instrument granularity : string)
  (from : time_Time) (pollingInterval : Duration) (completedOnly : bool)
  (configPath : string) : list event * exit :=
  call (
    credentials <- try (GetCredentials configPath) ;;
    pollLoop xs credentials instrument granularity pollingInterval completedOnly
      {| lastCandle := None; from := from |} ;;;
    running).

(** *** The process of a stream, with its watchdog

    [go func() { for { select { case <-heartbeatChannel:
    case <-time.After(heartbeatTimeout): panic("heartbeat timeout") } } }()],
    started by both streams when [heartbeatTimeout != 0], runs beside the
    loop that reads the lines, and its panic ends the process.

    Instants are in nanoseconds, on the clock of [time.After].  The reads
    take the time they take: a [Timing] gives the instant at which each
    call of [ReadLine] returns.  The statements between two reads, and the
    passage of a signal through the channel, which has no buffer and whose
    receiver does nothing but wait in [select], take no time. *)

Definition heartbeatTimeoutPanic : string := "heartbeat timeout".

(** The timer created by a turn of the watchdog that enters [select] at
    [armed]: [time.After(d)] is ready after [d], at once when [d] is not
    positive. *)
Definition due (heartbeatTimeout : Duration) (armed : Z) : Z :=
  armed + Z.max 0 heartbeatTimeout.

(** When the reads of a stream return.  [started] is the instant at which
    the stream is open: the status is checked and the watchdog, if any,
    enters its first [select].  [arrivals] are the instants at which
    [ReadLine] returns the lines of the body, in order; when they are fewer
    than the lines, the lines left never come.  [ending] is the instant at
    which [ReadLine] returns the error after the last line, if it ever
    does.  [tie] is the choice between the timer and the reading goroutine
    when a read returns at the very instant the timer is due: [true] when
    the timer is served first. *)
Record Timing := {
  started : Z;
  arrivals : list Z;
  ending : option Z;
  tie : Z -> bool
}.

(** Whether the watchdog, whose pending timer was armed at [armed], has
    panicked when a read returns at [t]. *)
Definition expired (heartbeatTimeout : Duration) (tie : Z -> bool)
  (armed t : Z) : bool :=
  negb (heartbeatTimeout =? 0)
  && ((due heartbeatTimeout armed <? t)
      || ((due heartbeatTimeout armed =? t) && tie t)).

(** Whether a turn of the loop sent on the heartbeat channel. *)
Definition signalled (es : list event) : bool :=
  existsb (fun e => match e with SendHeartbeat => true | _ => false end) es.

(** A reader that waits for ever: without a watchdog so does the process;
    with one, the pending timer ends it. *)
Definition stall (heartbeatTimeout : Duration) (armed : Z) : exit * option Z :=
  if heartbeatTimeout =? 0 then (Running, None)
  else (Panic heartbeatTimeoutPanic, Some (due heartbeatTimeout armed)).

(** The loop of a stream beside the watchdog: the events of the process
    from the first read on, how it ends and when.  A read that returns
    after the pending timer is due finds the process dead, by the panic of
    the watchdog at that due instant; a turn that sends a signal has it
    received at once, and the next turn of the watchdog arms a new timer
    then. *)
Fixpoint consume (turn : option bytes * option error -> M flow)
  (heartbeatTimeout : Duration) (tie : Z -> bool) (armed : Z)
  (lines : list bytes) (fault : error) (arrivals : list Z) (ending : option Z)
  : list event * (exit * option Z) :=
  match lines with
  | line :: rest =>
      match arrivals with
      | [] => ([], stall heartbeatTimeout armed)
      | t :: later =>
          if expired heartbeatTimeout tie armed t then
            ([], (Panic heartbeatTimeoutPanic, Some (due heartbeatTimeout armed)))
          else
            match turn (Some line, None) with
            | (es, inl e) => (es, (e, Some t))
            | (es, inr Break) => (es, (Return None, Some t))
            | (es, inr Continue) =>
                let (es', r) :=
                  consume turn heartbeatTimeout tie
                    (if signalled es then t else armed) rest fault later ending in
                (es ++ es', r)
            end
      end
  | [] =>
      match ending with
      | None => ([], stall heartbeatTimeout armed)
      | Some t =>
          if expired heartbeatTimeout tie armed t then
            ([], (Panic heartbeatTimeoutPanic, Some (due heartbeatTimeout armed)))
          else
            match turn (None, Some fault) with
            | (es, inl e) => (es, (e, Some t))
            | (es, inr Break) => (es, (Return None, Some t))
            | (es, inr Continue) =>
                (es, stall heartbeatTimeout (if signalled es then t else armed))
            end
      end
  end.

(** What both streams do before the loop: the request, the status check
    and the start of the watchdog; the value is the response to read. *)
Definition openStream (t : Account -> target) (x : Exchange)
  (heartbeatTimeout : Duration) (configPath : string) : M Response :=
  credentials <- try (GetCredentials configPath) ;;
  let account := Default credentials in
  check (NewRequest x) ;;;
  emit (Get (t account) (Token account)) ;;;
  res <- try (Do x) ;;
  (if negb (StatusCode res =? 200) then
     emit (Stderr (Status res)) ;;;
     body <- try (ReadAll res) ;;
     returnErr (Some (ErrorsNew body))
   else ret tt) ;;;
  when (negb (heartbeatTimeout =? 0)) (emit (GoWatchdog heartbeatTimeout)) ;;;
  ret res.

(** The process that runs a stream: its events, how it ends and when (no
    instant when it does not end). *)
Definition streamProcess (t : Account -> target)
  (turn : option bytes * option error -> M flow)
  (x : Exchange) (heartbeatTimeout : Duration) (configPath : string)
  (tm : Timing) : list event * (exit * option Z) :=
  match openStream t x heartbeatTimeout configPath with
  | (es, inl e) => (es, (e, Some (started tm)))
  | (es, inr res) =>
      let (es', r) :=
        consume turn heartbeatTimeout (tie tm) (started tm)
          (Lines res) (Fault res) (arrivals tm) (ending tm) in
      (es ++ es', r)
  end.

(** The process that runs [getStream], and the one that runs
    [getTransactionStream]. *)
Definition getStreamProcess (x : Exchange) (instruments : string)
  (heartbeat : bool) (heartbeatTimeout : Duration) (configPath : string)
  (tm : Timing) : list event * (exit * option Z) :=
  streamProcess (fun account => PricingStream (AccountId account) instruments)
    (priceTurn heartbeat heartbeatTimeout) x heartbeatTimeout configPath tm.

Definition getTransactionStreamProcess (x : Exchange) (heartbeat : bool)
  (heartbeatTimeout : Duration) (configPath : string) (tm : Timing)
  : list event * (exit * option Z) :=
  streamProcess (fun account => TransactionsStream (AccountId account))
    (transactionTurn heartbeat heartbeatTimeout) x heartbeatTimeout configPath tm.

End Feeds.

(** The events of a trace that belong to the watchdog: its start and the
    signals sent to it. *)
Definition watchdogEvent (e : event) : bool :=
  match e with
  | GoWatchdog _ | SendHeartbeat => true
  | _ => false
  end.

(** ** Inputs for running the model *)

(** JSON texts are written with an apostrophe where the text has a double
    quote. *)
Fixpoint jsonText (s : string) : bytes :=
  match s with
  | EmptyString => EmptyString
  | String c s' => String (if code c =? 39 then char 34 else c) (jsonText s')
  end.

Definition decimal (z : Z) : string := NilZero.string_of_int (Z.to_int z).

(** A host to run the feeds on: a credentials file at every path, a
    serializer that writes the three scalar fields of a candle (the time as
    its instant), and a decoder of the two values of [candles] that hold
    no candle.  The theorems below hold for every host. *)
Definition demoHost : Host := {|
  ReadFile := fun _ => inr "default: {account_id: 101-004-1-001, token: t0k3n}"%string;
  yaml_Unmarshal := fun _ =>
    inr {| Default := {| AccountId := "101-004-1-001"; Token := "t0k3n" |} |};
  json_Marshal := fun c =>
    inr (jsonText ("{'complete':" ++ (if Complete c then "true" else "false")
                   ++ ",'volume':" ++ decimal (Volume c)
                   ++ ",'time':" ++ decimal (unixNano (Time c)) ++ "}")%string);
  storeCandles := fun v _ =>
    match v with
    | JNull => inr (None, None)
    | JArray [] => inr (Some [], None)
    | _ => inl (UnmarshalTypeError "candles")
    end
|}.

(** The bars of the scenario of the specification: 10:00 and 10:05 on
    2024-01-01 (UTC), as instants. *)
Definition t1000 : time_Time := mkTime 1704103200000000000 0.
Definition t1005 : time_Time := mkTime 1704103500000000000 0.

Definition bar (t : time_Time) (complete : bool) (volume : Z) : Candlestick :=
  {| Complete := complete; Volume := volume; Time := t;
     Mid := None; Bid := None; Ask := None |}.

Definition batch1 : list Candlestick := [bar t1000 false 3].
Definition batch2 : list Candlestick := [bar t1000 true 5; bar t1005 false 1].

Definition priceLine : bytes := jsonText "{'type':'PRICE','instrument':'EUR_USD'}".
Definition heartbeatLine : bytes := jsonText "{'type':'HEARTBEAT'}".

(** A connection that answers 200 and delivers [lines] before [fault]. *)
Definition streaming (lines : list bytes) (fault : error) : Exchange := {|
  NewRequest := None;
  Do := inr {| StatusCode := 200; Status := "200 OK";
               ReadAll := inr EmptyString; Lines := lines; Fault := fault |}
|}.

(** A poll answered 200 with the body [body]. *)
Definition answering (body : bytes) : Exchange := {|
  NewRequest := None;
  Do := inr {| StatusCode := 200; Status := "200 OK";
               ReadAll := inr body; Lines := []; Fault := EOF |}
|}.

(** ** The rest of [oanda.go] *)

(** [func GetDefaultConfigPath()], which yields a pointer to the path or
    an error.  [Getenv] is [os.Getenv], which yields the empty string for a
    variable that is not set, and [UserHomeDir] the outcome of
    [os.UserHomeDir()]. *)
Definition GetDefaultConfigPath (Getenv : string -> string)
  (UserHomeDir : error + string) : error + string :=
  let path := Getenv "OANDA_CREDENTIALS_PATH"%string in
  if negb (String.eqb path EmptyString) then inr path
  else
    match UserHomeDir with
    | inl err => inl err
    | inr home => inr (home ++ "/.config/oanda/credentials.yaml")%string
    end.

(** [func GetCredentials()] of the earlier revision of [oanda.go] (the
    first of the two in the file), which takes no path and reads the file
    under the home directory. *)
Definition GetCredentials_v1 (host : Host) (UserHomeDir : error + string)
  : error + Credentials :=
  match UserHomeDir with
  | inl err => inl err
  | inr home =>
      let path := (home ++ "/.config/oanda/credentials.yaml")%string in
      match ReadFile host path with
      | inl err => inl err
      | inr bytes => yaml_Unmarshal host bytes
      end
  end.

(** A [cli.Context], as far as the actions read it: the value of a flag by
    its name, for each type of flag; [c.Timestamp] yields a pointer, nil
    when the flag was not given. *)
Record Context := {
  c_String : string -> string;
  c_Bool : string -> bool;
  c_Duration : string -> Duration;
  c_Timestamp : string -> option time_Time
}.

(** [func pricingAction(c *cli.Context) error] *)
Definition pricingAction (host : Host) (x : Exchange) (c : Context)
  : list event * exit :=
  let instruments := c_String c "instruments" in
  let heartbeat := c_Bool c "heartbeat" in
  let heartbeatTimeout := c_Duration c "heartbeat-timeout" in
  let configPath := c_String c "config" in
  getStream host x instruments heartbeat heartbeatTimeout configPath.

(** [func candlesAction(c *cli.Context) error]; [now] is [time.Now()]. *)
Definition candlesAction (host : Host) (now : time_Time) (xs : list Exchange)
  (c : Context) : list event * exit :=
  let instrument := c_String c "instrument" in
  let granularity := c_String c "granularity" in
  let from := match c_Timestamp c "from" with
              | Some _from => _from
              | None => now
              end in
  let pollingInterval := c_Duration c "polling-interval" in
  let completedOnly := c_Bool c "completed-only" in
  let configPath := c_String c "config" in
  getCandlesStream host xs instrument granularity from pollingInterval
    completedOnly configPath.

(** [func transactionsAction(c *cli.Context) error] *)
Definition transactionsAction (host : Host) (x : Exchange) (c : Context)
  : list event * exit :=
  let heartbeat := c_Bool c "heartbeat" in
  let heartbeatTimeout := c_Duration c "heartbeat-timeout" in
  let configPath := c_String c "config" in
  getTransactionStream host x heartbeat heartbeatTimeout configPath.

(** ** Notions for the statements about whole runs *)

(** The two tests that a candle passes to be printed by the loop over a
    batch. *)
Definition wanted (completedOnly : bool) (lastCandle : option Candlestick)
  (candle : Candlestick) : bool :=
  negb (completedOnly && eqb (Complete candle) false)
  && match lastCandle with
     | None => true
     | Some last => NewerThan candle last
     end.

(** Candles serialized one after the other, up to the first that
    [json.Marshal] refuses: the texts, and that error if any. *)
Fixpoint serialize (host : Host) (cs : list Candlestick)
  : list bytes * option error :=
  match cs with
  | [] => ([], None)
  | c :: rest =>
      match json_Marshal host c with
      | inl err => ([], Some err)
      | inr b => let (bs, e) := serialize host rest in (b :: bs, e)
      end
  end.

(** A line that decodes, its discriminant, and the lines of a stream up
    to the first that does not decode, with the error that ends the
    stream: that of the first such line, or else the fault of the
    reader. *)
Definition decodes (line : bytes) : bool :=
  match snd (unmarshalType line) with
  | None => true
  | Some _ => false
  end.

Definition typeOf (line : bytes) : string := fst (unmarshalType line).

Fixpoint decodedPrefix (lines : list bytes) : list bytes :=
  match lines with
  | [] => []
  | line :: rest => if decodes line then line :: decodedPrefix rest else []
  end.

Fixpoint streamError (lines : list bytes) (fault : error) : error :=
  match lines with
  | [] => fault
  | line :: rest =>
      match snd (unmarshalType line) with
      | Some e => e
      | None => streamError rest fault
      end
  end.

Definition isHeartbeat (line : bytes) : bool := String.eqb (typeOf line) "HEARTBEAT".



(** The number of signals sent to the watchdog in a trace. *)
Fixpoint sends (t : list event) : nat :=
  match t with
  | [] => 0%nat
  | SendHeartbeat :: t' => S (sends t')
  | _ :: t' => sends t'
  end.

(** What an event of the candle feed may be, given the credentials and
    the arguments of [getCandlesStream]. *)
Definition candleFeedEvent (credentials : Credentials)
  (instrument granularity : string) (pollingInterval : Duration) (e : event) : Prop :=
  match e with
  | Get t bearer =>
      bearer = Token (Default credentials)
      /\ exists from, t = InstrumentCandles instrument granularity from
  | Sleep d => d = pollingInterval
  | Stdout _ | Stderr _ => True
  | GoWatchdog _ | SendHeartbeat => False
  end.

(** A cursor that holds together: its window start is the time of its
    last candle, or the initial one while it has none. *)
Definition coherent (from0 : time_Time) (cur : PollCursor) : Prop :=
  match lastCandle cur with
  | None => from cur = from0
  | Some c => from cur = Time c
  end.

(** The 10:00 bar of the scenario, incomplete with volume 3, as it comes
    back with mid prices and presented in another zone. *)
Definition repricedBar : Candlestick :=
  {| Complete := false; Volume := 3; Time := mkTime 1704103200000000000 32400;
     Mid := Some {| O := "1.10"; H := "1.12"; L := "1.09"; C := "1.11" |};
     Bid := None; Ask := None |}.

(** A call that ended without success: by a non-nil error or by a panic. *)
Definition failed (e : exit) : Prop :=
  match e with
  | Return (Some _) | Panic _ => True
  | Return None | Running => False
  end.

(** What holds of every event and of every early exit of a sequence holds
    of the sequence. *)
Definition within {A} (P : event -> Prop) (m : M A) : Prop :=
  Forall P (fst m) /\ match snd m with inl e => failed e | inr _ => True end.

(** What the loop of a stream does with a line that decodes. *)
Definition heartbeatEvents (heartbeat : bool) (heartbeatTimeout : Duration)
  (line : bytes) : list event :=
  (if negb (heartbeatTimeout =? 0) then [SendHeartbeat] else [])
  ++ (if heartbeat then [Stdout line] else []).

Definition priceEvents (heartbeat : bool) (heartbeatTimeout : Duration)
  (line : bytes) : list event :=
  if String.eqb (typeOf line) "PRICE" then [Stdout line]
  else if isHeartbeat line then heartbeatEvents heartbeat heartbeatTimeout line
  else [].

Definition transactionEvents (heartbeat : bool) (heartbeatTimeout : Duration)
  (line : bytes) : list event :=
  if isHeartbeat line then heartbeatEvents heartbeat heartbeatTimeout line
  else [Stdout line].

(** A stream that opens: the credentials are read, the request is made
    and it is answered with the status 200. *)
Definition opens (host : Host) (x : Exchange) (configPath : string)
  (credentials : Credentials) (res : Response) : Prop :=
  GetCredentials host configPath = inr credentials
  /\ NewRequest x = None
  /\ Do x = inr res
  /\ StatusCode res = 200.

(** Lines with the instants at which they are read, all of them punctual:
    each is read before the timer then pending is due, a full
    [heartbeatTimeout] after it was armed, where the timer is armed anew at
    each heartbeat line; and the instant at which the timer pending after
    them was armed. *)
Fixpoint inTime (heartbeatTimeout : Duration) (armed : Z)
  (timed : list (Z * bytes)) : bool :=
  match timed with
  | [] => true
  | (t, line) :: rest =>
      (t <? armed + Z.max 0 heartbeatTimeout)
      && inTime heartbeatTimeout (if isHeartbeat line then t else armed) rest
  end.

Fixpoint lastBeat (armed : Z) (timed : list (Z * bytes)) : Z :=
  match timed with
  | [] => armed
  | (t, line) :: rest => lastBeat (if isHeartbeat line then t else armed) rest
  end.

(** The instant at which the next read returns, given the lines left, the
    instants left and the ending; and a read that comes after a deadline,
    or never. *)
Definition nextRead (rest : list bytes) (later : list Z) (ending : option Z)
  : option Z :=
  match rest with
  | _ :: _ => hd_error later
  | [] => ending
  end.

Definition late (deadline : Z) (next : option Z) : Prop :=
  match next with
  | None => True
  | Some t => deadline < t
  end.

(** A timing in which the reads return at the given instants and the
    timer is served first at a tie. *)
Definition timing (started : Z) (arrivals : list Z) (ending : option Z) : Timing :=
  {| started := started; arrivals := arrivals; ending := ending;
     tie := fun _ => true |}.

(** Twenty heartbeat lines, and the instants 10 ms, 20 ms, ..., 200 ms. *)
Definition heartbeats20 : list bytes := repeat heartbeatLine 20.

Definition every10ms : list Z :=
  map (fun k => Z.of_nat k * 10000000) (seq 1 20).


Definition unauthorized : bytes := "Insufficient authorization"%string.

(** A response refused with status 401 and the body [body]. *)
Definition refusing (body : bytes) : Exchange := {|
  NewRequest := None;
  Do := inr {| StatusCode := 401; Status := "401 Unauthorized";
               ReadAll := inr body; Lines := []; Fault := EOF |}
|}.

(** The flags of the candles command as [main] declares them when none is
    given on the command line but the required instrument. *)
Definition candleDefaults (instrument config : string) : Context := {|
  c_String := fun name =>
    if String.eqb name "instrument" then instrument
    else if String.eqb name "granularity" then "S5"%string
    else if String.eqb name "config" then config
    else EmptyString;
  c_Bool := fun _ => false;
  c_Duration := fun name =>
    if String.eqb name "polling-interval" then 1000000000 else 0;
  c_Timestamp := fun _ => None
|}.

(** * Properties *)

(** ** Statements in sequence *)

Lemma bind_ret_l {A B} (a : A) (k : A -> M B) : bind (ret a) k = k a.
Proof. unfold bind, ret. destruct (k a); reflexivity. Qed.

Lemma bind_exit {A B} (t : list event) (e : exit) (k : A -> M B) :
  bind (t, inl e) k = (t, inl e).
Proof. reflexivity. Qed.

Lemma bind_value {A B} (t : list event) (a : A) (k : A -> M B) :
  bind (t, inr a) k = (t ++ fst (k a), snd (k a)).
Proof. unfold bind. destruct (k a); reflexivity. Qed.

Lemma bind_head {A B} (m : M A) (k : A -> M B) (e : event) (t : list event) :
  fst m = e :: t -> exists t', fst (bind m k) = e :: t'.
Proof.
  destruct m as [tm [ex|a]]; simpl; intros ->.
  - exists t. reflexivity.
  - destruct (k a) as [t' r]. exists (t ++ t'). reflexivity.
Qed.

Lemma stdout_app (t u : list event) : stdout (t ++ u) = stdout t ++ stdout u.
Proof.
  induction t as [|e t IH]; simpl; [reflexivity|].
  destruct e; simpl; rewrite IH; reflexivity.
Qed.

(** ** The ordering of candles *)

Lemma After_spec (t u : time_Time) : After t u = true <-> unixNano t > unixNano u.
Proof. unfold After. rewrite Z.gtb_gt. lia. Qed.

Lemma Equal_spec (t u : time_Time) : Equal t u = true <-> unixNano t = unixNano u.
Proof. unfold Equal. apply Z.eqb_eq. Qed.

(** C1. [NewerThan], with the candidate [B] as receiver and the last
    emitted candle [A] as argument, is true exactly when [B] is later than
    [A], or as late as [A] and either complete where [A] is not, or
    incomplete like [A] with a larger volume.  Hence it is true whenever
    [B] is later, false whenever [B] is earlier, whatever the flags and
    volumes, and decided by the flags and volumes at equal instants. *)
Theorem NewerThan_characterization :
  forall A B : Candlestick,
    (NewerThan B A = true <->
       unixNano (Time B) > unixNano (Time A) \/
       (unixNano (Time B) = unixNano (Time A) /\
        ((Complete B = true /\ Complete A = false) \/
         (Complete B = false /\ Complete A = false /\ Volume B > Volume A)))) /\
    (unixNano (Time B) > unixNano (Time A) -> NewerThan B A = true) /\
    (unixNano (Time B) < unixNano (Time A) -> NewerThan B A = false) /\
    (unixNano (Time B) = unixNano (Time A) ->
       NewerThan B A =
         (Complete B && negb (Complete A))
         || (negb (Complete B) && negb (Complete A) && (Volume B >? Volume A))).
Proof.
  intros A B.
  assert (Hchar : NewerThan B A = true <->
       unixNano (Time B) > unixNano (Time A) \/
       (unixNano (Time B) = unixNano (Time A) /\
        ((Complete B = true /\ Complete A = false) \/
         (Complete B = false /\ Complete A = false /\ Volume B > Volume A)))).
  { unfold NewerThan.
    destruct (After (Time B) (Time A)) eqn:Ha.
    - apply After_spec in Ha. split; [intros _; left; exact Ha | reflexivity].
    - assert (Hna : ~ unixNano (Time B) > unixNano (Time A)).
      { intros H. apply After_spec in H. congruence. }
      destruct (Equal (Time B) (Time A)) eqn:He.
      + apply Equal_spec in He.
        destruct (Complete B), (Complete A); simpl;
          try rewrite Z.gtb_gt;
          split; intros H;
          try discriminate; try reflexivity;
          try (right; split; [exact He|]; auto; fail);
          try (destruct H as [H | [_ [[H1 H2] | [H1 [H2 H3]]]]];
               try contradiction; try discriminate; try assumption; fail).
      + assert (Hne : unixNano (Time B) <> unixNano (Time A)).
        { intros H. apply Equal_spec in H. congruence. }
        split; [discriminate|].
        intros [H | [H _]]; contradiction. }
  split; [exact Hchar|].
  split; [intros H; apply Hchar; left; exact H|].
  split.
  - intros H. apply not_true_is_false. intros E.
    apply Hchar in E. lia.
  - intros H. unfold NewerThan.
    assert (Ha : After (Time B) (Time A) = false).
    { unfold After. rewrite Z.gtb_ltb. apply Z.ltb_ge. lia. }
    assert (He : Equal (Time B) (Time A) = true) by (apply Equal_spec; exact H).
    rewrite Ha, He.
    destruct (Complete B), (Complete A); reflexivity.
Qed.

(** ** The poller *)

Section Poller.

Variable host : Host.

Lemma advanceCursor_nil (cur : PollCursor) :
  advanceCursor (Some []) cur = ret cur.
Proof. reflexivity. Qed.

Lemma advanceCursor_last (init : list Candlestick) (c : Candlestick)
  (cur : PollCursor) :
  advanceCursor (Some (init ++ [c])) cur
  = ret {| lastCandle := Some c; from := Time c |}.
Proof.
  unfold advanceCursor, deref. rewrite bind_ret_l.
  rewrite length_app. simpl List.length.
  replace (List.length init + 1 - 1)%nat with (List.length init) by lia.
  replace (Nat.eqb (List.length init + 1) 0) with false
    by (symmetry; apply Nat.eqb_neq; lia).
  simpl negb. cbv iota.
  rewrite nth_error_app2 by lia.
  rewrite Nat.sub_diag. reflexivity.
Qed.

(** The cursor never stops a batch: [advanceCursor] yields a cursor for
    every batch that is there. *)
Lemma advanceCursor_value (candles : list Candlestick) (cur : PollCursor) :
  exists cur', advanceCursor (Some candles) cur = ret cur'.
Proof.
  destruct (rev candles) as [|c rinit] eqn:E.
  - apply (f_equal (@rev _)) in E. rewrite rev_involutive in E. subst.
    exists cur. reflexivity.
  - apply (f_equal (@rev _)) in E. rewrite rev_involutive in E. subst.
    simpl rev. eexists. apply advanceCursor_last.
Qed.

Lemma rangeCandles_prints_only (completedOnly : bool)
  (last : option Candlestick) (candles : list Candlestick) :
  forall e, In e (fst (rangeCandles host completedOnly last candles)) ->
            exists l, e = Stdout l.
Proof.
  induction candles as [|c rest IH]; simpl; [intros e []|].
  intros e.
  destruct (completedOnly && eqb (Complete c) false).
  - rewrite bind_ret_l. apply IH.
  - destruct (match last with None => true | Some l => NewerThan c l end).
    + unfold try. destruct (json_Marshal host c) as [err|b]; simpl.
      * intros [].
      * destruct (rangeCandles host completedOnly last rest) as [t r].
        simpl in *. intros [H|H]; [eexists; symmetry; exact H | apply IH, H].
    + rewrite bind_ret_l. apply IH.
Qed.

(** In completed-only mode the loop over a batch is the loop over its
    complete bars. *)
Lemma rangeCandles_completedOnly (last : option Candlestick)
  (candles : list Candlestick) :
  rangeCandles host true last candles
  = rangeCandles host true last (filter Complete candles).
Proof.
  induction candles as [|c rest IH]; [reflexivity|].
  destruct c as [[|] v t m b a].
  - simpl. rewrite IH. reflexivity.
  - change (ret tt ;;; rangeCandles host true last rest
            = rangeCandles host true last (filter Complete rest)).
    rewrite bind_ret_l. exact IH.
Qed.

(** A turn of the poller is the request, then the batch, then the
    sleep. *)
Lemma pollTurn_processBatch (x : Exchange) (credentials : Credentials)
  (instrument granularity : string) (pollingInterval : Duration)
  (completedOnly : bool) (cur cur' : PollCursor)
  (t tr : list event) (candles : option (list Candlestick)) :
  getCandlesForStream host x credentials instrument granularity (from cur)
    = (t, inr candles) ->
  processBatch host completedOnly candles cur = (tr, inr cur') ->
  pollTurn host x credentials instrument granularity pollingInterval
    completedOnly cur
  = (t ++ tr ++ [Sleep pollingInterval], inr cur').
Proof.
  intros Hget Hbatch. unfold pollTurn.
  rewrite Hget, bind_value. cbv beta.
  rewrite Hbatch, bind_value. reflexivity.
Qed.

Lemma processBatch_cursor (completedOnly : bool) (candles : list Candlestick)
  (cur cur' : PollCursor) (tr : list event) :
  processBatch host completedOnly (Some candles) cur = (tr, inr cur') ->
  advanceCursor (Some candles) cur = ret cur'.
Proof.
  unfold processBatch, emitNewer, deref. rewrite bind_ret_l.
  destruct (rangeCandles host completedOnly (lastCandle cur) candles) as [t [e|[]]].
  - discriminate.
  - destruct (advanceCursor_value candles cur) as [c Hc]. rewrite Hc.
    unfold bind, ret. intros H. inversion H. reflexivity.
Qed.

End Poller.

(** A turn of the poller asks for the candles from the window start of its
    cursor. *)
Lemma pollTurn_asks_from_cursor (host : Host) (x : Exchange)
  (credentials : Credentials) (instrument granularity : string)
  (pollingInterval : Duration) (completedOnly : bool) (cur : PollCursor) :
  NewRequest x = None ->
  exists t,
    fst (pollTurn host x credentials instrument granularity pollingInterval
           completedOnly cur)
    = Get (InstrumentCandles instrument granularity (Format_RFC3339 (from cur)))
        (Token (Default credentials)) :: t.
Proof.
  intros Hn. unfold pollTurn. eapply bind_head.
  unfold getCandlesForStream, check.
  rewrite Hn, bind_ret_l. unfold emit. rewrite bind_value. reflexivity.
Qed.

(** The cursor after a batch that went through. *)
Lemma cursor_after_batch_core :
  forall (host : Host) (completedOnly : bool) (candles : list Candlestick)
         (cur cur' : PollCursor) (tr : list event),
    processBatch host completedOnly (Some candles) cur = (tr, inr cur') ->
    (candles = [] -> cur' = cur) /\
    (forall init c, candles = init ++ [c] ->
       lastCandle cur' = Some c /\ from cur' = Time c).
Proof.
  intros host completedOnly candles cur cur' tr H.
  pose proof (processBatch_cursor host _ _ _ _ _ H) as Hadv.
  split.
  - intros ->. rewrite advanceCursor_nil in Hadv. inversion Hadv. reflexivity.
  - intros init c ->. rewrite advanceCursor_last in Hadv.
    inversion Hadv. split; reflexivity.
Qed.

(** C5. A turn of the poller that goes through leaves the cursor as
    follows: when the batch has a final bar, that bar is the last candle
    and its time the next window start, whether the bar is complete or
    not and whether it was printed or not; when the batch is empty, the
    cursor is as before.  The turn of [getCandlesStream] that received the
    batch ends with that cursor, and the next turn asks for the candles
    from the time of that final bar. *)
Theorem cursor_after_batch :
  forall (host : Host) (completedOnly : bool) (candles : list Candlestick)
         (cur cur' : PollCursor) (tr : list event),
    processBatch host completedOnly (Some candles) cur = (tr, inr cur') ->
    (candles = [] -> cur' = cur) /\
    (forall init c, candles = init ++ [c] ->
       lastCandle cur' = Some c /\ from cur' = Time c) /\
    (forall x credentials instrument granularity pollingInterval t,
       getCandlesForStream host x credentials instrument granularity (from cur)
         = (t, inr (Some candles)) ->
       pollTurn host x credentials instrument granularity pollingInterval
         completedOnly cur
       = (t ++ tr ++ [Sleep pollingInterval], inr cur')) /\
    (forall init c x credentials instrument granularity pollingInterval,
       candles = init ++ [c] ->
       NewRequest x = None ->
       exists t,
         fst (pollTurn host x credentials instrument granularity pollingInterval
                completedOnly cur')
         = Get (InstrumentCandles instrument granularity (Format_RFC3339 (Time c)))
             (Token (Default credentials)) :: t).
Proof.
  intros host completedOnly candles cur cur' tr H.
  destruct (cursor_after_batch_core host _ _ _ _ _ H) as [Hnil Hlast].
  split; [exact Hnil|]. split; [exact Hlast|]. split.
  - intros x credentials instrument granularity pollingInterval t Hget.
    eapply pollTurn_processBatch; eassumption.
  - intros init c x credentials instrument granularity pollingInterval E Hn.
    destruct (Hlast init c E) as [_ Hfrom]. rewrite <- Hfrom.
    apply pollTurn_asks_from_cursor. exact Hn.
Qed.

Lemma cursor_after_batch_witness :
  processBatch demoHost true (Some batch2)
    {| lastCandle := Some (bar t1000 false 3); from := t1000 |}
  = ([Stdout (jsonText "{'complete':true,'volume':5,'time':1704103200000000000}")],
     inr {| lastCandle := Some (bar t1005 false 1); from := t1005 |})
  /\ lastCandle {| lastCandle := Some (bar t1005 false 1); from := t1005 |}
     = Some (bar t1005 false 1)
  /\ from {| lastCandle := Some (bar t1005 false 1); from := t1005 |}
     = Time (bar t1005 false 1).
Proof.
  assert (H : processBatch demoHost true (Some batch2)
                {| lastCandle := Some (bar t1000 false 3); from := t1000 |}
              = ([Stdout (jsonText
                    "{'complete':true,'volume':5,'time':1704103200000000000}")],
                 inr {| lastCandle := Some (bar t1005 false 1); from := t1005 |}))
    by (vm_compute; reflexivity).
  split; [exact H|].
  exact (proj1 (proj2 (cursor_after_batch demoHost true batch2 _ _ _ H))
           [bar t1000 true 5] (bar t1005 false 1) eq_refl).
Defined.

(** The requests of the poller write nothing to standard output. *)
Lemma getCandlesForStream_stdout (host : Host) (x : Exchange)
  (credentials : Credentials) (instrument granularity : string) (from : time_Time) :
  stdout (fst (getCandlesForStream host x credentials instrument granularity from)) = [].
Proof.
  unfold getCandlesForStream, check, try, emit, returnErr, ret, bind.
  destruct (NewRequest x); [reflexivity|].
  destruct (Do x) as [e|res]; [reflexivity|].
  destruct (ReadAll res) as [e|b]; [reflexivity|].
  destruct (negb (StatusCode res =? 200)); [reflexivity|].
  destruct (Unmarshal_CandlesResponseBody host b) as [body [e|]]; reflexivity.
Qed.

Lemma getCandlesStream_unfold (host : Host) (xs : list Exchange)
  (instrument granularity configPath : string) (from0 : time_Time)
  (pollingInterval : Duration) (completedOnly : bool) (credentials : Credentials) :
  GetCredentials host configPath = inr credentials ->
  getCandlesStream host xs instrument granularity from0 pollingInterval
    completedOnly configPath
  = call (pollLoop host xs credentials instrument granularity pollingInterval
            completedOnly {| lastCandle := None; from := from0 |} ;;; running).
Proof.
  intros H. unfold getCandlesStream. rewrite H. unfold try.
  rewrite bind_ret_l. reflexivity.
Qed.

(** C2. With completed-only mode off and no candle emitted before, the
    batch [10:00 incomplete, volume 3] prints one line, that bar; the batch
    [10:00 complete, volume 5; 10:05 incomplete, volume 1] that follows
    prints two, the finalized 10:00 bar and then the 10:05 bar.  So does
    [getCandlesStream] when its first two requests are answered with these
    batches: one line of output after the first turn, three after the
    second. *)
Theorem poller_scenario :
  forall (host : Host) (from0 : time_Time) (l1 l2 l3 : bytes),
    json_Marshal host (bar t1000 false 3) = inr l1 ->
    json_Marshal host (bar t1000 true 5) = inr l2 ->
    json_Marshal host (bar t1005 false 1) = inr l3 ->
    processBatch host false (Some batch1) {| lastCandle := None; from := from0 |}
      = ([Stdout l1],
         inr {| lastCandle := Some (bar t1000 false 3); from := t1000 |})
    /\ processBatch host false (Some batch2)
         {| lastCandle := Some (bar t1000 false 3); from := t1000 |}
      = ([Stdout l2; Stdout l3],
         inr {| lastCandle := Some (bar t1005 false 1); from := t1005 |})
    /\ (forall x1 x2 credentials instrument granularity pollingInterval
               configPath t1 t2,
          GetCredentials host configPath = inr credentials ->
          getCandlesForStream host x1 credentials instrument granularity from0
            = (t1, inr (Some batch1)) ->
          getCandlesForStream host x2 credentials instrument granularity t1000
            = (t2, inr (Some batch2)) ->
          stdout (fst (getCandlesStream host [x1] instrument granularity from0
                         pollingInterval false configPath)) = [l1]
          /\ stdout (fst (getCandlesStream host [x1; x2] instrument granularity
                            from0 pollingInterval false configPath))
             = [l1; l2; l3]).
Proof.
  intros host from0 l1 l2 l3 H1 H2 H3.
  assert (B1 : processBatch host false (Some batch1)
                 {| lastCandle := None; from := from0 |}
               = ([Stdout l1],
                  inr {| lastCandle := Some (bar t1000 false 3); from := t1000 |})).
  { unfold processBatch, emitNewer, deref, batch1. simpl.
    rewrite H1. reflexivity. }
  assert (B2 : processBatch host false (Some batch2)
                 {| lastCandle := Some (bar t1000 false 3); from := t1000 |}
               = ([Stdout l2; Stdout l3],
                  inr {| lastCandle := Some (bar t1005 false 1); from := t1005 |})).
  { unfold processBatch, emitNewer, deref, batch2. simpl.
    rewrite H2. simpl. rewrite H3. reflexivity. }
  split; [exact B1|]. split; [exact B2|].
  intros x1 x2 credentials instrument granularity pollingInterval configPath
         t1 t2 Hc G1 G2.
  pose proof (getCandlesForStream_stdout host x1 credentials instrument
                granularity from0) as S1.
  pose proof (getCandlesForStream_stdout host x2 credentials instrument
                granularity t1000) as S2.
  rewrite G1 in S1. rewrite G2 in S2. simpl in S1, S2.
  rewrite !(getCandlesStream_unfold _ _ _ _ _ _ _ _ _ Hc).
  simpl pollLoop.
  rewrite (pollTurn_processBatch host x1 credentials instrument granularity
             pollingInterval false {| lastCandle := None; from := from0 |}
             _ t1 _ _ G1 B1).
  split.
  - simpl. repeat rewrite stdout_app. rewrite S1. reflexivity.
  - rewrite bind_value. simpl pollLoop. cbv beta.
    rewrite (pollTurn_processBatch host x2 credentials instrument granularity
               pollingInterval false
               {| lastCandle := Some (bar t1000 false 3); from := t1000 |}
               _ t2 _ _ G2 B2).
    simpl. repeat rewrite stdout_app. rewrite S1, S2. reflexivity.
Qed.

Lemma poller_scenario_witness :
  processBatch demoHost false (Some batch1) {| lastCandle := None; from := t1000 |}
    = ([Stdout (jsonText "{'complete':false,'volume':3,'time':1704103200000000000}")],
       inr {| lastCandle := Some (bar t1000 false 3); from := t1000 |})
  /\ processBatch demoHost false (Some batch2)
       {| lastCandle := Some (bar t1000 false 3); from := t1000 |}
    = ([Stdout (jsonText "{'complete':true,'volume':5,'time':1704103200000000000}");
        Stdout (jsonText "{'complete':false,'volume':1,'time':1704103500000000000}")],
       inr {| lastCandle := Some (bar t1005 false 1); from := t1005 |}).
Proof.
  pose proof (poller_scenario demoHost t1000 _ _ _ eq_refl eq_refl eq_refl) as H.
  split; [exact (proj1 H) | exact (proj1 (proj2 H))].
Defined.

(** C6, as stated, fails: in completed-only mode an incomplete bar that is
    the last of its batch becomes the cursor.  Were it to make no
    contribution to the cursor, the batch [10:00 incomplete] would leave
    the cursor where the batch without that bar, the empty one, leaves
    it. *)
Lemma completedOnly_incomplete_bar_moves_cursor :
  snd (processBatch demoHost true (Some batch1)
         {| lastCandle := None; from := t1005 |})
  = inr {| lastCandle := Some (bar t1000 false 3); from := t1000 |}
  /\ snd (processBatch demoHost true (Some (filter Complete batch1))
            {| lastCandle := None; from := t1005 |})
     = inr {| lastCandle := None; from := t1005 |}
  /\ snd (processBatch demoHost true (Some batch1)
            {| lastCandle := None; from := t1005 |})
     <> snd (processBatch demoHost true (Some (filter Complete batch1))
               {| lastCandle := None; from := t1005 |}).
Proof.
  split; [reflexivity|]. split; [reflexivity|].
  vm_compute. intros H. discriminate H.
Qed.

(** C6, amended.  In completed-only mode the loop over a batch does with
    it what it does with its complete bars alone: an incomplete bar is not
    printed and is compared with nothing.  The cursor is moved as in the
    other mode, to the final bar of the batch, incomplete or not.  On the
    two batches of the scenario nothing is printed for the first, and for
    the second the finalized 10:00 bar and not the 10:05 bar. *)
Theorem completedOnly_skips_printing :
  forall (host : Host) (l2 : bytes),
    json_Marshal host (bar t1000 true 5) = inr l2 ->
    (forall last candles,
       emitNewer host true last (Some candles)
       = emitNewer host true last (Some (filter Complete candles)))
    /\ (forall candles cur cur' tr init c,
          processBatch host true (Some candles) cur = (tr, inr cur') ->
          candles = init ++ [c] ->
          lastCandle cur' = Some c /\ from cur' = Time c)
    /\ (forall from0,
          processBatch host true (Some batch1)
            {| lastCandle := None; from := from0 |}
          = ([], inr {| lastCandle := Some (bar t1000 false 3); from := t1000 |}))
    /\ processBatch host true (Some batch2)
         {| lastCandle := Some (bar t1000 false 3); from := t1000 |}
       = ([Stdout l2],
          inr {| lastCandle := Some (bar t1005 false 1); from := t1005 |}).
Proof.
  intros host l2 H2.
  split; [|split; [|split]].
  - intros last candles. unfold emitNewer, deref.
    rewrite !bind_ret_l. apply rangeCandles_completedOnly.
  - intros candles cur cur' tr init c H E.
    exact (proj2 (cursor_after_batch_core host true candles cur cur' tr H)
             init c E).
  - intros from0. reflexivity.
  - unfold processBatch, emitNewer, deref, batch2. simpl.
    rewrite H2. reflexivity.
Qed.

Lemma completedOnly_skips_printing_witness :
  json_Marshal demoHost (bar t1000 true 5)
    = inr (jsonText "{'complete':true,'volume':5,'time':1704103200000000000}")
  /\ processBatch demoHost true (Some batch1)
       {| lastCandle := None; from := t1000 |}
     = ([], inr {| lastCandle := Some (bar t1000 false 3); from := t1000 |})
  /\ processBatch demoHost true (Some batch2)
       {| lastCandle := Some (bar t1000 false 3); from := t1000 |}
     = ([Stdout (jsonText "{'complete':true,'volume':5,'time':1704103200000000000}")],
        inr {| lastCandle := Some (bar t1005 false 1); from := t1005 |}).
Proof.
  pose proof (completedOnly_skips_printing demoHost _ eq_refl) as H.
  split; [reflexivity|].
  split; [exact (proj1 (proj2 (proj2 H)) t1000) | exact (proj2 (proj2 (proj2 H)))].
Defined.

(** C8. A complete candle is never newer than itself, so a poller whose
    last candle is the complete candle [C] prints nothing when a batch
    delivers [C] again, in either mode, and is left with [C] as its last
    candle: the replay can be repeated with the same result. *)
Theorem completed_replay_not_emitted :
  forall (host : Host) (C : Candlestick) (completedOnly : bool) (from0 : time_Time),
    Complete C = true ->
    NewerThan C C = false
    /\ processBatch host completedOnly (Some [C])
         {| lastCandle := Some C; from := from0 |}
       = ([], inr {| lastCandle := Some C; from := Time C |}).
Proof.
  intros host C completedOnly from0 HC.
  assert (HN : NewerThan C C = false).
  { unfold NewerThan, After, Equal.
    rewrite Z.gtb_ltb, Z.ltb_irrefl, Z.eqb_refl, HC. reflexivity. }
  split; [exact HN|].
  unfold processBatch, emitNewer, deref. simpl.
  rewrite HN, HC. simpl. rewrite andb_false_r. reflexivity.
Qed.

Lemma completed_replay_not_emitted_witness :
  Complete (bar t1000 true 5) = true
  /\ NewerThan (bar t1000 true 5) (bar t1000 true 5) = false
  /\ processBatch demoHost false (Some [bar t1000 true 5])
       {| lastCandle := Some (bar t1000 true 5); from := t1000 |}
     = ([], inr {| lastCandle := Some (bar t1000 true 5); from := t1000 |}).
Proof.
  split; [reflexivity|].
  exact (completed_replay_not_emitted demoHost (bar t1000 true 5) false t1000 eq_refl).
Defined.

(** ** The live streams *)

Lemma priceLine_decoded :
  Unmarshal_PriceOrHeartbeat priceLine = ({| ph_Type := "PRICE" |}, None).
Proof. vm_compute. reflexivity. Qed.

Lemma heartbeatLine_decoded :
  Unmarshal_PriceOrHeartbeat heartbeatLine = ({| ph_Type := "HEARTBEAT" |}, None).
Proof. vm_compute. reflexivity. Qed.

(** A turn that reads an error returns it: the [break] of the loops is
    never reached, whatever the reader yields within its contract. *)
Lemma priceTurn_fault (heartbeat : bool) (heartbeatTimeout : Duration) (e : error) :
  priceTurn heartbeat heartbeatTimeout (None, Some e) = returnErr (Some e).
Proof. reflexivity. Qed.

Lemma transactionTurn_fault (heartbeat : bool) (heartbeatTimeout : Duration)
  (e : error) :
  transactionTurn heartbeat heartbeatTimeout (None, Some e) = returnErr (Some e).
Proof. reflexivity. Qed.

(** A turn on a line either goes on or returns an error. *)
Lemma priceTurn_line (heartbeat : bool) (heartbeatTimeout : Duration) (line : bytes) :
  (exists t, priceTurn heartbeat heartbeatTimeout (Some line, None)
             = (t, inr Continue))
  \/ (exists e, priceTurn heartbeat heartbeatTimeout (Some line, None)
                = ([], inl (Return (Some e)))).
Proof.
  unfold priceTurn, Unmarshal_PriceOrHeartbeat.
  destruct (unmarshalType line) as [t [e|]]; simpl.
  - right. exists e. reflexivity.
  - left. destruct (String.eqb t "PRICE"); [eexists; reflexivity|].
    destruct (String.eqb t "HEARTBEAT"); [|eexists; reflexivity].
    destruct (negb (heartbeatTimeout =? 0)), heartbeat; eexists; reflexivity.
Qed.

Lemma transactionTurn_line (heartbeat : bool) (heartbeatTimeout : Duration)
  (line : bytes) :
  (exists t, transactionTurn heartbeat heartbeatTimeout (Some line, None)
             = (t, inr Continue))
  \/ (exists e, transactionTurn heartbeat heartbeatTimeout (Some line, None)
                = ([], inl (Return (Some e)))).
Proof.
  unfold transactionTurn, Unmarshal_TransactionOrHeartbeat.
  destruct (unmarshalType line) as [t [e|]]; simpl.
  - right. exists e. reflexivity.
  - left. destruct (String.eqb t "HEARTBEAT"); [|eexists; reflexivity].
    destruct (negb (heartbeatTimeout =? 0)), heartbeat; eexists; reflexivity.
Qed.

(** The loops of both streams end, and only by returning an error. *)
Lemma readLoop_returns_error (turn : option bytes * option error -> M flow) :
  (forall e, turn (None, Some e) = returnErr (Some e)) ->
  (forall line,
     (exists t, turn (Some line, None) = (t, inr Continue))
     \/ (exists e, turn (Some line, None) = ([], inl (Return (Some e))))) ->
  forall lines fault,
    exists t e, readLoop turn lines fault = (t, inl (Return (Some e))).
Proof.
  intros Hfault Hline lines fault.
  induction lines as [|line rest IH]; simpl.
  - rewrite Hfault. exists [], fault. reflexivity.
  - destruct (Hline line) as [[t H] | [e H]]; rewrite H.
    + destruct IH as [t' [e IH]]. rewrite bind_value, IH.
      exists (t ++ t'), e. reflexivity.
    + exists [], e. reflexivity.
Qed.

Lemma streamFrom_returns_error (host : Host) (target : Account -> target)
  (turn : option bytes * option error -> M flow) (x : Exchange)
  (heartbeatTimeout : Duration) (configPath : string) :
  (forall e, turn (None, Some e) = returnErr (Some e)) ->
  (forall line,
     (exists t, turn (Some line, None) = (t, inr Continue))
     \/ (exists e, turn (Some line, None) = ([], inl (Return (Some e))))) ->
  exists e, snd (streamFrom host target turn x heartbeatTimeout configPath)
            = Return (Some e).
Proof.
  intros Hfault Hline. unfold streamFrom, try, check.
  destruct (GetCredentials host configPath) as [e|credentials];
    [exists e; reflexivity|].
  rewrite bind_ret_l.
  destruct (NewRequest x) as [e|]; [exists e; reflexivity|].
  rewrite bind_ret_l. unfold emit at 1. rewrite bind_value. cbv beta.
  destruct (Do x) as [e|res]; [exists e; reflexivity|].
  rewrite bind_ret_l.
  destruct (negb (StatusCode res =? 200)).
  - unfold emit. rewrite bind_value. cbv beta.
    destruct (ReadAll res) as [e|body]; [exists e; reflexivity|].
    eexists. reflexivity.
  - rewrite bind_ret_l.
    destruct (readLoop_returns_error turn Hfault Hline (Lines res) (Fault res))
      as [t [e H]].
    exists e. unfold when, emit.
    destruct (negb (heartbeatTimeout =? 0)).
    + rewrite bind_value. cbv beta. rewrite H. reflexivity.
    + rewrite bind_ret_l, H. reflexivity.
Qed.

(** No run of [getStream] ends with a nil error. *)
Lemma getStream_returns_error (host : Host) (x : Exchange) (instruments : string)
  (heartbeat : bool) (heartbeatTimeout : Duration) (configPath : string) :
  exists e, snd (getStream host x instruments heartbeat heartbeatTimeout configPath)
            = Return (Some e).
Proof.
  apply streamFrom_returns_error;
    [apply priceTurn_fault | apply priceTurn_line].
Qed.

Lemma getTransactionStream_returns_error (host : Host) (x : Exchange)
  (heartbeat : bool) (heartbeatTimeout : Duration) (configPath : string) :
  exists e, snd (getTransactionStream host x heartbeat heartbeatTimeout configPath)
            = Return (Some e).
Proof.
  apply streamFrom_returns_error;
    [apply transactionTurn_fault | apply transactionTurn_line].
Qed.

Lemma readLoop_cons (turn : option bytes * option error -> M flow)
  (line : bytes) (rest : list bytes) (fault : error) :
  readLoop turn (line :: rest) fault
  = (f <- turn (Some line, None) ;;
     match f with
     | Break => ret tt
     | Continue => readLoop turn rest fault
     end).
Proof. reflexivity. Qed.

Lemma readLoop_nil (turn : option bytes * option error -> M flow) (fault : error) :
  readLoop turn [] fault
  = (f <- turn (None, Some fault) ;;
     match f with
     | Break => ret tt
     | Continue => running
     end).
Proof. reflexivity. Qed.

(** A stream that opens: the request, the watchdog if there is one, the
    loop. *)
Lemma streamFrom_streaming (host : Host) (target : Account -> target)
  (turn : option bytes * option error -> M flow) (lines : list bytes)
  (fault : error) (heartbeatTimeout : Duration) (configPath : string)
  (credentials : Credentials) :
  GetCredentials host configPath = inr credentials ->
  streamFrom host target turn (streaming lines fault) heartbeatTimeout configPath
  = call (emit (Get (target (Default credentials)) (Token (Default credentials))) ;;;
          when (negb (heartbeatTimeout =? 0)) (emit (GoWatchdog heartbeatTimeout)) ;;;
          readLoop turn lines fault ;;;
          ret None).
Proof.
  intros Hc. unfold streamFrom. rewrite Hc. unfold try, streaming, check.
  cbn [NewRequest Do StatusCode Lines Fault]. rewrite !bind_ret_l.
  cbn [NewRequest Do StatusCode Lines Fault].
  change (negb (200 =? 200)) with false. cbv iota.
  rewrite !bind_ret_l. reflexivity.
Qed.

Lemma priceTurn_priceLine (heartbeat : bool) (heartbeatTimeout : Duration) :
  priceTurn heartbeat heartbeatTimeout (Some priceLine, None)
  = ([Stdout priceLine], inr Continue).
Proof. unfold priceTurn. rewrite priceLine_decoded. reflexivity. Qed.

Lemma priceTurn_heartbeatLine (heartbeatTimeout : Duration) :
  priceTurn false heartbeatTimeout (Some heartbeatLine, None)
  = (if negb (heartbeatTimeout =? 0) then [SendHeartbeat] else [], inr Continue).
Proof.
  unfold priceTurn. rewrite heartbeatLine_decoded.
  destruct (negb (heartbeatTimeout =? 0)); reflexivity.
Qed.

(** C3. On the lines PRICE, HEARTBEAT and then the end of the stream, with
    heartbeats not printed, [getStream] prints the PRICE line and nothing
    else, and returns [io.EOF]: the read that reports the end of the stream
    reports it as an error, which the loop returns before it looks at the
    line.  On every stream that ends, the function returns an error. *)
Theorem getStream_end_of_stream :
  forall (host : Host) (instruments configPath : string) (credentials : Credentials)
         (heartbeatTimeout : Duration),
    GetCredentials host configPath = inr credentials ->
    stdout (fst (getStream host (streaming [priceLine; heartbeatLine] EOF)
                   instruments false heartbeatTimeout configPath))
      = [priceLine]
    /\ snd (getStream host (streaming [priceLine; heartbeatLine] EOF)
              instruments false heartbeatTimeout configPath)
       = Return (Some EOF)
    /\ (forall lines heartbeat,
          exists e, snd (getStream host (streaming lines EOF) instruments
                           heartbeat heartbeatTimeout configPath)
                    = Return (Some e)).
Proof.
  intros host instruments configPath credentials heartbeatTimeout Hc.
  assert (E : getStream host (streaming [priceLine; heartbeatLine] EOF)
                instruments false heartbeatTimeout configPath
              = ([Get (PricingStream (AccountId (Default credentials)) instruments)
                    (Token (Default credentials))]
                 ++ (if negb (heartbeatTimeout =? 0)
                     then [GoWatchdog heartbeatTimeout; Stdout priceLine; SendHeartbeat]
                     else [Stdout priceLine]),
                 Return (Some EOF))).
  { unfold getStream. rewrite (streamFrom_streaming _ _ _ _ _ _ _ _ Hc).
    rewrite readLoop_cons, priceTurn_priceLine, bind_value. cbv beta.
    rewrite readLoop_cons, priceTurn_heartbeatLine, bind_value. cbv beta.
    rewrite readLoop_nil, priceTurn_fault.
    destruct (negb (heartbeatTimeout =? 0)); reflexivity. }
  rewrite E. split; [|split].
  - simpl. destruct (negb (heartbeatTimeout =? 0)); reflexivity.
  - reflexivity.
  - intros lines heartbeat. apply getStream_returns_error.
Qed.

Lemma getStream_end_of_stream_witness :
  GetCredentials demoHost "oanda.yaml"
    = inr {| Default := {| AccountId := "101-004-1-001"; Token := "t0k3n" |} |}
  /\ stdout (fst (getStream demoHost (streaming [priceLine; heartbeatLine] EOF)
                    "EUR_USD" false 0 "oanda.yaml"))
     = [priceLine]
  /\ snd (getStream demoHost (streaming [priceLine; heartbeatLine] EOF)
            "EUR_USD" false 0 "oanda.yaml")
     = Return (Some EOF).
Proof.
  pose proof (getStream_end_of_stream demoHost "EUR_USD" "oanda.yaml" _ 0 eq_refl)
    as H.
  split; [reflexivity|].
  split; [exact (proj1 H) | exact (proj1 (proj2 H))].
Defined.

Lemma bind_continue (t : list event) (k : flow -> M unit) :
  bind (t, inr Continue) k = (t ++ fst (k Continue), snd (k Continue)).
Proof. apply bind_value. Qed.

(** C10. A line that decodes with a [Type] other than PRICE and HEARTBEAT
    leaves no trace in the price stream: the turn prints nothing, sends
    nothing, returns nothing and goes on, so the loop does what it does
    without the line.  The transaction stream prints, as it is, every line
    that decodes with a [Type] other than HEARTBEAT, and goes on. *)
Theorem unknown_type_dropped_by_prices_only :
  forall (heartbeat : bool) (heartbeatTimeout : Duration) (line : bytes)
         (t : string),
    unmarshalType line = (t, None) ->
    (t <> "PRICE"%string -> t <> "HEARTBEAT"%string ->
       priceTurn heartbeat heartbeatTimeout (Some line, None) = ([], inr Continue)
       /\ forall rest fault,
            readLoop (priceTurn heartbeat heartbeatTimeout) (line :: rest) fault
            = readLoop (priceTurn heartbeat heartbeatTimeout) rest fault)
    /\ (t <> "HEARTBEAT"%string ->
          transactionTurn heartbeat heartbeatTimeout (Some line, None)
            = ([Stdout line], inr Continue)
          /\ forall rest fault,
               readLoop (transactionTurn heartbeat heartbeatTimeout)
                 (line :: rest) fault
               = (Stdout line
                    :: fst (readLoop (transactionTurn heartbeat heartbeatTimeout)
                              rest fault),
                  snd (readLoop (transactionTurn heartbeat heartbeatTimeout)
                         rest fault))).
Proof.
  intros heartbeat heartbeatTimeout line t Hd. split.
  - intros Hp Hh.
    assert (E : priceTurn heartbeat heartbeatTimeout (Some line, None)
                = ([], inr Continue)).
    { unfold priceTurn, Unmarshal_PriceOrHeartbeat. rewrite Hd. simpl.
      apply String.eqb_neq in Hp. apply String.eqb_neq in Hh.
      rewrite Hp, Hh. reflexivity. }
    split; [exact E|].
    intros rest fault. rewrite readLoop_cons, E, bind_continue.
    destruct (readLoop (priceTurn heartbeat heartbeatTimeout) rest fault).
    reflexivity.
  - intros Hh.
    assert (E : transactionTurn heartbeat heartbeatTimeout (Some line, None)
                = ([Stdout line], inr Continue)).
    { unfold transactionTurn, Unmarshal_TransactionOrHeartbeat. rewrite Hd. simpl.
      apply String.eqb_neq in Hh. rewrite Hh. reflexivity. }
    split; [exact E|].
    intros rest fault. rewrite readLoop_cons, E, bind_continue. reflexivity.
Qed.

Lemma unknown_type_dropped_by_prices_only_witness :
  unmarshalType (jsonText "{'type':'ORDER_FILL','id':'7'}") = ("ORDER_FILL"%string, None)
  /\ priceTurn true 5000000000
       (Some (jsonText "{'type':'ORDER_FILL','id':'7'}"), None)
     = ([], inr Continue)
  /\ transactionTurn true 5000000000
       (Some (jsonText "{'type':'ORDER_FILL','id':'7'}"), None)
     = ([Stdout (jsonText "{'type':'ORDER_FILL','id':'7'}")], inr Continue).
Proof.
  assert (Hd : unmarshalType (jsonText "{'type':'ORDER_FILL','id':'7'}")
               = ("ORDER_FILL"%string, None)) by (vm_compute; reflexivity).
  pose proof (unknown_type_dropped_by_prices_only true 5000000000 _ _ Hd) as H.
  split; [exact Hd|]. split.
  - refine (proj1 (proj1 H _ _)); intros E; discriminate E.
  - refine (proj1 (proj2 H _)); intros E; discriminate E.
Defined.

(** ** The envelope decoder *)

Lemma saveError_None (saved new : option error) :
  saveError saved new = None <-> saved = None /\ new = None.
Proof.
  destruct saved, new; simpl; split; try intros [? ?]; try discriminate; auto.
Qed.

Lemma storeString_error (field : string) (v : json) (cur : string) :
  snd (storeString field v cur) = None <-> storable v = true.
Proof. destruct v; simpl; split; intros H; try discriminate; reflexivity. Qed.

Lemma storeTypeMembers_error (ms : list (string * json)) :
  forall cur saved,
    snd (storeTypeMembers ms cur saved) = None
    <-> saved = None /\ forallb storable (typeMembers ms) = true.
Proof.
  induction ms as [|[k v] rest IH]; intros cur saved.
  - simpl. split; [intros H; split; [exact H | reflexivity] | intros [H _]; exact H].
  - unfold typeMembers. simpl.
    destruct (selects k "type") eqn:Ek.
    + pose proof (storeString_error "type" v cur) as Hs.
      destruct (storeString "type" v cur) as [cur' err]. simpl in Hs.
      rewrite IH, saveError_None. simpl.
      rewrite andb_true_iff. fold (typeMembers rest). tauto.
    + rewrite IH. reflexivity.
Qed.

Lemma storeTypeMembers_untyped (ms : list (string * json)) :
  forall cur saved,
    existsb (fun m => selects (fst m) "type") ms = false ->
    storeTypeMembers ms cur saved = (cur, saved).
Proof.
  induction ms as [|[k v] rest IH]; intros cur saved H; [reflexivity|].
  simpl in H. apply orb_false_iff in H. destruct H as [Hk Hrest].
  simpl. rewrite Hk. apply IH, Hrest.
Qed.

Lemma unmarshalType_error (line : bytes) :
  snd (unmarshalType line) <> None
  <-> parse line = None \/ exists j, parse line = Some j /\ acceptable j = false.
Proof.
  unfold unmarshalType.
  destruct (parse line) as [j|].
  - assert (H : snd match j with
                    | JNull => (EmptyString, None)
                    | JObject ms => storeTypeMembers ms EmptyString None
                    | _ => (EmptyString, Some (UnmarshalTypeError EmptyString))
                    end = None <-> acceptable j = true).
    { destruct j; simpl; try (split; intros H; [discriminate | discriminate]);
        try (split; reflexivity).
      rewrite storeTypeMembers_error. tauto. }
    split.
    + intros Hne. right. exists j. split; [reflexivity|].
      destruct (acceptable j); [|reflexivity].
      exfalso. apply Hne, H. reflexivity.
    + intros [Hp | [j' [Hp Ha]]]; [discriminate|].
      inversion Hp; subst j'. intros Hn. apply H in Hn. congruence.
  - split; [intros _; left; reflexivity | intros _; simpl; discriminate].
Qed.

(** C4, as stated, fails in both directions and in its second half: the
    line [{}] is well formed and has no [type], and is accepted, with an
    empty [Type]; the price stream prints nothing for it.  The line
    [{'type':5}], in the apostrophe notation, is well formed and has a
    [type], and is refused. *)
Lemma untyped_line_accepted :
  parse (jsonText "{}") = Some (JObject [])
  /\ hasType (JObject []) = false
  /\ Unmarshal_PriceOrHeartbeat (jsonText "{}") = ({| ph_Type := EmptyString |}, None)
  /\ (forall heartbeat heartbeatTimeout,
        priceTurn heartbeat heartbeatTimeout (Some (jsonText "{}"), None)
        = ([], inr Continue))
  /\ parse (jsonText "{'type':5}") = Some (JObject [("type"%string, JNumber "5")])
  /\ hasType (JObject [("type"%string, JNumber "5")]) = true
  /\ snd (unmarshalType (jsonText "{'type':5}")) = Some (UnmarshalTypeError "type")
  /\ ~ (snd (unmarshalType (jsonText "{}")) <> None
        <-> parse (jsonText "{}") = None
            \/ exists j, parse (jsonText "{}") = Some j /\ hasType j = false).
Proof.
  assert (P : parse (jsonText "{}") = Some (JObject [])) by (vm_compute; reflexivity).
  assert (U : unmarshalType (jsonText "{}") = (EmptyString, None))
    by (vm_compute; reflexivity).
  split; [exact P|]. split; [reflexivity|].
  split; [unfold Unmarshal_PriceOrHeartbeat; rewrite U; reflexivity|].
  split.
  { intros heartbeat heartbeatTimeout.
    unfold priceTurn, Unmarshal_PriceOrHeartbeat. rewrite U. reflexivity. }
  split; [vm_compute; reflexivity|]. split; [vm_compute; reflexivity|].
  split; [vm_compute; reflexivity|].
  intros [_ H]. rewrite U in H. apply H; [|reflexivity].
  right. exists (JObject []). split; [exact P | reflexivity].
Qed.

(** C4, amended.  The decoder fails exactly when the line is not one JSON
    value, or is a value other than an object and [null], or is an object
    in which a member for [type] (by a key that [selects] it) holds
    something other than a string and [null]; an object without such a
    member is accepted, with an empty [Type].  A failure ends either
    stream at that line, with the decoder's error and nothing printed for
    the line.  An accepted line is printed as it is or not at all: by the
    price stream when its [Type] is PRICE, or HEARTBEAT with heartbeats
    printed; by the transaction stream when its [Type] is not HEARTBEAT, or
    heartbeats are printed. *)
Theorem decoder_failure_and_raw_output :
  forall line : bytes,
    (snd (unmarshalType line) <> None
     <-> parse line = None \/ exists j, parse line = Some j /\ acceptable j = false)
    /\ (forall ms, parse line = Some (JObject ms) -> hasType (JObject ms) = false ->
          unmarshalType line = (EmptyString, None))
    /\ (forall heartbeat heartbeatTimeout e rest fault,
          snd (unmarshalType line) = Some e ->
          readLoop (priceTurn heartbeat heartbeatTimeout) (line :: rest) fault
            = ([], inl (Return (Some e)))
          /\ readLoop (transactionTurn heartbeat heartbeatTimeout) (line :: rest) fault
            = ([], inl (Return (Some e))))
    /\ (forall heartbeat heartbeatTimeout t,
          unmarshalType line = (t, None) ->
          stdout (fst (priceTurn heartbeat heartbeatTimeout (Some line, None)))
            = (if String.eqb t "PRICE" || (String.eqb t "HEARTBEAT" && heartbeat)
               then [line] else [])
          /\ stdout (fst (transactionTurn heartbeat heartbeatTimeout (Some line, None)))
            = (if negb (String.eqb t "HEARTBEAT") || heartbeat
               then [line] else [])).
Proof.
  intros line. split; [apply unmarshalType_error|]. split; [|split].
  - intros ms Hp Hu. unfold unmarshalType. rewrite Hp.
    apply storeTypeMembers_untyped. exact Hu.
  - intros heartbeat heartbeatTimeout e rest fault He.
    rewrite !readLoop_cons.
    unfold priceTurn, transactionTurn, Unmarshal_PriceOrHeartbeat,
      Unmarshal_TransactionOrHeartbeat.
    destruct (unmarshalType line) as [t err]. simpl in He. subst err.
    split; reflexivity.
  - intros heartbeat heartbeatTimeout t Hd.
    unfold priceTurn, transactionTurn, Unmarshal_PriceOrHeartbeat,
      Unmarshal_TransactionOrHeartbeat.
    rewrite Hd. simpl.
    destruct (String.eqb t "PRICE") eqn:Ep.
    + apply String.eqb_eq in Ep. subst t. split; reflexivity.
    + destruct (String.eqb t "HEARTBEAT");
        destruct (negb (heartbeatTimeout =? 0)), heartbeat; split; reflexivity.
Qed.

(** ** A response without candles *)

Lemma storeString_error_cur (field : string) (v : json) (cur : string) :
  snd (storeString field v cur) = snd (storeString field v EmptyString).
Proof. destruct v; reflexivity. Qed.

Lemma saveError_assoc (a b c : option error) :
  saveError (saveError a b) c = saveError a (saveError b c).
Proof. destruct a, b; reflexivity. Qed.

(** Members none of which selects [candles] leave the field as it was, and
    the decoder keeps the first type error among them. *)
Lemma storeBodyMembers_lacking (host : Host) (ms : list (string * json)) :
  existsb (fun m => selects (fst m) "candles") ms = false ->
  forall body saved,
    exists body',
      storeBodyMembers host ms body saved
      = inr (body', saveError saved (firstFault ms))
      /\ Candles body' = Candles body.
Proof.
  induction ms as [|[k v] rest IH]; intros Hl body saved.
  - exists body. split; [|reflexivity]. simpl. destruct saved; reflexivity.
  - simpl in Hl. apply orb_false_iff in Hl. destruct Hl as [Hc Hl].
    specialize (IH Hl).
    cbn [storeBodyMembers firstFault]. rewrite Hc.
    unfold memberFault. cbn [fst snd].
    destruct (selects k "granularity") eqn:Eg.
    + rewrite <- (storeString_error_cur "granularity" v (Granularity body)).
      destruct (storeString "granularity" v (Granularity body)) as [g err].
      cbn [snd].
      destruct (IH {| Candles := Candles body; Granularity := g;
                      Instrument := Instrument body |} (saveError saved err))
        as [body' [E1 E2]].
      exists body'. split; [|exact E2].
      rewrite E1, saveError_assoc. reflexivity.
    + destruct (selects k "instrument") eqn:Ei.
      * rewrite <- (storeString_error_cur "instrument" v (Instrument body)).
        destruct (storeString "instrument" v (Instrument body)) as [i err].
        cbn [snd].
        destruct (IH {| Candles := Candles body; Granularity := Granularity body;
                        Instrument := i |} (saveError saved err))
          as [body' [E1 E2]].
        exists body'. split; [|exact E2].
        rewrite E1, saveError_assoc. reflexivity.
      * destruct (IH body saved) as [body' [E1 E2]].
        exists body'. split; [|exact E2].
        rewrite E1. reflexivity.
Qed.

(** What the decoder makes of a JSON value without [candles]: a nil
    [Candles], and the error [bodyFault]. *)
Lemma Unmarshal_CandlesResponseBody_lacking (host : Host) (body : bytes) (j : json) :
  parse body = Some j ->
  lacksCandles j = true ->
  exists b,
    Unmarshal_CandlesResponseBody host body = (b, bodyFault j)
    /\ Candles b = None.
Proof.
  intros Hp Hl. unfold Unmarshal_CandlesResponseBody. rewrite Hp.
  destruct j as [|b|n|str|es|ms];
    try (eexists; split; reflexivity).
  simpl in Hl. apply negb_true_iff in Hl.
  destruct (storeBodyMembers_lacking host ms Hl
              {| Candles := None; Granularity := EmptyString;
                 Instrument := EmptyString |} None) as [body' [E1 E2]].
  rewrite E1. exists body'. split; [reflexivity | exact E2].
Qed.

Lemma memberFault_type_error (m : string * json) (err : error) :
  memberFault m = Some err -> exists field, err = UnmarshalTypeError field.
Proof.
  unfold memberFault. destruct m as [k v]. cbn [fst snd].
  destruct (selects k "granularity").
  - destruct v; simpl; intros H; try discriminate H;
      injection H as <-; eexists; reflexivity.
  - destruct (selects k "instrument"); [|discriminate].
    destruct v; simpl; intros H; try discriminate H;
      injection H as <-; eexists; reflexivity.
Qed.

Lemma firstFault_type_error (ms : list (string * json)) (err : error) :
  firstFault ms = Some err -> exists field, err = UnmarshalTypeError field.
Proof.
  induction ms as [|m rest IH]; [discriminate|].
  cbn [firstFault]. destruct (memberFault m) as [e|] eqn:Em; simpl.
  - intros H. injection H as <-. exact (memberFault_type_error m e Em).
  - exact IH.
Qed.

Lemma bodyFault_type_error (j : json) (err : error) :
  bodyFault j = Some err -> exists field, err = UnmarshalTypeError field.
Proof.
  destruct j as [|b|n|str|es|ms]; simpl; intros H;
    try discriminate H;
    try (injection H as <-; eexists; reflexivity).
  exact (firstFault_type_error ms err H).
Qed.

Lemma memberFault_None (m : string * json) :
  selects (fst m) "candles" = false ->
  (memberFault m = None <-> harmless m).
Proof.
  intros Hc. unfold memberFault, harmless. destruct m as [k v]. cbn [fst snd].
  destruct (selects k "granularity"); cbn [orb].
  - destruct v; simpl; split; intros H; try discriminate H;
      try reflexivity; try (split; [exact Hc | intros _; reflexivity]);
      destruct H as [_ H]; specialize (H eq_refl); discriminate H.
  - destruct (selects k "instrument").
    + destruct v; simpl; split; intros H; try discriminate H;
        try reflexivity; try (split; [exact Hc | intros _; reflexivity]);
        destruct H as [_ H]; specialize (H eq_refl); discriminate H.
    + split; [|reflexivity]. intros _. split; [exact Hc|]. discriminate.
Qed.

Lemma firstFault_None (ms : list (string * json)) :
  existsb (fun m => selects (fst m) "candles") ms = false ->
  (firstFault ms = None <-> Forall harmless ms).
Proof.
  induction ms as [|m rest IH]; intros Hl.
  - split; [constructor | reflexivity].
  - simpl in Hl. apply orb_false_iff in Hl. destruct Hl as [Hc Hl].
    specialize (IH Hl). pose proof (memberFault_None m Hc) as Hm.
    cbn [firstFault]. split.
    + intros H. destruct (memberFault m) eqn:Em; [discriminate H|].
      constructor; [apply Hm; reflexivity | apply IH; exact H].
    + intros H. inversion H as [|m' rest' H1 H2]; subst.
      apply Hm in H1. apply IH in H2. rewrite H1, H2. reflexivity.
Qed.

(** The bodies without [candles] that decode without an error: [null], and
    the objects of harmless members. *)
Lemma bodyFault_None (j : json) :
  lacksCandles j = true ->
  (bodyFault j = None
   <-> j = JNull \/ exists ms, j = JObject ms /\ Forall harmless ms).
Proof.
  intros Hl. destruct j as [|b|n|str|es|ms]; simpl.
  - split; [left; reflexivity | reflexivity].
  - split; [discriminate | intros [H|[ms [H _]]]; discriminate H].
  - split; [discriminate | intros [H|[ms [H _]]]; discriminate H].
  - split; [discriminate | intros [H|[ms [H _]]]; discriminate H].
  - split; [discriminate | intros [H|[ms [H _]]]; discriminate H].
  - simpl in Hl. apply negb_true_iff in Hl.
    pose proof (firstFault_None ms Hl) as Hf. split.
    + intros H. right. exists ms. split; [reflexivity | apply Hf; exact H].
    + intros [H|[ms' [H H']]]; [discriminate H|].
      injection H as <-. apply Hf. exact H'.
Qed.

(** One request answered 200 with a well-formed body without [candles]. *)
Lemma getCandlesForStream_lacking (host : Host) (x : Exchange) (res : Response)
  (body : bytes) (j : json) (credentials : Credentials)
  (instrument granularity : string) (from0 : time_Time) :
  NewRequest x = None ->
  Do x = inr res ->
  StatusCode res = 200 ->
  ReadAll res = inr body ->
  parse body = Some j ->
  lacksCandles j = true ->
  getCandlesForStream host x credentials instrument granularity from0
  = ([Get (InstrumentCandles instrument granularity (Format_RFC3339 from0))
        (Token (Default credentials))],
     match bodyFault j with
     | None => inr None
     | Some err => inl (Return (Some err))
     end).
Proof.
  intros Hn Hd Hs Hr Hp Hl.
  unfold getCandlesForStream, check, try.
  rewrite Hn, bind_ret_l. unfold emit at 1. rewrite bind_value. cbv beta.
  rewrite Hd, bind_ret_l, Hr, bind_ret_l, Hs.
  change (negb (200 =? 200)) with false. cbv iota. rewrite bind_ret_l.
  destruct (Unmarshal_CandlesResponseBody_lacking host body j Hp Hl)
    as [b [E1 E2]].
  rewrite E1. destruct (bodyFault j); [reflexivity|].
  rewrite bind_ret_l, E2. reflexivity.
Qed.

(** C9, as stated, fails: a poll answered 200 whose body is well-formed
    JSON without [candles] need not make the poller panic.
    When the body is an array, or an object whose [granularity] is a
    number, the decoder reports a type error, [getCandlesForStream] returns
    it before it returns the pointer, and the poller ends by returning that
    error. *)
Lemma body_without_candles_returns_error :
  (parse (jsonText "[]") = Some (JArray [])
   /\ lacksCandles (JArray []) = true
   /\ getCandlesStream demoHost [answering (jsonText "[]")]
        "EUR_USD" "S5" t1000 1000000000 false "oanda.yaml"
      = ([Get (InstrumentCandles "EUR_USD" "S5" (Format_RFC3339 t1000)) "t0k3n"],
         Return (Some (UnmarshalTypeError EmptyString))))
  /\ (parse (jsonText "{'granularity':5}")
      = Some (JObject [("granularity"%string, JNumber "5")])
      /\ lacksCandles (JObject [("granularity"%string, JNumber "5")]) = true
      /\ getCandlesStream demoHost [answering (jsonText "{'granularity':5}")]
           "EUR_USD" "S5" t1000 1000000000 false "oanda.yaml"
         = ([Get (InstrumentCandles "EUR_USD" "S5" (Format_RFC3339 t1000)) "t0k3n"],
            Return (Some (UnmarshalTypeError "granularity")))).
Proof. vm_compute. repeat split; reflexivity. Qed.

(** C9, amended.  The poller dereferences the pointer to the batch
    unchecked: both the loop over the batch and the test of its length
    panic on a nil pointer, and whenever the request of a turn yields a nil
    pointer and no error the poller ends by that panic, not by an error,
    with nothing printed.  A poll answered 200 whose body is well-formed
    JSON without [candles] yields that, and the panic, exactly when the
    body decodes without an error: when it is [null], or an object in
    which the members for [granularity] and [instrument], if any, hold
    strings or [null].  Any other such body (a value that is neither an
    object nor [null], or an object in which one of these members holds
    something else) makes the poller return the type error of the decoder
    instead, again with nothing printed. *)
Theorem nil_batch_panics :
  forall (host : Host) (x : Exchange) (res : Response) (body : bytes) (j : json)
         (credentials : Credentials)
         (instrument granularity configPath : string) (from0 : time_Time)
         (pollingInterval : Duration) (completedOnly : bool) (xs : list Exchange),
    GetCredentials host configPath = inr credentials ->
    NewRequest x = None ->
    Do x = inr res ->
    StatusCode res = 200 ->
    ReadAll res = inr body ->
    parse body = Some j ->
    lacksCandles j = true ->
    (forall last, emitNewer host completedOnly last None = panic nilDereference)
    /\ (forall cur, advanceCursor None cur = panic nilDereference)
    /\ (forall x' t,
          getCandlesForStream host x' credentials instrument granularity from0
            = (t, inr None) ->
          pollTurn host x' credentials instrument granularity pollingInterval
            completedOnly {| lastCandle := None; from := from0 |}
          = (t, inl (Panic nilDereference))
          /\ getCandlesStream host (x' :: xs) instrument granularity from0
               pollingInterval completedOnly configPath
             = (t, Panic nilDereference)
          /\ stdout t = [])
    /\ (bodyFault j = None
        <-> j = JNull \/ exists ms, j = JObject ms /\ Forall harmless ms)
    /\ match bodyFault j with
       | None =>
           getCandlesForStream host x credentials instrument granularity from0
           = ([Get (InstrumentCandles instrument granularity (Format_RFC3339 from0))
                 (Token (Default credentials))], inr None)
           /\ getCandlesStream host (x :: xs) instrument granularity from0
                pollingInterval completedOnly configPath
              = ([Get (InstrumentCandles instrument granularity (Format_RFC3339 from0))
                    (Token (Default credentials))], Panic nilDereference)
       | Some err =>
           (exists field, err = UnmarshalTypeError field)
           /\ getCandlesStream host (x :: xs) instrument granularity from0
                pollingInterval completedOnly configPath
              = ([Get (InstrumentCandles instrument granularity (Format_RFC3339 from0))
                    (Token (Default credentials))], Return (Some err))
       end.
Proof.
  intros host x res body j credentials instrument granularity configPath from0
         pollingInterval completedOnly xs Hc Hn Hd Hs Hr Hp Hl.
  assert (T : forall x' t,
             getCandlesForStream host x' credentials instrument granularity from0
               = (t, inr None) ->
             pollTurn host x' credentials instrument granularity pollingInterval
               completedOnly {| lastCandle := None; from := from0 |}
             = (t, inl (Panic nilDereference))).
  { intros x' t G. unfold pollTurn. cbn [from]. rewrite G, bind_value. cbv beta.
    simpl. rewrite app_nil_r. reflexivity. }
  pose proof (getCandlesForStream_lacking host x res body j credentials
                instrument granularity from0 Hn Hd Hs Hr Hp Hl) as G.
  split; [reflexivity|]. split; [reflexivity|]. split; [|split].
  - intros x' t G'. split; [exact (T x' t G')|]. split.
    + rewrite (getCandlesStream_unfold _ _ _ _ _ _ _ _ _ Hc).
      cbn [pollLoop]. rewrite (T x' t G'). reflexivity.
    + pose proof (getCandlesForStream_stdout host x' credentials instrument
                    granularity from0) as S.
      rewrite G' in S. exact S.
  - exact (bodyFault_None j Hl).
  - destruct (bodyFault j) as [err|] eqn:Ef.
    + split; [exact (bodyFault_type_error j err Ef)|].
      rewrite (getCandlesStream_unfold _ _ _ _ _ _ _ _ _ Hc).
      cbn [pollLoop]. unfold pollTurn. cbn [from]. rewrite G. reflexivity.
    + split; [exact G|].
      rewrite (getCandlesStream_unfold _ _ _ _ _ _ _ _ _ Hc).
      cbn [pollLoop]. rewrite (T x _ G). reflexivity.
Qed.

Lemma nil_batch_panics_witness :
  getCandlesStream demoHost
    [answering (jsonText "{'instrument':'EUR_USD','granularity':'S5'}")]
    "EUR_USD" "S5" t1000 1000000000 false "oanda.yaml"
  = ([Get (InstrumentCandles "EUR_USD" "S5" (Format_RFC3339 t1000)) "t0k3n"],
     Panic nilDereference)
  /\ getCandlesStream demoHost [answering (jsonText "7")]
       "EUR_USD" "S5" t1000 1000000000 false "oanda.yaml"
     = ([Get (InstrumentCandles "EUR_USD" "S5" (Format_RFC3339 t1000)) "t0k3n"],
        Return (Some (UnmarshalTypeError EmptyString))).
Proof.
  split.
  - exact (proj2 (proj2 (proj2 (proj2 (proj2
             (nil_batch_panics demoHost
                (answering (jsonText "{'instrument':'EUR_USD','granularity':'S5'}"))
                _ _
                (JObject [("instrument"%string, JString "EUR_USD");
                          ("granularity"%string, JString "S5")])
                _ "EUR_USD" "S5" "oanda.yaml" t1000 1000000000 false []
                eq_refl eq_refl eq_refl eq_refl eq_refl eq_refl eq_refl)))))).
  - exact (proj2 (proj2 (proj2 (proj2 (proj2
             (nil_batch_panics demoHost (answering (jsonText "7"))
                _ _ (JNumber "7")
                _ "EUR_USD" "S5" "oanda.yaml" t1000 1000000000 false []
                eq_refl eq_refl eq_refl eq_refl eq_refl eq_refl eq_refl)))))).
Defined.

(** ** The watchdog *)

Lemma existsb_watchdog_app (t u : list event) :
  existsb watchdogEvent (t ++ u)
  = existsb watchdogEvent t || existsb watchdogEvent u.
Proof. apply existsb_app. Qed.

Lemma bind_quiet {A B} (m : M A) (k : A -> M B) :
  existsb watchdogEvent (fst m) = false ->
  (forall a, existsb watchdogEvent (fst (k a)) = false) ->
  existsb watchdogEvent (fst (bind m k)) = false.
Proof.
  intros Hm Hk. destruct m as [t [e|a]]; simpl in *; [exact Hm|].
  specialize (Hk a). destruct (k a) as [t' r]. simpl in *.
  rewrite existsb_watchdog_app, Hm, Hk. reflexivity.
Qed.

Lemma priceTurn_quiet (heartbeat : bool) (read : option bytes * option error) :
  existsb watchdogEvent (fst (priceTurn heartbeat 0 read)) = false.
Proof.
  destruct read as [[line|] [e|]]; try reflexivity.
  unfold priceTurn, Unmarshal_PriceOrHeartbeat. simpl.
  destruct (unmarshalType line) as [t [e|]]; simpl; [reflexivity|].
  destruct (String.eqb t "PRICE"); [reflexivity|].
  destruct (String.eqb t "HEARTBEAT"); [|reflexivity].
  destruct heartbeat; reflexivity.
Qed.

Lemma transactionTurn_quiet (heartbeat : bool) (read : option bytes * option error) :
  existsb watchdogEvent (fst (transactionTurn heartbeat 0 read)) = false.
Proof.
  destruct read as [[line|] [e|]]; try reflexivity.
  unfold transactionTurn, Unmarshal_TransactionOrHeartbeat. simpl.
  destruct (unmarshalType line) as [t [e|]]; simpl; [reflexivity|].
  destruct (String.eqb t "HEARTBEAT"); [|reflexivity].
  destruct heartbeat; reflexivity.
Qed.

Lemma readLoop_quiet (turn : option bytes * option error -> M flow) :
  (forall read, existsb watchdogEvent (fst (turn read)) = false) ->
  forall lines fault,
    existsb watchdogEvent (fst (readLoop turn lines fault)) = false.
Proof.
  intros Hturn lines fault.
  induction lines as [|line rest IH]; simpl;
    (apply bind_quiet; [apply Hturn | intros [|]; [assumption || reflexivity | reflexivity]]).
Qed.

Lemma streamFrom_quiet (host : Host) (target : Account -> target)
  (turn : option bytes * option error -> M flow) (x : Exchange)
  (configPath : string) :
  (forall read, existsb watchdogEvent (fst (turn read)) = false) ->
  existsb watchdogEvent (fst (streamFrom host target turn x 0 configPath)) = false.
Proof.
  intros Hturn. unfold streamFrom.
  match goal with
  | |- existsb _ (fst (call ?m)) = false =>
      assert (Q : existsb watchdogEvent (fst m) = false);
      [| destruct m as [t [e|r]]; exact Q]
  end.
  apply bind_quiet; [destruct (GetCredentials host configPath); reflexivity|].
  intros credentials.
  apply bind_quiet; [destruct (NewRequest x); reflexivity|]. intros _.
  apply bind_quiet; [reflexivity|]. intros _.
  apply bind_quiet; [destruct (Do x); reflexivity|]. intros res.
  apply bind_quiet.
  { destruct (negb (StatusCode res =? 200)); [|reflexivity].
    apply bind_quiet; [reflexivity|]. intros _.
    apply bind_quiet; [destruct (ReadAll res); reflexivity|]. reflexivity. }
  intros _.
  apply bind_quiet; [reflexivity|]. intros _.
  apply bind_quiet; [apply readLoop_quiet, Hturn|]. reflexivity.
Qed.

(** The [break] of the loops needs a read with a nil line and a nil error,
    which [ReadLine] never yields. *)
Lemma priceTurn_break (heartbeat : bool) (heartbeatTimeout : Duration)
  (read : option bytes * option error) (t : list event) :
  priceTurn heartbeat heartbeatTimeout read = (t, inr Break) ->
  read = (None, None).
Proof.
  destruct read as [[line|] [e|]]; try discriminate; [|reflexivity].
  destruct (priceTurn_line heartbeat heartbeatTimeout line) as [[t' H] | [e H]];
    rewrite H; discriminate.
Qed.

(** * Further properties *)

(** ** The ordering of candles, as an order *)

Lemma NewerThan_true (A B : Candlestick) :
  NewerThan B A = true <->
  unixNano (Time B) > unixNano (Time A) \/
  (unixNano (Time B) = unixNano (Time A) /\
   ((Complete B = true /\ Complete A = false) \/
    (Complete B = false /\ Complete A = false /\ Volume B > Volume A))).
Proof.
  unfold NewerThan, After, Equal.
  destruct (Z.gtb_spec (unixNano (Time B)) (unixNano (Time A))) as [Hgt|Hle].
  - split; [intros _; left; lia | reflexivity].
  - destruct (Z.eqb_spec (unixNano (Time B)) (unixNano (Time A))) as [He|Hne].
    + destruct (Complete B), (Complete A); simpl;
        try rewrite Z.gtb_gt; split; intros H;
        try discriminate; try reflexivity;
        try (right; split; [exact He|]; auto; fail);
        try (destruct H as [H | [_ [[H1 H2] | [H1 [H2 H3]]]]];
             try lia; try discriminate; try assumption; fail).
    + split; [discriminate|]. intros [H | [H _]]; lia.
Qed.

Lemma NewerThan_false (A B : Candlestick) :
  NewerThan B A = false <-> ~ NewerThan B A = true.
Proof.
  destruct (NewerThan B A); split; intros H;
    try reflexivity; try discriminate; try (intros H'; discriminate).
  exfalso. apply H. reflexivity.
Qed.

(** X1. [NewerThan] is a strict order on candles: no candle is newer than
    itself, two candles are never each newer than the other, and newer
    than newer is newer. *)
Theorem NewerThan_strict_order :
  forall A B C : Candlestick,
    NewerThan A A = false
    /\ (NewerThan A B = true -> NewerThan B A = false)
    /\ (NewerThan A B = true -> NewerThan B C = true -> NewerThan A C = true).
Proof.
  intros A B C. split; [|split].
  - apply NewerThan_false. rewrite NewerThan_true.
    intros [H | [_ [[H1 H2] | [_ [_ H]]]]]; try lia; congruence.
  - intros H. apply NewerThan_false. rewrite NewerThan_true in *.
    intros [H' | [E' [[H1 H2] | [H1 [H2 H3]]]]];
      destruct H as [H | [E [[G1 G2] | [G1 [G2 G3]]]]];
      try lia; congruence.
  - rewrite !NewerThan_true.
    intros [H | [E [[H1 H2] | [H1 [H2 H3]]]]]
           [H' | [E' [[G1 G2] | [G1 [G2 G3]]]]];
      try (left; lia); try congruence;
      right; (split; [lia|]); [left | right]; repeat split; try assumption; lia.
Qed.

(** X2. The ordering reads the instant, the completeness and the volume of
    a candle and nothing else: a candle that agrees with the last one on
    these three is not newer, whatever its prices and its zone, so the
    poller does not print a bar that comes back with other prices only. *)
Theorem NewerThan_ignores_prices :
  forall (host : Host) (c c' : Candlestick) (completedOnly : bool)
         (from0 : time_Time),
    unixNano (Time c') = unixNano (Time c) ->
    Complete c' = Complete c ->
    Volume c' = Volume c ->
    NewerThan c' c = false
    /\ processBatch host completedOnly (Some [c'])
         {| lastCandle := Some c; from := from0 |}
       = ([], inr {| lastCandle := Some c'; from := Time c' |}).
Proof.
  intros host c c' completedOnly from0 Ht Hc Hv.
  assert (HN : NewerThan c' c = false).
  { apply NewerThan_false. rewrite NewerThan_true.
    intros [H | [_ [[H1 H2] | [_ [_ H]]]]]; try lia; congruence. }
  split; [exact HN|].
  unfold processBatch, emitNewer, deref. simpl. rewrite HN.
  destruct (completedOnly && eqb (Complete c') false); reflexivity.
Qed.

Lemma NewerThan_ignores_prices_witness :
  NewerThan repricedBar (bar t1000 false 3) = false
  /\ processBatch demoHost false (Some [repricedBar])
       {| lastCandle := Some (bar t1000 false 3); from := t1000 |}
     = ([], inr {| lastCandle := Some repricedBar; from := Time repricedBar |}).
Proof.
  exact (NewerThan_ignores_prices demoHost (bar t1000 false 3) repricedBar
           false t1000 eq_refl eq_refl eq_refl).
Defined.

(** ** A batch as a whole *)

Lemma bind_assoc {A B D} (m : M A) (k : A -> M B) (k' : B -> M D) :
  bind (bind m k) k' = bind m (fun a => bind (k a) k').
Proof.
  destruct m as [t [e|a]]; [reflexivity|].
  unfold bind at 2 3. destruct (k a) as [t1 [e|b]]; [reflexivity|].
  unfold bind. destruct (k' b) as [t2 r]. rewrite app_assoc. reflexivity.
Qed.

Lemma bind_ret_r {A} (m : M A) : bind m ret = m.
Proof.
  destruct m as [t [e|a]]; simpl; [reflexivity|]. rewrite app_nil_r. reflexivity.
Qed.

Lemma rangeCandles_app (host : Host) (completedOnly : bool)
  (last : option Candlestick) (cs1 cs2 : list Candlestick) :
  rangeCandles host completedOnly last (cs1 ++ cs2)
  = (rangeCandles host completedOnly last cs1 ;;;
     rangeCandles host completedOnly last cs2).
Proof.
  induction cs1 as [|c rest IH].
  - simpl app. change (rangeCandles host completedOnly last []) with (@ret unit tt).
    rewrite bind_ret_l. reflexivity.
  - simpl. rewrite IH, bind_assoc. reflexivity.
Qed.

(** The body of the loop on one candle, by the two tests. *)
Lemma rangeCandles_cons (host : Host) (completedOnly : bool)
  (last : option Candlestick) (c : Candlestick) (rest : list Candlestick) :
  rangeCandles host completedOnly last (c :: rest)
  = if wanted completedOnly last c
    then (bytes <- try (json_Marshal host c) ;; emit (Stdout bytes)) ;;;
         rangeCandles host completedOnly last rest
    else rangeCandles host completedOnly last rest.
Proof.
  unfold wanted. cbn [rangeCandles].
  destruct (completedOnly && eqb (Complete c) false); cbn [negb andb].
  - rewrite bind_ret_l. reflexivity.
  - destruct (match last with Some l => NewerThan c l | None => true end);
      [reflexivity | rewrite bind_ret_l; reflexivity].
Qed.

Lemma rangeCandles_serialize (host : Host) (completedOnly : bool)
  (last : option Candlestick) (cs : list Candlestick) :
  rangeCandles host completedOnly last cs
  = (map Stdout (fst (serialize host (filter (wanted completedOnly last) cs))),
     match snd (serialize host (filter (wanted completedOnly last) cs)) with
     | Some err => inl (Return (Some err))
     | None => inr tt
     end).
Proof.
  induction cs as [|c rest IH]; [reflexivity|].
  rewrite rangeCandles_cons. simpl filter.
  destruct (wanted completedOnly last c); [|exact IH].
  simpl serialize. unfold try.
  destruct (json_Marshal host c) as [err|b]; [reflexivity|].
  rewrite bind_ret_l. unfold emit. rewrite bind_value. cbv beta. rewrite IH.
  destruct (serialize host (filter (wanted completedOnly last) rest)) as [bs e].
  reflexivity.
Qed.

Lemma stdout_map_Stdout (bs : list bytes) : stdout (map Stdout bs) = bs.
Proof. induction bs as [|b bs IH]; simpl; [reflexivity | rewrite IH; reflexivity]. Qed.

(** X3. The loop over a batch prints the serializations of the candles of
    the batch that pass its two tests (complete if completed-only mode is
    set; newer than the cursor if there is one), in the order of the
    batch and up to the first candle that [json.Marshal] refuses, whose
    error it returns; these lines are all that a batch writes to standard
    output. *)
Theorem batch_prints_wanted_in_order :
  forall (host : Host) (completedOnly : bool) (cs : list Candlestick)
         (cur : PollCursor),
    emitNewer host completedOnly (lastCandle cur) (Some cs)
    = (map Stdout
         (fst (serialize host (filter (wanted completedOnly (lastCandle cur)) cs))),
       match snd (serialize host
                    (filter (wanted completedOnly (lastCandle cur)) cs)) with
       | Some err => inl (Return (Some err))
       | None => inr tt
       end)
    /\ stdout (fst (processBatch host completedOnly (Some cs) cur))
       = fst (serialize host (filter (wanted completedOnly (lastCandle cur)) cs)).
Proof.
  intros host completedOnly cs cur.
  assert (E : emitNewer host completedOnly (lastCandle cur) (Some cs)
              = rangeCandles host completedOnly (lastCandle cur) cs).
  { unfold emitNewer, deref. apply bind_ret_l. }
  split; [rewrite E; apply rangeCandles_serialize|].
  unfold processBatch. rewrite E, rangeCandles_serialize.
  destruct (serialize host (filter (wanted completedOnly (lastCandle cur)) cs))
    as [bs [err|]]; simpl.
  - apply stdout_map_Stdout.
  - destruct (advanceCursor_value cs cur) as [cur' Hc]. rewrite Hc. simpl.
    rewrite app_nil_r. apply stdout_map_Stdout.
Qed.

(** X4. Every candle of a batch is compared with the cursor left by the
    turn before, never with the candles before it in the batch: the loop
    over two batches joined is the loop over the first followed by the
    loop over the second, with the same cursor.  A bar that a batch
    delivers twice is therefore printed twice if it is printed at all. *)
Theorem batch_loop_distributes :
  forall (host : Host) (completedOnly : bool) (last : option Candlestick)
         (cs1 cs2 : list Candlestick),
    emitNewer host completedOnly last (Some (cs1 ++ cs2))
    = (emitNewer host completedOnly last (Some cs1) ;;;
       emitNewer host completedOnly last (Some cs2)).
Proof.
  intros host completedOnly last cs1 cs2.
  unfold emitNewer, deref. rewrite !bind_ret_l. apply rangeCandles_app.
Qed.

Lemma rangeCandles_earlier (host : Host) (completedOnly : bool) (c : Candlestick)
  (cs : list Candlestick) :
  Forall (fun b => unixNano (Time b) < unixNano (Time c)) cs ->
  rangeCandles host completedOnly (Some c) cs = ret tt.
Proof.
  induction 1 as [|b rest Hb _ IH]; [reflexivity|].
  rewrite rangeCandles_cons.
  replace (wanted completedOnly (Some c) b) with false; [exact IH|].
  symmetry. unfold wanted. apply andb_false_iff. right.
  apply NewerThan_false. rewrite NewerThan_true. intros [H | [H _]]; lia.
Qed.

(** X5. A batch that comes again is not printed again: when the cursor is
    the final bar of a batch whose other bars are all earlier than it, the
    same batch prints nothing, in either mode and whether that bar is
    complete or not, and leaves the cursor on that bar. *)
Theorem replayed_batch_prints_nothing :
  forall (host : Host) (completedOnly : bool) (init : list Candlestick)
         (c : Candlestick) (from0 : time_Time),
    Forall (fun b => unixNano (Time b) < unixNano (Time c)) init ->
    processBatch host completedOnly (Some (init ++ [c]))
      {| lastCandle := Some c; from := from0 |}
    = ([], inr {| lastCandle := Some c; from := Time c |}).
Proof.
  intros host completedOnly init c from0 Hinit.
  unfold processBatch, emitNewer, deref. cbn [lastCandle].
  rewrite bind_ret_l, rangeCandles_app, (rangeCandles_earlier _ _ _ _ Hinit).
  rewrite bind_ret_l, rangeCandles_cons.
  replace (wanted completedOnly (Some c) c) with false.
  - change (rangeCandles host completedOnly (Some c) []) with (@ret unit tt).
    rewrite bind_ret_l.
    fold (@deref (list Candlestick) (Some (init ++ [c]))).
    change (bind (deref (Some (init ++ [c]))) _)
      with (advanceCursor (Some (init ++ [c]))
              {| lastCandle := Some c; from := from0 |}).
    apply advanceCursor_last.
  - symmetry. unfold wanted. apply andb_false_iff. right.
    apply NewerThan_false. rewrite NewerThan_true.
    intros [H | [_ [[H1 H2] | [_ [_ H]]]]]; try lia; congruence.
Qed.

Lemma replayed_batch_prints_nothing_witness :
  Forall (fun b => unixNano (Time b) < unixNano (Time (bar t1005 false 1)))
    [bar t1000 true 5]
  /\ processBatch demoHost false (Some batch2)
       {| lastCandle := Some (bar t1005 false 1); from := t1005 |}
     = ([], inr {| lastCandle := Some (bar t1005 false 1); from := t1005 |}).
Proof.
  assert (H : Forall (fun b => unixNano (Time b) < unixNano (Time (bar t1005 false 1)))
                [bar t1000 true 5]).
  { constructor; [reflexivity | constructor]. }
  split; [exact H|].
  exact (replayed_batch_prints_nothing demoHost false [bar t1000 true 5]
           (bar t1005 false 1) t1005 H).
Defined.

(** ** The poller over its whole run *)

Lemma within_bind {A B} (P : event -> Prop) (m : M A) (k : A -> M B) :
  within P m -> (forall a, within P (k a)) -> within P (bind m k).
Proof.
  intros [Hm Hx] Hk. destruct m as [t [e|a]]; simpl in *.
  - split; assumption.
  - destruct (Hk a) as [Hka Hkx]. destruct (k a) as [t' r]. simpl in *.
    split; [apply Forall_app; split; assumption | exact Hkx].
Qed.

Lemma within_ret {A} (P : event -> Prop) (a : A) : within P (ret a).
Proof. split; [constructor | exact I]. Qed.

Lemma within_emit (P : event -> Prop) (e : event) : P e -> within P (emit e).
Proof. intros H. split; [repeat constructor; exact H | exact I]. Qed.

Lemma within_try {A} (P : event -> Prop) (r : error + A) : within P (try r).
Proof. destruct r; split; simpl; try constructor; exact I. Qed.

Lemma within_check (P : event -> Prop) (err : option error) : within P (check err).
Proof. destruct err; split; simpl; try constructor; exact I. Qed.

Lemma within_deref {A} (P : event -> Prop) (p : option A) : within P (deref p).
Proof. destruct p; split; simpl; try constructor; exact I. Qed.

Section PollerRun.

Variable host : Host.
Variable credentials : Credentials.
Variables instrument granularity : string.
Variable pollingInterval : Duration.
Variable completedOnly : bool.

Local Abbreviation legal :=
  (candleFeedEvent credentials instrument granularity pollingInterval).

Lemma getCandlesForStream_within (x : Exchange) (from0 : time_Time) :
  within legal (getCandlesForStream host x credentials instrument granularity from0).
Proof.
  unfold getCandlesForStream.
  apply within_bind; [apply within_check|]. intros _.
  apply within_bind.
  { apply within_emit. split; [reflexivity | eexists; reflexivity]. }
  intros _. apply within_bind; [apply within_try|]. intros res.
  apply within_bind; [apply within_try|]. intros body.
  apply within_bind.
  { destruct (negb (StatusCode res =? 200)); [|apply within_ret].
    apply within_bind; [apply within_emit; exact I|]. intros _.
    split; [constructor | exact I]. }
  intros _. destruct (Unmarshal_CandlesResponseBody host body) as [b err].
  apply within_bind; [apply within_check | intros _; apply within_ret].
Qed.

Lemma rangeCandles_within (last : option Candlestick) (cs : list Candlestick) :
  within legal (rangeCandles host completedOnly last cs).
Proof.
  induction cs as [|c rest IH]; [apply within_ret|].
  rewrite rangeCandles_cons.
  destruct (wanted completedOnly last c); [|exact IH].
  apply within_bind; [|intros _; exact IH].
  apply within_bind; [apply within_try|]. intros b. apply within_emit. exact I.
Qed.

Lemma advanceCursor_cases (candles : option (list Candlestick)) (cur : PollCursor) :
  advanceCursor candles cur = panic nilDereference
  \/ advanceCursor candles cur = ret cur
  \/ exists c, advanceCursor candles cur
               = ret {| lastCandle := Some c; from := Time c |}.
Proof.
  destruct candles as [cs|]; [|left; reflexivity]. right.
  destruct (rev cs) as [|c rinit] eqn:E;
    apply (f_equal (@rev _)) in E; rewrite rev_involutive in E; subst.
  - left. reflexivity.
  - right. exists c. simpl rev. apply advanceCursor_last.
Qed.

Lemma processBatch_within (candles : option (list Candlestick)) (cur : PollCursor) :
  within legal (processBatch host completedOnly candles cur).
Proof.
  unfold processBatch, emitNewer.
  apply within_bind.
  { apply within_bind; [apply within_deref|]. intros cs. apply rangeCandles_within. }
  intros _.
  destruct (advanceCursor_cases candles cur) as [E | [E | [c E]]]; rewrite E;
    split; simpl; try constructor; exact I.
Qed.

Lemma processBatch_coherent (from0 : time_Time) (candles : option (list Candlestick))
  (cur cur' : PollCursor) (t : list event) :
  coherent from0 cur ->
  processBatch host completedOnly candles cur = (t, inr cur') ->
  coherent from0 cur'.
Proof.
  intros Hc. unfold processBatch.
  destruct (emitNewer host completedOnly (lastCandle cur) candles) as [t1 [e|[]]];
    [discriminate|].
  destruct (advanceCursor_cases candles cur) as [E | [E | [c E]]]; rewrite E;
    unfold bind, panic, ret; intros H; inversion H; subst; [exact Hc | reflexivity].
Qed.

Lemma pollTurn_within (x : Exchange) (cur : PollCursor) :
  within legal (pollTurn host x credentials instrument granularity pollingInterval
                  completedOnly cur).
Proof.
  unfold pollTurn.
  apply within_bind; [apply getCandlesForStream_within|]. intros candles.
  apply within_bind; [apply processBatch_within|]. intros cur'.
  apply within_bind; [apply within_emit; reflexivity | intros _; apply within_ret].
Qed.

Lemma pollTurn_coherent (from0 : time_Time) (x : Exchange) (cur cur' : PollCursor)
  (t : list event) :
  coherent from0 cur ->
  pollTurn host x credentials instrument granularity pollingInterval
    completedOnly cur = (t, inr cur') ->
  coherent from0 cur'.
Proof.
  intros Hc. unfold pollTurn.
  destruct (getCandlesForStream host x credentials instrument granularity (from cur))
    as [t1 [e|candles]]; [discriminate|].
  rewrite bind_value. cbv beta.
  destruct (processBatch host completedOnly candles cur) as [t2 [e|c2]] eqn:E;
    [discriminate|].
  rewrite bind_value. simpl. intros H. inversion H; subst.
  eapply processBatch_coherent; eassumption.
Qed.

Lemma pollLoop_within (xs : list Exchange) :
  forall cur,
    within legal (pollLoop host xs credentials instrument granularity
                    pollingInterval completedOnly cur).
Proof.
  induction xs as [|x rest IH]; intros cur; [apply within_ret|].
  simpl. apply within_bind; [apply pollTurn_within | intros cur'; apply IH].
Qed.

Lemma pollLoop_coherent (from0 : time_Time) (xs : list Exchange) :
  forall cur cur' t,
    coherent from0 cur ->
    pollLoop host xs credentials instrument granularity pollingInterval
      completedOnly cur = (t, inr cur') ->
    coherent from0 cur'.
Proof.
  induction xs as [|x rest IH]; intros cur cur' t Hc.
  - simpl. unfold ret. intros H. inversion H; subst. exact Hc.
  - simpl.
    destruct (pollTurn host x credentials instrument granularity pollingInterval
                completedOnly cur) as [t1 [e|c1]] eqn:E; [discriminate|].
    rewrite bind_value.
    destruct (pollLoop host rest credentials instrument granularity
                pollingInterval completedOnly c1) as [t2 [e|c2]] eqn:E2;
      simpl; intros H; inversion H; subst.
    eapply IH; [eapply pollTurn_coherent; eassumption | exact E2].
Qed.

Lemma pollLoop_app (xs ys : list Exchange) :
  forall cur,
    pollLoop host (xs ++ ys) credentials instrument granularity pollingInterval
      completedOnly cur
    = (cur' <- pollLoop host xs credentials instrument granularity
                 pollingInterval completedOnly cur ;;
       pollLoop host ys credentials instrument granularity pollingInterval
         completedOnly cur').
Proof.
  induction xs as [|x rest IH]; intros cur.
  - cbn [app pollLoop]. rewrite bind_ret_l. reflexivity.
  - cbn [app pollLoop]. rewrite bind_assoc.
    destruct (pollTurn host x credentials instrument granularity pollingInterval
                completedOnly cur) as [t [e|c]]; [reflexivity|].
    rewrite !bind_value, IH. reflexivity.
Qed.

End PollerRun.

(** X6. The candle feed makes no request before it has credentials: when
    the credentials file cannot be loaded it returns that error and does
    nothing else.  With credentials, every request of a run is a candle
    request for the instrument and granularity given, under the token of
    the file; every sleep lasts the polling interval; and the run never
    starts a watchdog nor sends a heartbeat signal. *)
Theorem candle_feed_events :
  forall (host : Host) (xs : list Exchange) (instrument granularity : string)
         (from0 : time_Time) (pollingInterval : Duration) (completedOnly : bool)
         (configPath : string),
    match GetCredentials host configPath with
    | inl err =>
        getCandlesStream host xs instrument granularity from0 pollingInterval
          completedOnly configPath = ([], Return (Some err))
    | inr credentials =>
        Forall (candleFeedEvent credentials instrument granularity pollingInterval)
          (fst (getCandlesStream host xs instrument granularity from0
                  pollingInterval completedOnly configPath))
    end.
Proof.
  intros host xs instrument granularity from0 pollingInterval completedOnly
         configPath.
  destruct (GetCredentials host configPath) as [err|credentials] eqn:Hc.
  - unfold getCandlesStream. rewrite Hc. reflexivity.
  - rewrite (getCandlesStream_unfold _ _ _ _ _ _ _ _ _ Hc).
    destruct (pollLoop_within host credentials instrument granularity
                pollingInterval completedOnly xs
                {| lastCandle := None; from := from0 |}) as [Hev _].
    destruct (pollLoop host xs credentials instrument granularity pollingInterval
                completedOnly {| lastCandle := None; from := from0 |})
      as [t [e|c]]; simpl in *; [exact Hev|].
    rewrite app_nil_r. exact Hev.
Qed.

(** X7. The cursor holds together through a run: after any number of
    turns that went through, the window start is the time of the last
    candle, or still the initial one if no batch has had a bar yet. *)
Theorem cursor_stays_coherent :
  forall (host : Host) (xs : list Exchange) (credentials : Credentials)
         (instrument granularity : string) (pollingInterval : Duration)
         (completedOnly : bool) (from0 : time_Time),
    match pollLoop host xs credentials instrument granularity pollingInterval
            completedOnly {| lastCandle := None; from := from0 |} with
    | (_, inr cur) => coherent from0 cur
    | (_, inl _) => True
    end.
Proof.
  intros host xs credentials instrument granularity pollingInterval
         completedOnly from0.
  destruct (pollLoop host xs credentials instrument granularity pollingInterval
              completedOnly {| lastCandle := None; from := from0 |})
    as [t [e|cur]] eqn:E; [exact I|].
  eapply pollLoop_coherent; [|exact E]. reflexivity.
Qed.

(** X8. The candle feed never returns a nil error: a run ends by a
    non-nil error or by a panic, or has not ended.  Once a run has ended,
    nothing more is requested: the responses that would follow are of no
    effect. *)
Theorem poller_ends_only_by_failure :
  forall (host : Host) (xs : list Exchange) (instrument granularity : string)
         (from0 : time_Time) (pollingInterval : Duration) (completedOnly : bool)
         (configPath : string),
    snd (getCandlesStream host xs instrument granularity from0 pollingInterval
           completedOnly configPath) <> Return None
    /\ (snd (getCandlesStream host xs instrument granularity from0
               pollingInterval completedOnly configPath) <> Running ->
        forall ys,
          getCandlesStream host (xs ++ ys) instrument granularity from0
            pollingInterval completedOnly configPath
          = getCandlesStream host xs instrument granularity from0
              pollingInterval completedOnly configPath).
Proof.
  intros host xs instrument granularity from0 pollingInterval completedOnly
         configPath.
  destruct (GetCredentials host configPath) as [err|credentials] eqn:Hc.
  - unfold getCandlesStream. rewrite Hc. simpl.
    split; [discriminate | reflexivity].
  - rewrite (getCandlesStream_unfold _ _ _ _ _ _ _ _ _ Hc).
    destruct (pollLoop_within host credentials instrument granularity
                pollingInterval completedOnly xs
                {| lastCandle := None; from := from0 |}) as [_ Hex].
    split.
    + destruct (pollLoop host xs credentials instrument granularity
                  pollingInterval completedOnly
                  {| lastCandle := None; from := from0 |}) as [t [e|c]];
        simpl in *; [|discriminate].
      intros ->. exact Hex.
    + intros Hrun ys.
      rewrite (getCandlesStream_unfold _ _ _ _ _ _ _ _ _ Hc), pollLoop_app.
      destruct (pollLoop host xs credentials instrument granularity
                  pollingInterval completedOnly
                  {| lastCandle := None; from := from0 |}) as [t [e|c]];
        [reflexivity|].
      exfalso. apply Hrun. reflexivity.
Qed.

(** ** A stream as a whole *)

Lemma priceTurn_decoded (heartbeat : bool) (heartbeatTimeout : Duration)
  (line : bytes) :
  priceTurn heartbeat heartbeatTimeout (Some line, None)
  = match snd (unmarshalType line) with
    | Some e => ([], inl (Return (Some e)))
    | None => (priceEvents heartbeat heartbeatTimeout line, inr Continue)
    end.
Proof.
  unfold priceTurn, Unmarshal_PriceOrHeartbeat, priceEvents, isHeartbeat, typeOf,
    heartbeatEvents.
  destruct (unmarshalType line) as [t [e|]]; simpl; [reflexivity|].
  destruct (String.eqb t "PRICE"); [reflexivity|].
  destruct (String.eqb t "HEARTBEAT"); [|reflexivity].
  destruct (negb (heartbeatTimeout =? 0)), heartbeat; reflexivity.
Qed.

Lemma transactionTurn_decoded (heartbeat : bool) (heartbeatTimeout : Duration)
  (line : bytes) :
  transactionTurn heartbeat heartbeatTimeout (Some line, None)
  = match snd (unmarshalType line) with
    | Some e => ([], inl (Return (Some e)))
    | None => (transactionEvents heartbeat heartbeatTimeout line, inr Continue)
    end.
Proof.
  unfold transactionTurn, Unmarshal_TransactionOrHeartbeat, transactionEvents,
    isHeartbeat, typeOf, heartbeatEvents.
  destruct (unmarshalType line) as [t [e|]]; simpl; [reflexivity|].
  destruct (String.eqb t "HEARTBEAT"); [|reflexivity].
  destruct (negb (heartbeatTimeout =? 0)), heartbeat; reflexivity.
Qed.

(** The loop of a stream: the events of the lines that decode, up to the
    first that does not, and the error that ends it. *)
Lemma readLoop_whole (turn : option bytes * option error -> M flow)
  (events : bytes -> list event) :
  (forall e, turn (None, Some e) = returnErr (Some e)) ->
  (forall line,
     turn (Some line, None)
     = match snd (unmarshalType line) with
       | Some e => ([], inl (Return (Some e)))
       | None => (events line, inr Continue)
       end) ->
  forall lines fault,
    readLoop turn lines fault
    = (flat_map events (decodedPrefix lines),
       inl (Return (Some (streamError lines fault)))).
Proof.
  intros Hfault Hline lines fault.
  induction lines as [|line rest IH].
  - rewrite readLoop_nil, Hfault. reflexivity.
  - rewrite readLoop_cons, Hline. simpl. unfold decodes.
    destruct (snd (unmarshalType line)) as [e|]; [reflexivity|].
    rewrite bind_value. cbv beta. rewrite IH. reflexivity.
Qed.

(** A stream that opens, on any exchange. *)
Lemma streamFrom_opened (host : Host) (target : Account -> target)
  (turn : option bytes * option error -> M flow) (x : Exchange) (res : Response)
  (heartbeatTimeout : Duration) (configPath : string) (credentials : Credentials) :
  GetCredentials host configPath = inr credentials ->
  NewRequest x = None ->
  Do x = inr res ->
  StatusCode res = 200 ->
  streamFrom host target turn x heartbeatTimeout configPath
  = call (emit (Get (target (Default credentials)) (Token (Default credentials))) ;;;
          when (negb (heartbeatTimeout =? 0)) (emit (GoWatchdog heartbeatTimeout)) ;;;
          readLoop turn (Lines res) (Fault res) ;;;
          ret None).
Proof.
  intros Hc Hn Hd Hs. unfold streamFrom. rewrite Hc, Hn, Hd.
  unfold try, check. rewrite !bind_ret_l, Hs.
  change (negb (200 =? 200)) with false. cbv iota.
  rewrite bind_ret_l. reflexivity.
Qed.

Lemma streamFrom_whole (host : Host) (target : Account -> target)
  (turn : option bytes * option error -> M flow) (events : bytes -> list event)
  (x : Exchange) (res : Response) (heartbeatTimeout : Duration)
  (configPath : string) (credentials : Credentials) :
  (forall e, turn (None, Some e) = returnErr (Some e)) ->
  (forall line,
     turn (Some line, None)
     = match snd (unmarshalType line) with
       | Some e => ([], inl (Return (Some e)))
       | None => (events line, inr Continue)
       end) ->
  GetCredentials host configPath = inr credentials ->
  NewRequest x = None ->
  Do x = inr res ->
  StatusCode res = 200 ->
  streamFrom host target turn x heartbeatTimeout configPath
  = (Get (target (Default credentials)) (Token (Default credentials))
       :: (if negb (heartbeatTimeout =? 0) then [GoWatchdog heartbeatTimeout] else [])
       ++ flat_map events (decodedPrefix (Lines res)),
     Return (Some (streamError (Lines res) (Fault res)))).
Proof.
  intros Hfault Hline Hc Hn Hd Hs.
  rewrite (streamFrom_opened _ _ _ _ _ _ _ _ Hc Hn Hd Hs).
  rewrite (readLoop_whole turn events Hfault Hline).
  unfold when, emit. destruct (negb (heartbeatTimeout =? 0)); reflexivity.
Qed.


Lemma sends_app (t u : list event) : (sends (t ++ u) = sends t + sends u)%nat.
Proof.
  induction t as [|e t IH]; [reflexivity|].
  destruct e; simpl; rewrite IH; reflexivity.
Qed.

Lemma sends_flat_map (events : bytes -> list event) (signals : bytes -> bool)
  (lines : list bytes) :
  (forall line, sends (events line) = if signals line then 1%nat else 0%nat) ->
  sends (flat_map events lines) = List.length (filter signals lines).
Proof.
  intros H. induction lines as [|line rest IH]; [reflexivity|].
  simpl. rewrite sends_app, H, IH. destruct (signals line); reflexivity.
Qed.



Lemma call_fst (m : M (option error)) : fst (call m) = fst m.
Proof. destruct m as [t [e|err]]; reflexivity. Qed.

(** ** The process of a stream *)

(** The run of the calling goroutine, in two parts. *)
Lemma streamFrom_openStream (host : Host) (target : Account -> target)
  (turn : option bytes * option error -> M flow) (x : Exchange)
  (heartbeatTimeout : Duration) (configPath : string) :
  streamFrom host target turn x heartbeatTimeout configPath
  = call (res <- openStream host target x heartbeatTimeout configPath ;;
          readLoop turn (Lines res) (Fault res) ;;;
          ret None).
Proof.
  unfold streamFrom, openStream.
  destruct (GetCredentials host configPath) as [e|credentials]; [reflexivity|].
  destruct (NewRequest x) as [e|]; [reflexivity|].
  destruct (Do x) as [e|res]; [reflexivity|].
  cbn -[readLoop Z.eqb].
  destruct (negb (StatusCode res =? 200)).
  - destruct (ReadAll res) as [e|body]; reflexivity.
  - destruct (negb (heartbeatTimeout =? 0)); cbn -[readLoop];
      destruct (readLoop turn (Lines res) (Fault res)) as [t [e|[]]]; reflexivity.
Qed.

Lemma openStream_opened (host : Host) (target : Account -> target)
  (x : Exchange) (heartbeatTimeout : Duration) (configPath : string)
  (credentials : Credentials) (res : Response) :
  opens host x configPath credentials res ->
  openStream host target x heartbeatTimeout configPath
  = (Get (target (Default credentials)) (Token (Default credentials))
       :: (if negb (heartbeatTimeout =? 0) then [GoWatchdog heartbeatTimeout] else []),
     inr res).
Proof.
  intros [Hc [Hn [Hd Hs]]]. unfold openStream. rewrite Hc, Hn, Hd.
  unfold try, check. rewrite !bind_ret_l, Hs.
  change (negb (200 =? 200)) with false. cbv iota.
  destruct (negb (heartbeatTimeout =? 0)); reflexivity.
Qed.

(** A stream that does not open returns an error. *)
Lemma openStream_exit (host : Host) (target : Account -> target)
  (x : Exchange) (heartbeatTimeout : Duration) (configPath : string)
  (es : list event) (e : exit) :
  openStream host target x heartbeatTimeout configPath = (es, inl e) ->
  exists err, e = Return (Some err).
Proof.
  unfold openStream, try, check.
  destruct (GetCredentials host configPath) as [e0|credentials].
  { intros H. injection H as _ <-. eexists; reflexivity. }
  rewrite bind_ret_l.
  destruct (NewRequest x) as [e0|].
  { intros H. injection H as _ <-. eexists; reflexivity. }
  rewrite bind_ret_l. unfold emit at 1. rewrite bind_value. cbv beta.
  destruct (Do x) as [e0|res].
  { intros H. injection H as _ <-. eexists; reflexivity. }
  rewrite bind_ret_l.
  destruct (negb (StatusCode res =? 200)).
  - unfold emit. rewrite bind_value. cbv beta.
    destruct (ReadAll res) as [e0|body];
      intros H; injection H as _ <-; eexists; reflexivity.
  - rewrite bind_ret_l. destruct (negb (heartbeatTimeout =? 0)); discriminate.
Qed.

(** The process does what the calling goroutine does, as far as it gets. *)
Lemma consume_prefix (turn : option bytes * option error -> M flow)
  (heartbeatTimeout : Duration) (tie : Z -> bool) (fault : error)
  (ending : option Z) (lines : list bytes) :
  forall armed arrivals,
    exists rest,
      fst (readLoop turn lines fault)
      = fst (consume turn heartbeatTimeout tie armed lines fault arrivals ending)
        ++ rest.
Proof.
  induction lines as [|line lines IH]; intros armed arrivals.
  - rewrite readLoop_nil. cbn [consume].
    destruct ending as [t|]; [|eexists; reflexivity].
    destruct (expired heartbeatTimeout tie armed t); [eexists; reflexivity|].
    destruct (turn (None, Some fault)) as [es [e|[|]]]; cbn [fst].
    + exists []. rewrite app_nil_r. reflexivity.
    + exists []. reflexivity.
    + exists []. reflexivity.
  - rewrite readLoop_cons. cbn [consume].
    destruct arrivals as [|t later]; [eexists; reflexivity|].
    destruct (expired heartbeatTimeout tie armed t); [eexists; reflexivity|].
    destruct (turn (Some line, None)) as [es [e|[|]]]; cbn [fst].
    + exists []. rewrite app_nil_r. reflexivity.
    + rewrite bind_value. cbv beta.
      destruct (IH (if signalled es then t else armed) later) as [rest Hr].
      destruct (consume turn heartbeatTimeout tie
                  (if signalled es then t else armed) lines fault later ending)
        as [es' r].
      cbn [fst] in *. exists rest. rewrite Hr, app_assoc. reflexivity.
    + exists []. reflexivity.
Qed.

Lemma streamProcess_prefix (host : Host) (target : Account -> target)
  (turn : option bytes * option error -> M flow) (x : Exchange)
  (heartbeatTimeout : Duration) (configPath : string) (tm : Timing) :
  exists rest,
    fst (streamFrom host target turn x heartbeatTimeout configPath)
    = fst (streamProcess host target turn x heartbeatTimeout configPath tm)
      ++ rest.
Proof.
  rewrite streamFrom_openStream, call_fst. unfold streamProcess.
  destruct (openStream host target x heartbeatTimeout configPath)
    as [es [e|res]].
  - exists []. rewrite app_nil_r. reflexivity.
  - rewrite bind_value. cbv beta.
    destruct (consume_prefix turn heartbeatTimeout (tie tm) (Fault res)
                (ending tm) (Lines res) (started tm) (arrivals tm))
      as [rest Hr].
    destruct (consume turn heartbeatTimeout (tie tm) (started tm) (Lines res)
                (Fault res) (arrivals tm) (ending tm)) as [es' r].
    cbn [fst] in *. exists rest.
    rewrite <- app_assoc. f_equal.
    destruct (readLoop turn (Lines res) (Fault res)) as [t [e|[]]];
      cbn [fst bind ret] in *; rewrite ?app_nil_r; exact Hr.
Qed.

Lemma existsb_prefix (f : event -> bool) (t rest : list event) :
  existsb f (t ++ rest) = false -> existsb f t = false.
Proof.
  rewrite existsb_app. intros H. apply orb_false_iff in H. exact (proj1 H).
Qed.

Lemma expired_in_time (heartbeatTimeout : Duration) (tie : Z -> bool)
  (armed t : Z) :
  t < armed + Z.max 0 heartbeatTimeout ->
  expired heartbeatTimeout tie armed t = false.
Proof.
  intros H. unfold expired, due.
  destruct (Z.ltb_spec (armed + Z.max 0 heartbeatTimeout) t); [lia|].
  destruct (Z.eqb_spec (armed + Z.max 0 heartbeatTimeout) t); [lia|].
  apply andb_false_r.
Qed.

Lemma expired_late (heartbeatTimeout : Duration) (tie : Z -> bool)
  (armed t : Z) :
  heartbeatTimeout <> 0 ->
  armed + Z.max 0 heartbeatTimeout < t ->
  expired heartbeatTimeout tie armed t = true.
Proof.
  intros Hnz H. unfold expired, due.
  destruct (Z.eqb_spec heartbeatTimeout 0); [contradiction|].
  destruct (Z.ltb_spec (armed + Z.max 0 heartbeatTimeout) t); [reflexivity|lia].
Qed.

Lemma expired_nonzero (heartbeatTimeout : Duration) (tie : Z -> bool)
  (armed t : Z) :
  expired heartbeatTimeout tie armed t = true -> heartbeatTimeout <> 0.
Proof.
  unfold expired. destruct (Z.eqb_spec heartbeatTimeout 0); [discriminate|].
  intros _. assumption.
Qed.

Lemma stall_cases (heartbeatTimeout : Duration) (armed : Z) :
  (heartbeatTimeout <> 0
   /\ stall heartbeatTimeout armed
      = (Panic heartbeatTimeoutPanic, Some (armed + Z.max 0 heartbeatTimeout)))
  \/ (heartbeatTimeout = 0 /\ stall heartbeatTimeout armed = (Running, None)).
Proof.
  unfold stall, due. destruct (Z.eqb_spec heartbeatTimeout 0).
  - right. split; [assumption | reflexivity].
  - left. split; [assumption | reflexivity].
Qed.

Section Consumed.

Variable turn : option bytes * option error -> M flow.
Variable events : bytes -> list event.
Variable heartbeatTimeout : Duration.

Hypothesis turn_fault : forall e, turn (None, Some e) = returnErr (Some e).
Hypothesis turn_line :
  forall line,
    turn (Some line, None)
    = match snd (unmarshalType line) with
      | Some e => ([], inl (Return (Some e)))
      | None => (events line, inr Continue)
      end.
Hypothesis turn_signal :
  forall line,
    signalled (events line) = negb (heartbeatTimeout =? 0) && isHeartbeat line.

(** However the reads are timed, the process handles the lines that
    decode, in order and as far as it gets, and ends in one of three ways:
    by the error that ends the stream, after all of them; by the panic of
    the watchdog, a full timeout after a timer was armed; or not at all,
    when there is no watchdog and a read never returns. *)
Lemma consume_cases (tie : Z -> bool) (fault : error) (ending : option Z)
  (lines : list bytes) :
  forall armed arrivals,
    exists n,
      fst (consume turn heartbeatTimeout tie armed lines fault arrivals ending)
      = flat_map events (firstn n (decodedPrefix lines))
      /\ ((fst (consume turn heartbeatTimeout tie armed lines fault arrivals ending)
           = flat_map events (decodedPrefix lines)
           /\ exists t,
               snd (consume turn heartbeatTimeout tie armed lines fault arrivals
                      ending)
               = (Return (Some (streamError lines fault)), Some t))
          \/ (heartbeatTimeout <> 0
              /\ exists a,
                  snd (consume turn heartbeatTimeout tie armed lines fault
                         arrivals ending)
                  = (Panic heartbeatTimeoutPanic,
                     Some (a + Z.max 0 heartbeatTimeout)))
          \/ (heartbeatTimeout = 0
              /\ snd (consume turn heartbeatTimeout tie armed lines fault arrivals
                        ending)
                 = (Running, None)
              /\ ((List.length arrivals < List.length lines)%nat
                  \/ ending = None))).
Proof.
  induction lines as [|line lines IH]; intros armed arrivals.
  - exists 0%nat. cbn [consume decodedPrefix firstn flat_map streamError].
    destruct ending as [t|].
    + destruct (expired heartbeatTimeout tie armed t) eqn:Ex.
      * split; [reflexivity|]. right. left.
        split; [exact (expired_nonzero _ _ _ _ Ex)|].
        exists armed. reflexivity.
      * rewrite turn_fault. split; [reflexivity|]. left.
        split; [reflexivity|]. exists t. reflexivity.
    + split; [reflexivity|]. right.
      destruct (stall_cases heartbeatTimeout armed) as [[Hnz Hs]|[Hz Hs]].
      * left. split; [exact Hnz|]. exists armed. exact Hs.
      * right. split; [exact Hz|]. split; [exact Hs|]. right. reflexivity.
  - cbn [consume].
    destruct arrivals as [|t later].
    { exists 0%nat. split; [reflexivity|]. right.
      destruct (stall_cases heartbeatTimeout armed) as [[Hnz Hs]|[Hz Hs]].
      - left. split; [exact Hnz|]. exists armed. exact Hs.
      - right. split; [exact Hz|]. split; [exact Hs|]. left. simpl. lia. }
    destruct (expired heartbeatTimeout tie armed t) eqn:Ex.
    { exists 0%nat. split; [reflexivity|]. right. left.
      split; [exact (expired_nonzero _ _ _ _ Ex)|].
      exists armed. reflexivity. }
    rewrite turn_line. cbn [decodedPrefix streamError]. unfold decodes.
    destruct (snd (unmarshalType line)) as [e|].
    + exists 0%nat. split; [reflexivity|]. left.
      split; [reflexivity|]. exists t. reflexivity.
    + destruct (IH (if signalled (events line) then t else armed) later)
        as [n [Hn Hc]].
      destruct (consume turn heartbeatTimeout tie
                  (if signalled (events line) then t else armed)
                  lines fault later ending) as [es' r].
      cbn [fst snd] in *. exists (S n). split.
      { cbn [firstn flat_map]. rewrite Hn. reflexivity. }
      destruct Hc as [[Hw Ht] | [[Hnz Ha] | [Hz [Hr Hs]]]].
      * left. split; [|exact Ht]. cbn [flat_map]. rewrite Hw. reflexivity.
      * right. left. split; assumption.
      * right. right. split; [exact Hz|]. split; [exact Hr|].
        destruct Hs as [Hs | Hs]; [left; simpl; lia | right; exact Hs].
Qed.

(** Lines that decode and are read in time are handled one and all, and
    leave the timer armed at the last heartbeat among them. *)
Lemma consume_in_time (tie : Z -> bool) (fault : error) (ending : option Z)
  (rest : list bytes) (later : list Z) (timed : list (Z * bytes)) :
  heartbeatTimeout <> 0 ->
  forall armed,
    forallb decodes (map snd timed) = true ->
    inTime heartbeatTimeout armed timed = true ->
    consume turn heartbeatTimeout tie armed (map snd timed ++ rest) fault
      (map fst timed ++ later) ending
    = (flat_map events (map snd timed)
         ++ fst (consume turn heartbeatTimeout tie (lastBeat armed timed)
                   rest fault later ending),
       snd (consume turn heartbeatTimeout tie (lastBeat armed timed)
              rest fault later ending)).
Proof.
  intros Hnz. induction timed as [|[t line] timed IH]; intros armed Hd Ht.
  - cbn [map app flat_map lastBeat].
    destruct (consume turn heartbeatTimeout tie armed rest fault later ending);
      reflexivity.
  - cbn [map app fst snd forallb inTime] in *.
    apply andb_true_iff in Hd. destruct Hd as [Hd1 Hd].
    apply andb_true_iff in Ht. destruct Ht as [Ht1 Ht].
    apply Z.ltb_lt in Ht1.
    cbn [consume]. rewrite (expired_in_time _ _ _ _ Ht1), turn_line.
    unfold decodes in Hd1.
    destruct (snd (unmarshalType line)) as [e|]; [discriminate Hd1|].
    rewrite turn_signal.
    destruct (Z.eqb_spec heartbeatTimeout 0) as [Hz|_]; [contradiction|].
    cbn [negb andb].
    rewrite (IH _ Hd Ht). cbn [flat_map lastBeat].
    rewrite app_assoc. reflexivity.
Qed.

(** A read that comes after the pending timer is due, or never, finds the
    process dead by the panic of the watchdog. *)
Lemma consume_late (tie : Z -> bool) (fault : error) (ending : option Z)
  (rest : list bytes) (later : list Z) (armed : Z) :
  heartbeatTimeout <> 0 ->
  late (armed + Z.max 0 heartbeatTimeout) (nextRead rest later ending) ->
  consume turn heartbeatTimeout tie armed rest fault later ending
  = ([], (Panic heartbeatTimeoutPanic, Some (armed + Z.max 0 heartbeatTimeout))).
Proof.
  intros Hnz Hl.
  assert (Hs : stall heartbeatTimeout armed
               = (Panic heartbeatTimeoutPanic,
                  Some (armed + Z.max 0 heartbeatTimeout))).
  { destruct (stall_cases heartbeatTimeout armed) as [[_ Hs]|[Hz _]];
      [exact Hs | contradiction]. }
  destruct rest as [|line rest]; cbn [nextRead] in Hl; cbn [consume].
  - destruct ending as [t|]; [|rewrite Hs; reflexivity].
    cbn [late] in Hl. rewrite (expired_late _ tie _ _ Hnz Hl). reflexivity.
  - destruct later as [|t later]; [rewrite Hs; reflexivity|].
    cbn [hd_error late] in Hl. rewrite (expired_late _ tie _ _ Hnz Hl).
    reflexivity.
Qed.

(** When every read is in time the process is the run of the loop. *)
Lemma consume_survives (tie : Z -> bool) (fault : error) (later : list Z)
  (t : Z) (timed : list (Z * bytes)) :
  heartbeatTimeout <> 0 ->
  forall armed,
    inTime heartbeatTimeout armed timed = true ->
    t < lastBeat armed timed + Z.max 0 heartbeatTimeout ->
    exists t',
      consume turn heartbeatTimeout tie armed (map snd timed) fault
        (map fst timed ++ later) (Some t)
      = (flat_map events (decodedPrefix (map snd timed)),
         (Return (Some (streamError (map snd timed) fault)), Some t')).
Proof.
  intros Hnz. induction timed as [|[t0 line] timed IH]; intros armed Ht Hlast.
  - cbn [map app lastBeat consume decodedPrefix flat_map streamError] in *.
    rewrite (expired_in_time _ _ _ _ Hlast), turn_fault.
    exists t. reflexivity.
  - cbn [map app fst snd inTime lastBeat] in *.
    apply andb_true_iff in Ht. destruct Ht as [Ht1 Ht].
    apply Z.ltb_lt in Ht1.
    cbn [consume decodedPrefix streamError].
    rewrite (expired_in_time _ _ _ _ Ht1), turn_line. unfold decodes.
    destruct (snd (unmarshalType line)) as [e|].
    + exists t0. reflexivity.
    + rewrite turn_signal.
      destruct (Z.eqb_spec heartbeatTimeout 0) as [Hz|_]; [contradiction|].
      cbn [negb andb].
      destruct (IH _ Ht Hlast) as [t' Ht'].
      rewrite Ht'. exists t'. reflexivity.
Qed.

End Consumed.

Lemma priceEvents_signalled (heartbeat : bool) (heartbeatTimeout : Duration)
  (line : bytes) :
  signalled (priceEvents heartbeat heartbeatTimeout line)
  = negb (heartbeatTimeout =? 0) && isHeartbeat line.
Proof.
  unfold priceEvents, heartbeatEvents.
  destruct (String.eqb (typeOf line) "PRICE") eqn:Ep.
  - apply String.eqb_eq in Ep. unfold isHeartbeat. rewrite Ep.
    destruct (negb (heartbeatTimeout =? 0)); reflexivity.
  - destruct (isHeartbeat line);
      destruct (negb (heartbeatTimeout =? 0)); try reflexivity;
      destruct heartbeat; reflexivity.
Qed.

Lemma transactionEvents_signalled (heartbeat : bool) (heartbeatTimeout : Duration)
  (line : bytes) :
  signalled (transactionEvents heartbeat heartbeatTimeout line)
  = negb (heartbeatTimeout =? 0) && isHeartbeat line.
Proof.
  unfold transactionEvents, heartbeatEvents.
  destruct (isHeartbeat line);
    destruct (negb (heartbeatTimeout =? 0)); try reflexivity;
    destruct heartbeat; reflexivity.
Qed.

Lemma filter_firstn_length {A} (f : A -> bool) (n : nat) (l : list A) :
  (List.length (filter f (firstn n l)) <= List.length (filter f l))%nat.
Proof.
  revert n. induction l as [|a l IH]; intros [|n]; simpl; try lia.
  specialize (IH n). destruct (f a); simpl; lia.
Qed.

Section Process.

Variable host : Host.
Variable target : Account -> target.
Variable turn : option bytes * option error -> M flow.
Variable events : bytes -> list event.
Variable heartbeatTimeout : Duration.

Hypothesis turn_fault : forall e, turn (None, Some e) = returnErr (Some e).
Hypothesis turn_line :
  forall line,
    turn (Some line, None)
    = match snd (unmarshalType line) with
      | Some e => ([], inl (Return (Some e)))
      | None => (events line, inr Continue)
      end.
Hypothesis turn_signal :
  forall line,
    signalled (events line) = negb (heartbeatTimeout =? 0) && isHeartbeat line.

Lemma streamProcess_opened (x : Exchange) (configPath : string)
  (credentials : Credentials) (res : Response) (tm : Timing) :
  opens host x configPath credentials res ->
  streamProcess host target turn x heartbeatTimeout configPath tm
  = ((Get (target (Default credentials)) (Token (Default credentials))
        :: (if negb (heartbeatTimeout =? 0) then [GoWatchdog heartbeatTimeout]
            else []))
       ++ fst (consume turn heartbeatTimeout (tie tm) (started tm) (Lines res)
                 (Fault res) (arrivals tm) (ending tm)),
     snd (consume turn heartbeatTimeout (tie tm) (started tm) (Lines res)
            (Fault res) (arrivals tm) (ending tm))).
Proof.
  intros Ho. unfold streamProcess.
  rewrite (openStream_opened _ _ _ _ _ _ _ Ho).
  destruct (consume turn heartbeatTimeout (tie tm) (started tm) (Lines res)
              (Fault res) (arrivals tm) (ending tm)); reflexivity.
Qed.

(** The three ends of the process of a stream, on any exchange. *)
Lemma streamProcess_exit (x : Exchange) (configPath : string) (tm : Timing) :
  (exists err,
     fst (snd (streamProcess host target turn x heartbeatTimeout configPath tm))
     = Return (Some err))
  \/ (heartbeatTimeout <> 0
      /\ fst (snd (streamProcess host target turn x heartbeatTimeout configPath tm))
         = Panic heartbeatTimeoutPanic)
  \/ (heartbeatTimeout = 0
      /\ fst (snd (streamProcess host target turn x heartbeatTimeout configPath tm))
         = Running).
Proof.
  unfold streamProcess.
  destruct (openStream host target x heartbeatTimeout configPath)
    as [es [e|res]] eqn:Eo.
  - left. destruct (openStream_exit _ _ _ _ _ _ _ Eo) as [err ->].
    exists err. reflexivity.
  - destruct (consume_cases turn events heartbeatTimeout turn_fault turn_line
                (tie tm) (Fault res) (ending tm) (Lines res) (started tm)
                (arrivals tm)) as [n [_ Hc]].
    destruct (consume turn heartbeatTimeout (tie tm) (started tm) (Lines res)
                (Fault res) (arrivals tm) (ending tm)) as [es' r].
    cbn [fst snd] in *.
    destruct Hc as [[_ [t Ht]] | [[Hnz [a Ha]] | [Hz [Hr _]]]]; subst r.
    + left. eexists. reflexivity.
    + right. left. split; [exact Hnz | reflexivity].
    + right. right. split; [exact Hz | reflexivity].
Qed.

(** The process of a stream that opens, however its reads are timed. *)
Lemma streamProcess_cases (x : Exchange) (configPath : string)
  (credentials : Credentials) (res : Response) (tm : Timing) :
  opens host x configPath credentials res ->
  exists n,
    fst (streamProcess host target turn x heartbeatTimeout configPath tm)
    = (Get (target (Default credentials)) (Token (Default credentials))
         :: (if negb (heartbeatTimeout =? 0) then [GoWatchdog heartbeatTimeout]
             else []))
        ++ flat_map events (firstn n (decodedPrefix (Lines res)))
    /\ ((fst (streamProcess host target turn x heartbeatTimeout configPath tm)
         = (Get (target (Default credentials)) (Token (Default credentials))
              :: (if negb (heartbeatTimeout =? 0)
                  then [GoWatchdog heartbeatTimeout] else []))
             ++ flat_map events (decodedPrefix (Lines res))
         /\ fst (snd (streamProcess host target turn x heartbeatTimeout
                        configPath tm))
            = Return (Some (streamError (Lines res) (Fault res))))
        \/ (heartbeatTimeout <> 0
            /\ fst (snd (streamProcess host target turn x heartbeatTimeout
                           configPath tm))
               = Panic heartbeatTimeoutPanic)
        \/ (heartbeatTimeout = 0
            /\ fst (snd (streamProcess host target turn x heartbeatTimeout
                           configPath tm))
               = Running
            /\ ((List.length (arrivals tm) < List.length (Lines res))%nat
                \/ ending tm = None))).
Proof.
  intros Ho. rewrite (streamProcess_opened _ _ _ _ tm Ho).
  destruct (consume_cases turn events heartbeatTimeout turn_fault turn_line
              (tie tm) (Fault res) (ending tm) (Lines res) (started tm)
              (arrivals tm)) as [n [Hn Hc]].
  destruct (consume turn heartbeatTimeout (tie tm) (started tm) (Lines res)
              (Fault res) (arrivals tm) (ending tm)) as [es' r].
  cbn [fst snd] in *. exists n. split; [rewrite Hn; reflexivity|].
  destruct Hc as [[Hw [t Ht]] | [[Hnz [a Ha]] | [Hz [Hr Hs]]]]; subst r.
  - left. split; [rewrite Hw; reflexivity | reflexivity].
  - right. left. split; [exact Hnz | reflexivity].
  - right. right. split; [exact Hz|]. split; [reflexivity | exact Hs].
Qed.

(** The run of the calling goroutine on a stream that opens. *)
Lemma streamFrom_run (x : Exchange) (configPath : string)
  (credentials : Credentials) (res : Response) :
  opens host x configPath credentials res ->
  streamFrom host target turn x heartbeatTimeout configPath
  = ((Get (target (Default credentials)) (Token (Default credentials))
        :: (if negb (heartbeatTimeout =? 0) then [GoWatchdog heartbeatTimeout]
            else []))
       ++ flat_map events (decodedPrefix (Lines res)),
     Return (Some (streamError (Lines res) (Fault res)))).
Proof.
  intros [Hc [Hn [Hd Hs]]].
  exact (streamFrom_whole host target turn events x res heartbeatTimeout
           configPath credentials turn_fault turn_line Hc Hn Hd Hs).
Qed.

(** Without a watchdog the process is the run of the calling goroutine,
    whenever the reads return, if they all do. *)
Lemma streamProcess_zero (x : Exchange) (configPath : string)
  (credentials : Credentials) (res : Response) (tm : Timing) :
  heartbeatTimeout = 0 ->
  opens host x configPath credentials res ->
  (List.length (Lines res) <= List.length (arrivals tm))%nat ->
  ending tm <> None ->
  fst (streamProcess host target turn x heartbeatTimeout configPath tm)
  = fst (streamFrom host target turn x heartbeatTimeout configPath)
  /\ fst (snd (streamProcess host target turn x heartbeatTimeout configPath tm))
     = snd (streamFrom host target turn x heartbeatTimeout configPath).
Proof.
  intros Hz Ho Hlen Hend. rewrite (streamFrom_run _ _ _ _ Ho). cbn [fst snd].
  destruct (streamProcess_cases _ _ _ _ tm Ho)
    as [n [_ [[Hw He] | [[Hnz _] | [_ [_ [Hs | Hs]]]]]]].
  - split; assumption.
  - contradiction.
  - lia.
  - contradiction.
Qed.

(** With a watchdog, and every read in time, too. *)
Lemma streamProcess_survives (x : Exchange) (configPath : string)
  (credentials : Credentials) (res : Response) (tm : Timing)
  (timed : list (Z * bytes)) (later : list Z) (t : Z) :
  heartbeatTimeout <> 0 ->
  opens host x configPath credentials res ->
  Lines res = map snd timed ->
  arrivals tm = map fst timed ++ later ->
  inTime heartbeatTimeout (started tm) timed = true ->
  ending tm = Some t ->
  t < lastBeat (started tm) timed + Z.max 0 heartbeatTimeout ->
  fst (streamProcess host target turn x heartbeatTimeout configPath tm)
  = fst (streamFrom host target turn x heartbeatTimeout configPath)
  /\ fst (snd (streamProcess host target turn x heartbeatTimeout configPath tm))
     = snd (streamFrom host target turn x heartbeatTimeout configPath).
Proof.
  intros Hnz Ho Hl Ha Ht He Hlast.
  rewrite (streamFrom_run _ _ _ _ Ho), (streamProcess_opened _ _ _ _ tm Ho).
  rewrite Hl, Ha, He.
  destruct (consume_survives turn events heartbeatTimeout turn_fault turn_line
              turn_signal (tie tm) (Fault res) later t timed Hnz (started tm)
              Ht Hlast) as [t' Hc].
  rewrite Hc. split; reflexivity.
Qed.

(** With a watchdog, and a read that is late or never returns, the
    process dies a full timeout after the last heartbeat read in time, or
    after the start when there was none. *)
Lemma streamProcess_expires (x : Exchange) (configPath : string)
  (credentials : Credentials) (res : Response) (tm : Timing)
  (timed : list (Z * bytes)) (rest : list bytes) (later : list Z) :
  heartbeatTimeout <> 0 ->
  opens host x configPath credentials res ->
  Lines res = map snd timed ++ rest ->
  arrivals tm = map fst timed ++ later ->
  forallb decodes (map snd timed) = true ->
  inTime heartbeatTimeout (started tm) timed = true ->
  late (lastBeat (started tm) timed + Z.max 0 heartbeatTimeout)
    (nextRead rest later (ending tm)) ->
  streamProcess host target turn x heartbeatTimeout configPath tm
  = (Get (target (Default credentials)) (Token (Default credentials))
       :: GoWatchdog heartbeatTimeout
       :: flat_map events (map snd timed),
     (Panic heartbeatTimeoutPanic,
      Some (lastBeat (started tm) timed + Z.max 0 heartbeatTimeout))).
Proof.
  intros Hnz Ho Hl Ha Hd Ht Hlate.
  rewrite (streamProcess_opened _ _ _ _ tm Ho), Hl, Ha.
  rewrite (consume_in_time turn events heartbeatTimeout turn_line turn_signal
             (tie tm) (Fault res) (ending tm) rest later timed Hnz
             (started tm) Hd Ht).
  rewrite (consume_late turn heartbeatTimeout (tie tm) (Fault res) (ending tm)
             rest later (lastBeat (started tm) timed) Hnz Hlate).
  cbn [fst snd]. rewrite app_nil_r.
  destruct (Z.eqb_spec heartbeatTimeout 0) as [Hz|_]; [contradiction|].
  reflexivity.
Qed.

End Process.

Lemma getStreamProcess_quiet (host : Host) (x : Exchange) (instruments : string)
  (heartbeat : bool) (configPath : string) (tm : Timing) :
  existsb watchdogEvent
    (fst (getStreamProcess host x instruments heartbeat 0 configPath tm)) = false.
Proof.
  unfold getStreamProcess.
  destruct (streamProcess_prefix host
              (fun account => PricingStream (AccountId account) instruments)
              (priceTurn heartbeat 0) x 0 configPath tm) as [rest Hr].
  eapply existsb_prefix. rewrite <- Hr.
  apply streamFrom_quiet, priceTurn_quiet.
Qed.

Lemma getTransactionStreamProcess_quiet (host : Host) (x : Exchange)
  (heartbeat : bool) (configPath : string) (tm : Timing) :
  existsb watchdogEvent
    (fst (getTransactionStreamProcess host x heartbeat 0 configPath tm)) = false.
Proof.
  unfold getTransactionStreamProcess.
  destruct (streamProcess_prefix host
              (fun account => TransactionsStream (AccountId account))
              (transactionTurn heartbeat 0) x 0 configPath tm) as [rest Hr].
  eapply existsb_prefix. rewrite <- Hr.
  apply streamFrom_quiet, transactionTurn_quiet.
Qed.

(** The three ends of the two processes. *)
Lemma getStreamProcess_exit (host : Host) (x : Exchange) (instruments : string)
  (heartbeat : bool) (heartbeatTimeout : Duration) (configPath : string)
  (tm : Timing) :
  (exists err,
     fst (snd (getStreamProcess host x instruments heartbeat heartbeatTimeout
                 configPath tm)) = Return (Some err))
  \/ (heartbeatTimeout <> 0
      /\ fst (snd (getStreamProcess host x instruments heartbeat heartbeatTimeout
                     configPath tm)) = Panic heartbeatTimeoutPanic)
  \/ (heartbeatTimeout = 0
      /\ fst (snd (getStreamProcess host x instruments heartbeat heartbeatTimeout
                     configPath tm)) = Running).
Proof.
  exact (streamProcess_exit host _ _ (priceEvents heartbeat heartbeatTimeout)
           heartbeatTimeout (priceTurn_fault heartbeat heartbeatTimeout)
           (priceTurn_decoded heartbeat heartbeatTimeout) x configPath tm).
Qed.

Lemma getTransactionStreamProcess_exit (host : Host) (x : Exchange)
  (heartbeat : bool) (heartbeatTimeout : Duration) (configPath : string)
  (tm : Timing) :
  (exists err,
     fst (snd (getTransactionStreamProcess host x heartbeat heartbeatTimeout
                 configPath tm)) = Return (Some err))
  \/ (heartbeatTimeout <> 0
      /\ fst (snd (getTransactionStreamProcess host x heartbeat heartbeatTimeout
                     configPath tm)) = Panic heartbeatTimeoutPanic)
  \/ (heartbeatTimeout = 0
      /\ fst (snd (getTransactionStreamProcess host x heartbeat heartbeatTimeout
                     configPath tm)) = Running).
Proof.
  exact (streamProcess_exit host _ _ (transactionEvents heartbeat heartbeatTimeout)
           heartbeatTimeout (transactionTurn_fault heartbeat heartbeatTimeout)
           (transactionTurn_decoded heartbeat heartbeatTimeout) x configPath tm).
Qed.

(** C7. With a zero [heartbeatTimeout] neither stream starts the watchdog
    or sends on the heartbeat channel, and the process never ends by a
    panic: whenever its reads return, it does what the calling goroutine
    does by itself.  With a nonzero [heartbeatTimeout] a stream that opens
    starts the watchdog before it reads a line, and sends it one signal
    for each HEARTBEAT line.  Each signal arms the timer anew: as long as
    every read returns less than [heartbeatTimeout] after the last
    heartbeat line read (after the start, before the first), the process
    goes on, however long the stream lasts, and ends as the calling
    goroutine ends, by the error it returns.  When a read returns later
    than that, or never, the process ends [heartbeatTimeout] after that
    last heartbeat (the duration counted as zero when it is negative), by
    the panic "heartbeat timeout" and not by a return, having handled the
    lines read before.  That panic is the only one of a stream, and there
    is none without a watchdog. *)
Theorem watchdog_behaviour :
  (forall host x instruments heartbeat configPath,
     existsb watchdogEvent
       (fst (getStream host x instruments heartbeat 0 configPath)) = false
     /\ existsb watchdogEvent
          (fst (getTransactionStream host x heartbeat 0 configPath)) = false)
  /\ (forall host x instruments heartbeat configPath tm,
        existsb watchdogEvent
          (fst (getStreamProcess host x instruments heartbeat 0 configPath tm))
        = false
        /\ existsb watchdogEvent
             (fst (getTransactionStreamProcess host x heartbeat 0 configPath tm))
           = false
        /\ (forall msg,
              fst (snd (getStreamProcess host x instruments heartbeat 0
                          configPath tm)) <> Panic msg)
        /\ (forall msg,
              fst (snd (getTransactionStreamProcess host x heartbeat 0
                          configPath tm)) <> Panic msg))
  /\ (forall host x credentials res instruments heartbeat configPath tm,
        opens host x configPath credentials res ->
        (List.length (Lines res) <= List.length (arrivals tm))%nat ->
        ending tm <> None ->
        (fst (getStreamProcess host x instruments heartbeat 0 configPath tm)
         = fst (getStream host x instruments heartbeat 0 configPath)
         /\ fst (snd (getStreamProcess host x instruments heartbeat 0
                        configPath tm))
            = snd (getStream host x instruments heartbeat 0 configPath))
        /\ (fst (getTransactionStreamProcess host x heartbeat 0 configPath tm)
            = fst (getTransactionStream host x heartbeat 0 configPath)
            /\ fst (snd (getTransactionStreamProcess host x heartbeat 0
                           configPath tm))
               = snd (getTransactionStream host x heartbeat 0 configPath)))
  /\ (forall host x credentials res instruments heartbeat heartbeatTimeout
             configPath tm,
        heartbeatTimeout <> 0 ->
        opens host x configPath credentials res ->
        (exists t,
           fst (getStreamProcess host x instruments heartbeat heartbeatTimeout
                  configPath tm)
           = Get (PricingStream (AccountId (Default credentials)) instruments)
               (Token (Default credentials))
             :: GoWatchdog heartbeatTimeout :: t)
        /\ (exists t,
              fst (getTransactionStreamProcess host x heartbeat heartbeatTimeout
                     configPath tm)
              = Get (TransactionsStream (AccountId (Default credentials)))
                  (Token (Default credentials))
                :: GoWatchdog heartbeatTimeout :: t))
  /\ (forall heartbeat heartbeatTimeout line,
        heartbeatTimeout <> 0 ->
        unmarshalType line = ("HEARTBEAT"%string, None) ->
        priceTurn heartbeat heartbeatTimeout (Some line, None)
          = (SendHeartbeat :: (if heartbeat then [Stdout line] else []),
             inr Continue)
        /\ transactionTurn heartbeat heartbeatTimeout (Some line, None)
          = (SendHeartbeat :: (if heartbeat then [Stdout line] else []),
             inr Continue))
  /\ (forall host x credentials res instruments heartbeat heartbeatTimeout
             configPath tm timed later t,
        heartbeatTimeout <> 0 ->
        opens host x configPath credentials res ->
        Lines res = map snd timed ->
        arrivals tm = map fst timed ++ later ->
        inTime heartbeatTimeout (started tm) timed = true ->
        ending tm = Some t ->
        t < lastBeat (started tm) timed + Z.max 0 heartbeatTimeout ->
        (fst (getStreamProcess host x instruments heartbeat heartbeatTimeout
                configPath tm)
         = fst (getStream host x instruments heartbeat heartbeatTimeout configPath)
         /\ fst (snd (getStreamProcess host x instruments heartbeat
                        heartbeatTimeout configPath tm))
            = snd (getStream host x instruments heartbeat heartbeatTimeout
                     configPath))
        /\ (fst (getTransactionStreamProcess host x heartbeat heartbeatTimeout
                   configPath tm)
            = fst (getTransactionStream host x heartbeat heartbeatTimeout
                     configPath)
            /\ fst (snd (getTransactionStreamProcess host x heartbeat
                           heartbeatTimeout configPath tm))
               = snd (getTransactionStream host x heartbeat heartbeatTimeout
                        configPath)))
  /\ (forall host x credentials res instruments heartbeat heartbeatTimeout
             configPath tm timed rest later,
        heartbeatTimeout <> 0 ->
        opens host x configPath credentials res ->
        Lines res = map snd timed ++ rest ->
        arrivals tm = map fst timed ++ later ->
        forallb decodes (map snd timed) = true ->
        inTime heartbeatTimeout (started tm) timed = true ->
        late (lastBeat (started tm) timed + Z.max 0 heartbeatTimeout)
          (nextRead rest later (ending tm)) ->
        getStreamProcess host x instruments heartbeat heartbeatTimeout
          configPath tm
        = (Get (PricingStream (AccountId (Default credentials)) instruments)
             (Token (Default credentials))
             :: GoWatchdog heartbeatTimeout
             :: flat_map (priceEvents heartbeat heartbeatTimeout) (map snd timed),
           (Panic heartbeatTimeoutPanic,
            Some (lastBeat (started tm) timed + Z.max 0 heartbeatTimeout)))
        /\ getTransactionStreamProcess host x heartbeat heartbeatTimeout
             configPath tm
           = (Get (TransactionsStream (AccountId (Default credentials)))
                (Token (Default credentials))
                :: GoWatchdog heartbeatTimeout
                :: flat_map (transactionEvents heartbeat heartbeatTimeout)
                     (map snd timed),
              (Panic heartbeatTimeoutPanic,
               Some (lastBeat (started tm) timed + Z.max 0 heartbeatTimeout))))
  /\ (forall host x instruments heartbeat heartbeatTimeout configPath tm msg,
        fst (snd (getStreamProcess host x instruments heartbeat heartbeatTimeout
                    configPath tm)) = Panic msg
        \/ fst (snd (getTransactionStreamProcess host x heartbeat
                       heartbeatTimeout configPath tm)) = Panic msg ->
        heartbeatTimeout <> 0 /\ msg = heartbeatTimeoutPanic).
Proof.
  assert (P : forall host x instruments heartbeat heartbeatTimeout configPath tm msg,
             fst (snd (getStreamProcess host x instruments heartbeat
                         heartbeatTimeout configPath tm)) = Panic msg
             \/ fst (snd (getTransactionStreamProcess host x heartbeat
                            heartbeatTimeout configPath tm)) = Panic msg ->
             heartbeatTimeout <> 0 /\ msg = heartbeatTimeoutPanic).
  { intros host x instruments heartbeat heartbeatTimeout configPath tm msg [H|H].
    - destruct (getStreamProcess_exit host x instruments heartbeat
                  heartbeatTimeout configPath tm)
        as [[err He] | [[Hnz He] | [_ He]]]; rewrite He in H;
        try discriminate H.
      injection H as <-. split; [exact Hnz | reflexivity].
    - destruct (getTransactionStreamProcess_exit host x heartbeat
                  heartbeatTimeout configPath tm)
        as [[err He] | [[Hnz He] | [_ He]]]; rewrite He in H;
        try discriminate H.
      injection H as <-. split; [exact Hnz | reflexivity]. }
  split; [|split; [|split; [|split; [|split; [|split; [|split]]]]]].
  - intros host x instruments heartbeat configPath. split.
    + apply streamFrom_quiet, priceTurn_quiet.
    + apply streamFrom_quiet, transactionTurn_quiet.
  - intros host x instruments heartbeat configPath tm.
    split; [apply getStreamProcess_quiet|].
    split; [apply getTransactionStreamProcess_quiet|].
    split; intros msg H.
    + destruct (P host x instruments heartbeat 0 configPath tm msg (or_introl H))
        as [Hnz _]. apply Hnz. reflexivity.
    + destruct (P host x instruments heartbeat 0 configPath tm msg (or_intror H))
        as [Hnz _]. apply Hnz. reflexivity.
  - intros host x credentials res instruments heartbeat configPath tm
           Ho Hlen Hend.
    split.
    + exact (streamProcess_zero host _ _ (priceEvents heartbeat 0) 0
               (priceTurn_fault heartbeat 0) (priceTurn_decoded heartbeat 0)
               x configPath credentials res tm eq_refl Ho Hlen Hend).
    + exact (streamProcess_zero host _ _ (transactionEvents heartbeat 0) 0
               (transactionTurn_fault heartbeat 0)
               (transactionTurn_decoded heartbeat 0)
               x configPath credentials res tm eq_refl Ho Hlen Hend).
  - intros host x credentials res instruments heartbeat heartbeatTimeout
           configPath tm Hnz Ho.
    unfold getStreamProcess, getTransactionStreamProcess.
    rewrite !(streamProcess_opened host _ _ heartbeatTimeout x configPath
                credentials res tm Ho).
    destruct (Z.eqb_spec heartbeatTimeout 0) as [Hz|_]; [contradiction|].
    split; eexists; reflexivity.
  - intros heartbeat heartbeatTimeout line Hnz Hd.
    assert (Hb : negb (heartbeatTimeout =? 0) = true).
    { apply negb_true_iff, Z.eqb_neq, Hnz. }
    unfold priceTurn, transactionTurn, Unmarshal_PriceOrHeartbeat,
      Unmarshal_TransactionOrHeartbeat.
    rewrite Hd. simpl. rewrite Hb. destruct heartbeat; split; reflexivity.
  - intros host x credentials res instruments heartbeat heartbeatTimeout
           configPath tm timed later t Hnz Ho Hl Ha Ht He Hlast.
    split.
    + exact (streamProcess_survives host _ _
               (priceEvents heartbeat heartbeatTimeout) heartbeatTimeout
               (priceTurn_fault heartbeat heartbeatTimeout)
               (priceTurn_decoded heartbeat heartbeatTimeout)
               (priceEvents_signalled heartbeat heartbeatTimeout)
               x configPath credentials res tm timed later t
               Hnz Ho Hl Ha Ht He Hlast).
    + exact (streamProcess_survives host _ _
               (transactionEvents heartbeat heartbeatTimeout) heartbeatTimeout
               (transactionTurn_fault heartbeat heartbeatTimeout)
               (transactionTurn_decoded heartbeat heartbeatTimeout)
               (transactionEvents_signalled heartbeat heartbeatTimeout)
               x configPath credentials res tm timed later t
               Hnz Ho Hl Ha Ht He Hlast).
  - intros host x credentials res instruments heartbeat heartbeatTimeout
           configPath tm timed rest later Hnz Ho Hl Ha Hd Ht Hlate.
    split.
    + exact (streamProcess_expires host
               (fun account => PricingStream (AccountId account) instruments)
               _ (priceEvents heartbeat heartbeatTimeout) heartbeatTimeout
               (priceTurn_decoded heartbeat heartbeatTimeout)
               (priceEvents_signalled heartbeat heartbeatTimeout)
               x configPath credentials res tm timed rest later
               Hnz Ho Hl Ha Hd Ht Hlate).
    + exact (streamProcess_expires host
               (fun account => TransactionsStream (AccountId account))
               _ (transactionEvents heartbeat heartbeatTimeout) heartbeatTimeout
               (transactionTurn_decoded heartbeat heartbeatTimeout)
               (transactionEvents_signalled heartbeat heartbeatTimeout)
               x configPath credentials res tm timed rest later
               Hnz Ho Hl Ha Hd Ht Hlate).
  - exact P.
Qed.

(** With a timeout of 50 ms, a stream that opens at 0 and brings a
    heartbeat every 10 ms up to 200 ms is alive all that time: every
    heartbeat is handled, and the process dies at 250 ms if nothing more
    comes, or returns the end of the stream if that comes at 240 ms.  A
    stream that brings one heartbeat, at 0, and then nothing dies at 50 ms,
    also when the end of the stream comes at 60 ms. *)
Lemma watchdog_behaviour_witness :
  getStreamProcess demoHost (streaming heartbeats20 EOF) "EUR_USD" false
    50000000 "oanda.yaml" (timing 0 every10ms None)
  = (Get (PricingStream "101-004-1-001" "EUR_USD") "t0k3n"
       :: GoWatchdog 50000000 :: repeat SendHeartbeat 20,
     (Panic heartbeatTimeoutPanic, Some 250000000))
  /\ (fst (getStreamProcess demoHost (streaming heartbeats20 EOF) "EUR_USD" false
             50000000 "oanda.yaml" (timing 0 every10ms (Some 240000000)))
      = Get (PricingStream "101-004-1-001" "EUR_USD") "t0k3n"
          :: GoWatchdog 50000000 :: repeat SendHeartbeat 20
      /\ fst (snd (getStreamProcess demoHost (streaming heartbeats20 EOF)
                     "EUR_USD" false 50000000 "oanda.yaml"
                     (timing 0 every10ms (Some 240000000))))
         = Return (Some EOF))
  /\ getStreamProcess demoHost (streaming [heartbeatLine] EOF) "EUR_USD" false
       50000000 "oanda.yaml" (timing 0 [0] (Some 60000000))
     = ([Get (PricingStream "101-004-1-001" "EUR_USD") "t0k3n";
         GoWatchdog 50000000; SendHeartbeat],
        (Panic heartbeatTimeoutPanic, Some 50000000)).
Proof.
  assert (Hnz : 50000000 <> 0) by discriminate.
  split; [|split].
  - pose proof (proj1 (proj1 (proj2 (proj2 (proj2 (proj2 (proj2 (proj2
                  watchdog_behaviour))))))
                  demoHost (streaming heartbeats20 EOF) _ _ "EUR_USD"%string false
                  50000000 "oanda.yaml"%string (timing 0 every10ms None)
                  (combine every10ms heartbeats20) [] []
                  Hnz (conj eq_refl (conj eq_refl (conj eq_refl eq_refl)))
                  eq_refl eq_refl eq_refl eq_refl I)) as H.
    etransitivity; [exact H|]. vm_compute. reflexivity.
  - pose proof (proj1 (proj1 (proj2 (proj2 (proj2 (proj2 (proj2
                  watchdog_behaviour)))))
                  demoHost (streaming heartbeats20 EOF) _ _ "EUR_USD"%string false
                  50000000 "oanda.yaml"%string
                  (timing 0 every10ms (Some 240000000))
                  (combine every10ms heartbeats20) [] 240000000
                  Hnz (conj eq_refl (conj eq_refl (conj eq_refl eq_refl)))
                  eq_refl eq_refl eq_refl eq_refl eq_refl)) as [H1 H2].
    split.
    + etransitivity; [exact H1|]. vm_compute. reflexivity.
    + etransitivity; [exact H2|]. vm_compute. reflexivity.
  - assert (Hl : 0 + Z.max 0 50000000 < 60000000) by reflexivity.
    pose proof (proj1 (proj1 (proj2 (proj2 (proj2 (proj2 (proj2 (proj2
                  watchdog_behaviour))))))
                  demoHost (streaming [heartbeatLine] EOF) _ _ "EUR_USD"%string
                  false 50000000 "oanda.yaml"%string
                  (timing 0 [0] (Some 60000000))
                  [(0, heartbeatLine)] [] []
                  Hnz (conj eq_refl (conj eq_refl (conj eq_refl eq_refl)))
                  eq_refl eq_refl eq_refl eq_refl Hl)) as H.
    etransitivity; [exact H|]. vm_compute. reflexivity.
Defined.





Lemma heartbeatEvents_sends (heartbeat : bool) (heartbeatTimeout : Duration)
  (line : bytes) :
  sends (heartbeatEvents heartbeat heartbeatTimeout line)
  = if negb (heartbeatTimeout =? 0) then 1%nat else 0%nat.
Proof.
  unfold heartbeatEvents.
  destruct (negb (heartbeatTimeout =? 0)), heartbeat; reflexivity.
Qed.

(** X11. With a nonzero heartbeat timeout the process of either stream
    that opens sends the watchdog one signal for each heartbeat line among
    the lines it gets to, of those that come before the first line that
    does not decode, and none for any other line: never more than there
    are heartbeat lines among these, and as many when it ends by a return.
    With a zero timeout it sends none. *)
Theorem one_signal_per_heartbeat :
  forall (host : Host) (x : Exchange) (res : Response) (credentials : Credentials)
         (instruments configPath : string) (heartbeat : bool)
         (heartbeatTimeout : Duration) (tm : Timing),
    opens host x configPath credentials res ->
    (exists n,
       sends (fst (getStreamProcess host x instruments heartbeat heartbeatTimeout
                     configPath tm))
       = (if heartbeatTimeout =? 0 then 0%nat
          else List.length (filter isHeartbeat
                              (firstn n (decodedPrefix (Lines res))))))
    /\ (exists n,
          sends (fst (getTransactionStreamProcess host x heartbeat
                        heartbeatTimeout configPath tm))
          = (if heartbeatTimeout =? 0 then 0%nat
             else List.length (filter isHeartbeat
                                 (firstn n (decodedPrefix (Lines res))))))
    /\ (sends (fst (getStreamProcess host x instruments heartbeat
                      heartbeatTimeout configPath tm))
        <= List.length (filter isHeartbeat (decodedPrefix (Lines res))))%nat
    /\ (sends (fst (getTransactionStreamProcess host x heartbeat
                      heartbeatTimeout configPath tm))
        <= List.length (filter isHeartbeat (decodedPrefix (Lines res))))%nat
    /\ (forall err,
          fst (snd (getStreamProcess host x instruments heartbeat
                      heartbeatTimeout configPath tm)) = Return err ->
          sends (fst (getStreamProcess host x instruments heartbeat
                        heartbeatTimeout configPath tm))
          = (if heartbeatTimeout =? 0 then 0%nat
             else List.length (filter isHeartbeat (decodedPrefix (Lines res)))))
    /\ (forall err,
          fst (snd (getTransactionStreamProcess host x heartbeat
                      heartbeatTimeout configPath tm)) = Return err ->
          sends (fst (getTransactionStreamProcess host x heartbeat
                        heartbeatTimeout configPath tm))
          = (if heartbeatTimeout =? 0 then 0%nat
             else List.length (filter isHeartbeat (decodedPrefix (Lines res))))).
Proof.
  intros host x res credentials instruments configPath heartbeat heartbeatTimeout
         tm Ho.
  assert (G : forall target turn events,
             (forall e, turn (None, Some e) = returnErr (Some e)) ->
             (forall line,
                turn (Some line, None)
                = match snd (unmarshalType line) with
                  | Some e => ([], inl (Return (Some e)))
                  | None => (events line, inr Continue)
                  end) ->
             (forall line,
                sends (events line)
                = if negb (heartbeatTimeout =? 0) && isHeartbeat line
                  then 1%nat else 0%nat) ->
             (exists n,
                sends (fst (streamProcess host target turn x heartbeatTimeout
                              configPath tm))
                = (if heartbeatTimeout =? 0 then 0%nat
                   else List.length (filter isHeartbeat
                                       (firstn n (decodedPrefix (Lines res))))))
             /\ (forall err,
                   fst (snd (streamProcess host target turn x heartbeatTimeout
                               configPath tm)) = Return err ->
                   sends (fst (streamProcess host target turn x heartbeatTimeout
                                 configPath tm))
                   = (if heartbeatTimeout =? 0 then 0%nat
                      else List.length (filter isHeartbeat
                                          (decodedPrefix (Lines res)))))).
  { intros target turn events Hf Hl Hs.
    assert (S : forall lines,
               sends ((Get (target (Default credentials))
                         (Token (Default credentials))
                         :: (if negb (heartbeatTimeout =? 0)
                             then [GoWatchdog heartbeatTimeout] else []))
                        ++ flat_map events lines)
               = (if heartbeatTimeout =? 0 then 0%nat
                  else List.length (filter isHeartbeat lines))).
    { intros lines. rewrite sends_app.
      replace (sends (Get (target (Default credentials))
                        (Token (Default credentials))
                        :: (if negb (heartbeatTimeout =? 0)
                            then [GoWatchdog heartbeatTimeout] else [])))
        with 0%nat by (destruct (negb (heartbeatTimeout =? 0)); reflexivity).
      cbn [Nat.add].
      rewrite (sends_flat_map events
                 (fun line => negb (heartbeatTimeout =? 0) && isHeartbeat line)
                 lines Hs).
      destruct (heartbeatTimeout =? 0); cbn [negb andb]; [|reflexivity].
      induction lines as [|l lines IH]; [reflexivity | exact IH]. }
    destruct (streamProcess_cases host target turn events heartbeatTimeout
                Hf Hl x configPath credentials res tm Ho) as [n [Hn Hc]].
    split.
    - exists n. rewrite Hn. apply S.
    - intros err He.
      destruct Hc as [[Hw _] | [[_ Hp] | [_ [Hp _]]]].
      + rewrite Hw. apply S.
      + rewrite Hp in He. discriminate He.
      + rewrite Hp in He. discriminate He. }
  assert (Sp : forall line,
             sends (priceEvents heartbeat heartbeatTimeout line)
             = if negb (heartbeatTimeout =? 0) && isHeartbeat line
               then 1%nat else 0%nat).
  { intros line. unfold priceEvents.
    destruct (String.eqb (typeOf line) "PRICE") eqn:Ep.
    - unfold isHeartbeat. apply String.eqb_eq in Ep. rewrite Ep.
      destruct (negb (heartbeatTimeout =? 0)); reflexivity.
    - destruct (isHeartbeat line).
      + rewrite heartbeatEvents_sends.
        destruct (negb (heartbeatTimeout =? 0)); reflexivity.
      + rewrite andb_false_r. reflexivity. }
  assert (St : forall line,
             sends (transactionEvents heartbeat heartbeatTimeout line)
             = if negb (heartbeatTimeout =? 0) && isHeartbeat line
               then 1%nat else 0%nat).
  { intros line. unfold transactionEvents.
    destruct (isHeartbeat line).
    - rewrite heartbeatEvents_sends.
      destruct (negb (heartbeatTimeout =? 0)); reflexivity.
    - rewrite andb_false_r. reflexivity. }
  destruct (G (fun account => PricingStream (AccountId account) instruments)
              (priceTurn heartbeat heartbeatTimeout)
              (priceEvents heartbeat heartbeatTimeout)
              (priceTurn_fault heartbeat heartbeatTimeout)
              (priceTurn_decoded heartbeat heartbeatTimeout) Sp)
    as [[n Hn] Hr].
  destruct (G (fun account => TransactionsStream (AccountId account))
              (transactionTurn heartbeat heartbeatTimeout)
              (transactionEvents heartbeat heartbeatTimeout)
              (transactionTurn_fault heartbeat heartbeatTimeout)
              (transactionTurn_decoded heartbeat heartbeatTimeout) St)
    as [[n' Hn'] Hr'].
  split; [exists n; exact Hn|]. split; [exists n'; exact Hn'|].
  split; [|split; [|split; [exact Hr | exact Hr']]].
  - unfold getStreamProcess. rewrite Hn.
    destruct (heartbeatTimeout =? 0); [lia | apply filter_firstn_length].
  - unfold getTransactionStreamProcess. rewrite Hn'.
    destruct (heartbeatTimeout =? 0); [lia | apply filter_firstn_length].
Qed.

(** Of the two heartbeats of a stream, the second read after the timer
    armed by the first was due, one is signalled; both are when the second
    is read in time. *)
Lemma one_signal_per_heartbeat_witness :
  sends (fst (getStreamProcess demoHost
                (streaming [heartbeatLine; heartbeatLine] EOF) "EUR_USD" false
                5000000 "oanda.yaml" (timing 0 [1000000; 9000000] None)))
  = 1%nat
  /\ sends (fst (getStreamProcess demoHost
                   (streaming [heartbeatLine; heartbeatLine] EOF) "EUR_USD" false
                   5000000 "oanda.yaml"
                   (timing 0 [1000000; 5000000] (Some 6000000))))
     = 2%nat.
Proof.
  split; [vm_compute; reflexivity|].
  pose proof (one_signal_per_heartbeat demoHost
                (streaming [heartbeatLine; heartbeatLine] EOF) _ _
                "EUR_USD" "oanda.yaml" false 5000000
                (timing 0 [1000000; 5000000] (Some 6000000))
                (conj eq_refl (conj eq_refl (conj eq_refl eq_refl))))
    as [_ [_ [_ [_ [Hr _]]]]].
  etransitivity; [apply (Hr (Some EOF)); vm_compute; reflexivity|].
  vm_compute. reflexivity.
Defined.

Lemma bind_head_ex {A B} (m : M A) (k : A -> M B) (e : event) :
  (exists t, fst m = e :: t) -> exists t, fst (bind m k) = e :: t.
Proof. intros [t H]. eapply bind_head. exact H. Qed.

(** X20. Whatever the exchange and however the reads are timed, what the
    process of a stream does is an initial part of what the calling
    goroutine does when it is followed to its end: the watchdog adds no
    event of its own and only cuts the run short. *)
Theorem process_follows_the_stream :
  forall (host : Host) (x : Exchange) (instruments configPath : string)
         (heartbeat : bool) (heartbeatTimeout : Duration) (tm : Timing),
    (exists rest,
       fst (getStream host x instruments heartbeat heartbeatTimeout configPath)
       = fst (getStreamProcess host x instruments heartbeat heartbeatTimeout
                configPath tm) ++ rest)
    /\ (exists rest,
          fst (getTransactionStream host x heartbeat heartbeatTimeout configPath)
          = fst (getTransactionStreamProcess host x heartbeat heartbeatTimeout
                   configPath tm) ++ rest).
Proof.
  intros host x instruments configPath heartbeat heartbeatTimeout tm.
  split; apply streamProcess_prefix.
Qed.

(** ** Requests that fail *)

(** X12. A stream whose request is answered with a status other than 200
    writes the status line to standard error and returns the body of the
    response as an error, or the error of reading it; it starts no
    watchdog, whatever the timeout, reads no line and prints nothing. *)
Theorem refused_stream :
  forall (host : Host) (x : Exchange) (res : Response) (credentials : Credentials)
         (instruments configPath : string) (heartbeat : bool)
         (heartbeatTimeout : Duration),
    GetCredentials host configPath = inr credentials ->
    NewRequest x = None ->
    Do x = inr res ->
    StatusCode res <> 200 ->
    getStream host x instruments heartbeat heartbeatTimeout configPath
      = ([Get (PricingStream (AccountId (Default credentials)) instruments)
            (Token (Default credentials));
          Stderr (Status res)],
         Return (Some match ReadAll res with
                      | inl err => err
                      | inr body => ErrorsNew body
                      end))
    /\ getTransactionStream host x heartbeat heartbeatTimeout configPath
       = ([Get (TransactionsStream (AccountId (Default credentials)))
             (Token (Default credentials));
           Stderr (Status res)],
          Return (Some match ReadAll res with
                       | inl err => err
                       | inr body => ErrorsNew body
                       end)).
Proof.
  intros host x res credentials instruments configPath heartbeat heartbeatTimeout
         Hc Hn Hd Hs.
  assert (Hb : negb (StatusCode res =? 200) = true).
  { apply negb_true_iff, Z.eqb_neq, Hs. }
  unfold getStream, getTransactionStream, streamFrom.
  rewrite Hc, Hn, Hd. unfold try, check. rewrite !bind_ret_l, Hb.
  destruct (ReadAll res) as [err|body]; split; reflexivity.
Qed.

Lemma refused_stream_witness :
  getStream demoHost (refusing unauthorized) "EUR_USD" true
    5000000000 "oanda.yaml"
  = ([Get (PricingStream "101-004-1-001" "EUR_USD") "t0k3n";
      Stderr "401 Unauthorized"],
     Return (Some (ErrorsNew unauthorized)))
  /\ getTransactionStream demoHost (refusing unauthorized) true
       5000000000 "oanda.yaml"
     = ([Get (TransactionsStream "101-004-1-001") "t0k3n";
         Stderr "401 Unauthorized"],
        Return (Some (ErrorsNew unauthorized))).
Proof.
  refine (refused_stream demoHost (refusing unauthorized) _ _
            "EUR_USD" "oanda.yaml" true 5000000000 eq_refl eq_refl eq_refl _).
  intros H. discriminate H.
Defined.

(** X13. The candle request reads the whole body before it looks at the
    status.  A body that cannot be read yields the error of the read and
    no status line, even when the request was refused; a refused request
    whose body was read writes the status line to standard error and
    returns the body as an error; a response with status 200 whose body
    is not JSON returns a syntax error.  The poller ends with that error
    at once: it prints nothing for the turn, does not sleep and makes no
    further request. *)
Theorem failed_poll_ends_poller :
  forall (host : Host) (x : Exchange) (res : Response) (credentials : Credentials)
         (instrument granularity configPath : string) (from0 : time_Time)
         (pollingInterval : Duration) (completedOnly : bool) (xs : list Exchange),
    GetCredentials host configPath = inr credentials ->
    NewRequest x = None ->
    Do x = inr res ->
    (forall err, ReadAll res = inl err ->
       getCandlesStream host (x :: xs) instrument granularity from0
         pollingInterval completedOnly configPath
       = ([Get (InstrumentCandles instrument granularity (Format_RFC3339 from0))
             (Token (Default credentials))],
          Return (Some err)))
    /\ (forall body, ReadAll res = inr body -> StatusCode res <> 200 ->
          getCandlesStream host (x :: xs) instrument granularity from0
            pollingInterval completedOnly configPath
          = ([Get (InstrumentCandles instrument granularity (Format_RFC3339 from0))
                (Token (Default credentials));
              Stderr (Status res)],
             Return (Some (ErrorsNew body))))
    /\ (forall body, ReadAll res = inr body -> StatusCode res = 200 ->
          parse body = None ->
          getCandlesStream host (x :: xs) instrument granularity from0
            pollingInterval completedOnly configPath
          = ([Get (InstrumentCandles instrument granularity (Format_RFC3339 from0))
                (Token (Default credentials))],
             Return (Some SyntaxError))).
Proof.
  intros host x res credentials instrument granularity configPath from0
         pollingInterval completedOnly xs Hc Hn Hd.
  assert (U : getCandlesStream host (x :: xs) instrument granularity from0
                pollingInterval completedOnly configPath
              = call (cur' <- (candles <- getCandlesForStream host x credentials
                                            instrument granularity from0 ;;
                               cur' <- processBatch host completedOnly candles
                                         {| lastCandle := None; from := from0 |} ;;
                               emit (Sleep pollingInterval) ;;; ret cur') ;;
                      pollLoop host xs credentials instrument granularity
                        pollingInterval completedOnly cur' ;;; running)).
  { rewrite (getCandlesStream_unfold _ _ _ _ _ _ _ _ _ Hc).
    cbn [pollLoop]. unfold pollTurn. cbn [from].
    rewrite bind_assoc. reflexivity. }
  rewrite U. unfold getCandlesForStream, check, try.
  rewrite Hn, Hd, !bind_ret_l. unfold emit at 1 3 5.
  split; [|split].
  - intros err Hr. rewrite Hr. reflexivity.
  - intros body Hr Hs. rewrite Hr.
    assert (Hb : negb (StatusCode res =? 200) = true).
    { apply negb_true_iff, Z.eqb_neq, Hs. }
    rewrite bind_ret_l, Hb. reflexivity.
  - intros body Hr Hs Hp. rewrite Hr, bind_ret_l, Hs.
    change (negb (200 =? 200)) with false. cbv iota. rewrite bind_ret_l.
    unfold Unmarshal_CandlesResponseBody. rewrite Hp. reflexivity.
Qed.

Lemma failed_poll_ends_poller_witness :
  getCandlesStream demoHost
    [refusing unauthorized; answering (jsonText "{'candles':[]}")]
    "EUR_USD" "S5" t1000 1000000000 false "oanda.yaml"
  = ([Get (InstrumentCandles "EUR_USD" "S5" (Format_RFC3339 t1000)) "t0k3n";
      Stderr "401 Unauthorized"],
     Return (Some (ErrorsNew unauthorized))).
Proof.
  refine (proj1 (proj2
            (failed_poll_ends_poller demoHost
               (refusing unauthorized) _ _
               "EUR_USD" "S5" "oanda.yaml" t1000 1000000000 false
               [answering (jsonText "{'candles':[]}")]
               eq_refl eq_refl eq_refl))
            unauthorized eq_refl _).
  intros H. discriminate H.
Defined.

(** X14. Neither the pricing nor the transactions command ever returns a
    nil error: whatever the flags, the credentials and the response, the
    calling goroutine does not come to return nil, and however the reads
    are timed the process does not end by a return of nil.  (Whether it
    ends at all, and whether by a return, is another matter: the watchdog
    may end it first, and without one a read may never return.) *)
Theorem stream_actions_never_return_nil :
  forall (host : Host) (x : Exchange) (c : Context),
    snd (pricingAction host x c) <> Return None
    /\ snd (transactionsAction host x c) <> Return None
    /\ (forall tm,
          fst (snd (getStreamProcess host x (c_String c "instruments")
                      (c_Bool c "heartbeat") (c_Duration c "heartbeat-timeout")
                      (c_String c "config") tm)) <> Return None)
    /\ (forall tm,
          fst (snd (getTransactionStreamProcess host x (c_Bool c "heartbeat")
                      (c_Duration c "heartbeat-timeout") (c_String c "config")
                      tm)) <> Return None).
Proof.
  intros host x c. split; [|split; [|split]].
  - unfold pricingAction.
    destruct (getStream_returns_error host x (c_String c "instruments")
                (c_Bool c "heartbeat") (c_Duration c "heartbeat-timeout")
                (c_String c "config")) as [e ->].
    discriminate.
  - unfold transactionsAction.
    destruct (getTransactionStream_returns_error host x (c_Bool c "heartbeat")
                (c_Duration c "heartbeat-timeout") (c_String c "config"))
      as [e ->].
    discriminate.
  - intros tm.
    destruct (getStreamProcess_exit host x (c_String c "instruments")
                (c_Bool c "heartbeat") (c_Duration c "heartbeat-timeout")
                (c_String c "config") tm)
      as [[err ->] | [[_ ->] | [_ ->]]]; discriminate.
  - intros tm.
    destruct (getTransactionStreamProcess_exit host x (c_Bool c "heartbeat")
                (c_Duration c "heartbeat-timeout") (c_String c "config") tm)
      as [[err ->] | [[_ ->] | [_ ->]]]; discriminate.
Qed.

(** ** The command line *)

(** X15. The default path of the credentials file is never empty: it is
    the value of OANDA_CREDENTIALS_PATH when that is set and not empty,
    whether the home directory is known or not, and otherwise the file
    [.config/oanda/credentials.yaml] under the home directory; it is
    missing only when the variable is empty or unset and the home directory
    is unknown, with the error of the latter. *)
Theorem default_config_path :
  forall (Getenv : string -> string) (UserHomeDir : error + string),
    match GetDefaultConfigPath Getenv UserHomeDir with
    | inr path =>
        path <> EmptyString
        /\ (Getenv "OANDA_CREDENTIALS_PATH"%string <> EmptyString ->
            path = Getenv "OANDA_CREDENTIALS_PATH"%string)
        /\ (Getenv "OANDA_CREDENTIALS_PATH"%string = EmptyString ->
            exists home, UserHomeDir = inr home
              /\ path = (home ++ "/.config/oanda/credentials.yaml")%string)
    | inl err =>
        Getenv "OANDA_CREDENTIALS_PATH"%string = EmptyString
        /\ UserHomeDir = inl err
    end.
Proof.
  intros Getenv UserHomeDir. unfold GetDefaultConfigPath.
  destruct (String.eqb_spec (Getenv "OANDA_CREDENTIALS_PATH"%string) EmptyString)
    as [He|Hne]; simpl.
  - destruct UserHomeDir as [err|home]; [split; [exact He | reflexivity]|].
    split; [|split].
    + destruct home; discriminate.
    + intros H. contradiction.
    + intros _. exists home. split; reflexivity.
  - split; [exact Hne|]. split; [reflexivity|].
    intros H. contradiction.
Qed.

(** X16. The candles command asks first for the candles from the time
    given by the flag [from], and from the current time when the flag is
    not given, written in the RFC 3339 layout and so cut to the second,
    for the instrument and granularity of its flags and under the token of
    the credentials file named by the flag [config]. *)
Theorem candlesAction_first_request :
  forall (host : Host) (now : time_Time) (x : Exchange) (xs : list Exchange)
         (c : Context) (credentials : Credentials),
    GetCredentials host (c_String c "config") = inr credentials ->
    NewRequest x = None ->
    exists t,
      fst (candlesAction host now (x :: xs) c)
      = Get (InstrumentCandles (c_String c "instrument") (c_String c "granularity")
               (Format_RFC3339
                  match c_Timestamp c "from" with
                  | Some from => from
                  | None => now
                  end))
          (Token (Default credentials)) :: t.
Proof.
  intros host now x xs c credentials Hc Hn.
  unfold candlesAction.
  rewrite (getCandlesStream_unfold _ _ _ _ _ _ _ _ _ Hc).
  cbn [pollLoop]. rewrite call_fst.
  do 2 apply bind_head_ex.
  exact (pollTurn_asks_from_cursor host x credentials _ _ _ _
           {| lastCandle := None;
              from := match c_Timestamp c "from" with
                      | Some from => from
                      | None => now
                      end |} Hn).
Qed.

Lemma candlesAction_first_request_witness :
  exists t,
    fst (candlesAction demoHost t1005
           [answering (jsonText "{'candles':[]}")]
           (candleDefaults "EUR_USD" "oanda.yaml"))
    = Get (InstrumentCandles "EUR_USD" "S5" (Format_RFC3339 t1005)) "t0k3n" :: t.
Proof.
  exact (candlesAction_first_request demoHost t1005
           (answering (jsonText "{'candles':[]}")) []
           (candleDefaults "EUR_USD" "oanda.yaml") _ eq_refl eq_refl).
Defined.

(** X19. The time of a request is written to the second: two values of
    [from] that fall in the same second and carry the same zone give the
    same request, and so the same turn of the poller. *)
Theorem request_time_to_the_second :
  forall (host : Host) (x : Exchange) (credentials : Credentials)
         (instrument granularity : string) (t u : time_Time),
    unixNano t / 1000000000 = unixNano u / 1000000000 ->
    zoneOffset t = zoneOffset u ->
    getCandlesForStream host x credentials instrument granularity t
    = getCandlesForStream host x credentials instrument granularity u.
Proof.
  intros host x credentials instrument granularity t u Hs Hz.
  unfold getCandlesForStream, Format_RFC3339. rewrite Hs, Hz. reflexivity.
Qed.

Lemma request_time_to_the_second_witness :
  getCandlesForStream demoHost (answering (jsonText "{'candles':[]}"))
    {| Default := {| AccountId := "101-004-1-001"; Token := "t0k3n" |} |}
    "EUR_USD" "S5" (mkTime 1704103200000000000 0)
  = getCandlesForStream demoHost (answering (jsonText "{'candles':[]}"))
      {| Default := {| AccountId := "101-004-1-001"; Token := "t0k3n" |} |}
      "EUR_USD" "S5" (mkTime 1704103200999999999 0).
Proof.
  exact (request_time_to_the_second demoHost
           (answering (jsonText "{'candles':[]}"))
           {| Default := {| AccountId := "101-004-1-001"; Token := "t0k3n" |} |}
           "EUR_USD" "S5" (mkTime 1704103200000000000 0)
           (mkTime 1704103200999999999 0) eq_refl eq_refl).
Defined.

(** X17. With OANDA_CREDENTIALS_PATH unset or empty, the credentials
    loaded from the default path are those that the earlier revision
    loaded from its fixed path, and the two fail alike when the home
    directory is unknown. *)
Theorem default_path_agrees_with_v1 :
  forall (host : Host) (Getenv : string -> string) (UserHomeDir : error + string),
    Getenv "OANDA_CREDENTIALS_PATH"%string = EmptyString ->
    match GetDefaultConfigPath Getenv UserHomeDir with
    | inl err => GetCredentials_v1 host UserHomeDir = inl err
    | inr path => GetCredentials host path = GetCredentials_v1 host UserHomeDir
    end.
Proof.
  intros host Getenv UserHomeDir He.
  unfold GetDefaultConfigPath, GetCredentials_v1, GetCredentials.
  rewrite He. simpl. destruct UserHomeDir as [err|home]; reflexivity.
Qed.

Lemma default_path_agrees_with_v1_witness :
  GetCredentials demoHost "/home/trader/.config/oanda/credentials.yaml"
  = GetCredentials_v1 demoHost (inr "/home/trader"%string).
Proof.
  exact (default_path_agrees_with_v1 demoHost (fun _ => EmptyString)
           (inr "/home/trader"%string) eq_refl).
Defined.

Lemma serialize_In (host : Host) (cs : list Candlestick) (l : bytes) :
  In l (fst (serialize host cs)) ->
  exists c, In c cs /\ json_Marshal host c = inr l.
Proof.
  induction cs as [|c rest IH]; simpl; [intros []|].
  destruct (json_Marshal host c) as [err|b] eqn:E; simpl; [intros []|].
  destruct (serialize host rest) as [bs e]. simpl in *.
  intros [H | H].
  - subst b. exists c. split; [left; reflexivity | exact E].
  - destruct (IH H) as [c' [Hin Hm]]. exists c'. split; [right; exact Hin | exact Hm].
Qed.

(** X18. Whatever a batch prints is the serialization of a candle of that
    batch that is newer than the last candle of the cursor, if there is
    one, and complete if completed-only mode is set: the poller never
    prints an incomplete bar in that mode, nor a bar that is not newer
    than its cursor. *)
Theorem printed_lines_are_wanted :
  forall (host : Host) (completedOnly : bool) (cs : list Candlestick)
         (cur : PollCursor) (l : bytes),
    In l (stdout (fst (processBatch host completedOnly (Some cs) cur))) ->
    exists c,
      In c cs
      /\ json_Marshal host c = inr l
      /\ (completedOnly = true -> Complete c = true)
      /\ (forall last, lastCandle cur = Some last -> NewerThan c last = true).
Proof.
  intros host completedOnly cs cur l Hin.
  assert (E : stdout (fst (processBatch host completedOnly (Some cs) cur))
              = fst (serialize host
                       (filter (wanted completedOnly (lastCandle cur)) cs))).
  { unfold processBatch, emitNewer, deref.
    rewrite bind_ret_l, rangeCandles_serialize.
    destruct (serialize host (filter (wanted completedOnly (lastCandle cur)) cs))
      as [bs [err|]]; simpl.
    - apply stdout_map_Stdout.
    - destruct (advanceCursor_value cs cur) as [cur' Hc].
      fold (@deref (list Candlestick) (Some cs)).
      change (bind (deref (Some cs)) _) with (advanceCursor (Some cs) cur).
      rewrite Hc. simpl. rewrite app_nil_r. apply stdout_map_Stdout. }
  rewrite E in Hin.
  destruct (serialize_In host _ l Hin) as [c [Hc Hm]].
  apply filter_In in Hc. destruct Hc as [Hc Hw].
  exists c. split; [exact Hc|]. split; [exact Hm|].
  unfold wanted in Hw. apply andb_true_iff in Hw. destruct Hw as [H1 H2].
  split.
  - intros ->. simpl in H1. destruct (Complete c); [reflexivity | discriminate].
  - intros last Hl. rewrite Hl in H2. exact H2.
Qed.

Lemma printed_lines_are_wanted_witness :
  exists c,
    In c batch2
    /\ json_Marshal demoHost c
       = inr (jsonText "{'complete':true,'volume':5,'time':1704103200000000000}")
    /\ (true = true -> Complete c = true)
    /\ (forall last,
          lastCandle {| lastCandle := Some (bar t1000 false 3); from := t1000 |}
            = Some last ->
          NewerThan c last = true).
Proof.
  refine (printed_lines_are_wanted demoHost true batch2
            {| lastCandle := Some (bar t1000 false 3); from := t1000 |}
            (jsonText "{'complete':true,'volume':5,'time':1704103200000000000}") _).
  vm_compute. left. reflexivity.
Defined.
